(** * BasketballDataExtractor: a shallow embedding and its properties

    Source: [src/data_extractor/basketball_data_extractor.py].

    The extractor keeps six append-only record lists.  Six extraction
    methods turn per-frame dictionaries into flat records, one method
    writes the lists as a JSON document, one computes a summary.

    How the Python is read:
    - the arguments have the containers of their type hints: a
      [List[Dict]] is a list of dicts, [frame_numbers : List[int]] a
      list of ints; what the dicts hold is any value ([pyval]: None,
      a bool, an int, a float, a string, a list, a tuple or a dict),
      and an operation applied to a value of the wrong type raises;
    - a dictionary is an association list in insertion order, keyed by
      ints (tracker ids, the ball's id 1) or strings;
    - an int is unbounded ([Z]); a float is an IEEE binary64 number
      ([PrimFloat.float]), and its operations are the machine's;
    - a raised exception is an explicit result, and the state reached
      when it is raised is kept: records appended before it stay;
    - a record the code builds as a dict literal is a Rocq record with
      the same field names; [*_entry_py] gives the dict back;
    - of [json.dump] and [json.load] the document tree is modelled, not
      its text, with the two exceptions that depend on the data:
      ValueError for an int of more than 4300 digits and RecursionError
      for values nested too deep; the clock, the room the recursion
      limit leaves and the file system are arguments.

    The file has two parts: the definitions (values, state, methods,
    the vocabulary of the properties, examples), then the lemmas and
    the theorems C1 to C10. *)

From Stdlib Require Import ZArith List String Ascii Bool Lia.
From Stdlib Require Import Floats DecimalString.
Import ListNotations.

Local Open Scope string_scope.
Local Open Scope list_scope.
Local Open Scope Z_scope.

Set Implicit Arguments.
Set Warnings "-register-all,-inexact-float".

(* ================================================================== *)
(** ** Python values *)
(* ================================================================== *)

Module Py.

(** Exceptions the modelled code can raise. *)
Inductive exn : Type :=
| TypeError
| AttributeError
| KeyError
| IndexError
| OverflowError
| ZeroDivisionError
| ValueError
| RecursionError
| OSError.

Inductive result (A : Type) : Type :=
| Ok (a : A)
| Raise (e : exn).

Arguments Ok {A} a.
Arguments Raise {A} e.

Definition rbind {A B} (r : result A) (k : A -> result B) : result B :=
  match r with
  | Ok a => k a
  | Raise e => Raise e
  end.

(** Identifiers used as dictionary keys: tracker ids are integers (the
    ball's sentinel id is the integer 1), field names and the player
    names of the examples are strings. *)
Inductive key : Type :=
| KInt (z : Z)
| KStr (s : string).

(** Values that are not containers. *)
Inductive scalar : Type :=
| SNone
| SBool (b : bool)
| SInt (z : Z)
| SFloat (f : float)
| SStr (s : string).

Inductive pyval : Type :=
| PScalar (a : scalar)
| PList (l : list pyval)
| PTuple (l : list pyval)
| PDict (d : list (key * pyval)).

Abbreviation PNone := (PScalar SNone).
Abbreviation PBool b := (PScalar (SBool b)).
Abbreviation PInt z := (PScalar (SInt z)).
Abbreviation PFloat f := (PScalar (SFloat f)).
Abbreviation PStr s := (PScalar (SStr s)).

(** A dict in insertion order.  Python keeps the keys of a dict
    pairwise distinct; [dict_wf] states it where a property needs it. *)
Definition dict : Type := list (key * pyval).

Definition key_eqb (a b : key) : bool :=
  match a, b with
  | KInt x, KInt y => Z.eqb x y
  | KStr x, KStr y => String.eqb x y
  | _, _ => false
  end.

Definition key_val (k : key) : pyval :=
  match k with
  | KInt z => PInt z
  | KStr s => PStr s
  end.

(** [d.get(k)] as an option, and [k in d]. *)
Fixpoint dict_find (d : dict) (k : key) : option pyval :=
  match d with
  | [] => None
  | (k', v) :: d' => if key_eqb k' k then Some v else dict_find d' k
  end.

Definition dict_mem (d : dict) (k : key) : bool :=
  match dict_find d k with
  | Some _ => true
  | None => false
  end.

(** [d.get(k, default)] *)
Definition dict_get (d : dict) (k : key) (default : pyval) : pyval :=
  match dict_find d k with
  | Some v => v
  | None => default
  end.

(** [d[k] = v]: an existing key keeps its position. *)
Fixpoint dict_set (d : dict) (k : key) (v : pyval) : dict :=
  match d with
  | [] => [(k, v)]
  | (k', v') :: d' =>
      if key_eqb k' k then (k', v) :: d' else (k', v') :: dict_set d' k v
  end.

Definition dict_keys (d : dict) : list key := map fst d.

Definition dict_wf (d : dict) : Prop := NoDup (dict_keys d).

(** [k in l] for a list of identifiers. *)
Definition list_mem (l : list key) (k : key) : bool :=
  existsb (key_eqb k) l.

(** [len(l)] *)
Definition len {A} (l : list A) : Z := Z.of_nat (List.length l).

(** [l[i]] for a list: a negative index counts from the end. *)
Definition list_index {A} (l : list A) (i : Z) : result A :=
  let j := if i <? 0 then i + len l else i in
  if (0 <=? j) && (j <? len l) then
    match nth_error l (Z.to_nat j) with
    | Some x => Ok x
    | None => Raise IndexError
    end
  else Raise IndexError.

(** Largest magnitude an int may have to convert to a float: from
    [2^1024 - 2^970] on, rounding to nearest even reaches [2^1024]
    and the conversion raises OverflowError. *)
Definition DBL_LIMIT : Z := 2 ^ 1024 - 2 ^ 970.

Definition in_double_range (z : Z) : bool := Z.abs z <? DBL_LIMIT.

(** [float(z)], correctly rounded. *)
Definition float_of_int (z : Z) : result float :=
  if in_double_range z then Ok (SF2Prim (binary_normalize prec emax z 0 false))
  else Raise OverflowError.

Definition sf_of_int (z : Z) : spec_float :=
  match z with
  | Z0 => S754_zero false
  | Zpos p => S754_finite false p 0
  | Zneg p => S754_finite true p 0
  end.

(** [a / b] on two ints: the correctly rounded quotient; it is too
    large for a float from [DBL_LIMIT] on. *)
Definition int_truediv (a b : Z) : result float :=
  if b =? 0 then Raise ZeroDivisionError
  else if Z.abs a <? DBL_LIMIT * Z.abs b then
    Ok (SF2Prim (SFdiv prec emax (sf_of_int a) (sf_of_int b)))
  else Raise OverflowError.

(** The numeric tower: bool counts as int. *)
Inductive number : Type :=
| NInt (z : Z)
| NFloat (f : float).

Definition as_number (v : pyval) : option number :=
  match v with
  | PBool b => Some (NInt (if b then 1 else 0))
  | PInt z => Some (NInt z)
  | PFloat f => Some (NFloat f)
  | _ => None
  end.

Definition number_val (n : number) : pyval :=
  match n with
  | NInt z => PInt z
  | NFloat f => PFloat f
  end.

Definition to_float (n : number) : result float :=
  match n with
  | NInt z => float_of_int z
  | NFloat f => Ok f
  end.

Definition is_zero (n : number) : bool :=
  match n with
  | NInt z => z =? 0
  | NFloat f => PrimFloat.eqb f 0%float
  end.

(** [a / b] on two numbers, one of them a float: both are taken as
    floats, then the divisor is tested.  (An int converts to the float
    zero only if it is 0, so the test reads the int.) *)
Definition float_truediv (a b : number) : result float :=
  rbind (to_float a) (fun x =>
  rbind (to_float b) (fun y =>
  if is_zero b then Raise ZeroDivisionError else Ok (PrimFloat.div x y))).

Definition num_truediv (a b : number) : result float :=
  match a, b with
  | NInt x, NInt y => int_truediv x y
  | _, _ => float_truediv a b
  end.

Definition num_arith (fz : Z -> Z -> Z) (ff : float -> float -> float)
    (a b : number) : result number :=
  match a, b with
  | NInt x, NInt y => Ok (NInt (fz x y))
  | _, _ =>
      rbind (to_float a) (fun x =>
      rbind (to_float b) (fun y => Ok (NFloat (ff x y))))
  end.

(** [a / b] *)
Definition py_truediv (a b : pyval) : result float :=
  match as_number a, as_number b with
  | Some x, Some y => num_truediv x y
  | _, _ => Raise TypeError
  end.

(** [a - b] *)
Definition py_sub (a b : pyval) : result pyval :=
  match as_number a, as_number b with
  | Some x, Some y =>
      rbind (num_arith Z.sub PrimFloat.sub x y) (fun n => Ok (number_val n))
  | _, _ => Raise TypeError
  end.

(** [a + b]: numbers add, strings, lists and tuples concatenate. *)
Definition py_add (a b : pyval) : result pyval :=
  match as_number a, as_number b with
  | Some x, Some y =>
      rbind (num_arith Z.add PrimFloat.add x y) (fun n => Ok (number_val n))
  | _, _ =>
      match a, b with
      | PStr s, PStr t => Ok (PStr (String.append s t))
      | PList l, PList m => Ok (PList (l ++ m))
      | PTuple l, PTuple m => Ok (PTuple (l ++ m))
      | _, _ => Raise TypeError
      end
  end.

(** [a * b] where [b] is a float: only a number can be multiplied by
    a float. *)
Definition py_mul_float (a : pyval) (b : float) : result float :=
  match as_number a with
  | Some x => rbind (to_float x) (fun f => Ok (PrimFloat.mul f b))
  | None => Raise TypeError
  end.

(** [sum(l)]: additions from the int 0, left to right.  (From
    CPython 3.12 on, [sum] adds floats with a correction term, which
    can change the last bit of a float total; this is the plain sum.) *)
Fixpoint py_sum_from (acc : pyval) (l : list pyval) : result pyval :=
  match l with
  | [] => Ok acc
  | x :: l' => rbind (py_add acc x) (fun acc' => py_sum_from acc' l')
  end.

Definition py_sum (l : list pyval) : result pyval := py_sum_from (PInt 0) l.

Definition string_chars (s : string) : list string :=
  map (fun c => String c EmptyString) (list_ascii_of_string s).

(** [len(v)] *)
Definition py_len (v : pyval) : result Z :=
  match v with
  | PStr s => Ok (len (list_ascii_of_string s))
  | PList l | PTuple l => Ok (len l)
  | PDict d => Ok (len d)
  | PScalar _ => Raise TypeError
  end.

(** [v[i]] for an int [i]. *)
Definition py_getitem (v : pyval) (i : Z) : result pyval :=
  match v with
  | PStr s => rbind (list_index (string_chars s) i) (fun c => Ok (PStr c))
  | PList l | PTuple l => list_index l i
  | PDict d =>
      match dict_find d (KInt i) with
      | Some x => Ok x
      | None => Raise KeyError
      end
  | PScalar _ => Raise TypeError
  end.

(** [v.get(k, default)]: only a dict has the method. *)
Definition py_get (v : pyval) (k : key) (default : pyval) : result pyval :=
  match v with
  | PDict d => Ok (dict_get d k default)
  | _ => Raise AttributeError
  end.

End Py.

Import Py.

(* ================================================================== *)
(** ** Records and the state of the extractor *)
(* ================================================================== *)

(** Per-frame ball possession, as [extract_player_data] tells the
    shapes apart: a dict keyed by player, a list of players, or a value
    that is neither (an int, None, ...). *)
Inductive possession : Type :=
| PossDict (d : dict)
| PossList (players : list key)
| PossOther (a : scalar).

Module PlayerEntry.
Record t : Type := make {
    frame : Z;
    player_id : key;
    team : pyval;
    x_min : pyval;
    y_min : pyval;
    x_max : pyval;
    y_max : pyval;
    has_ball : bool;
    timestamp : float
  }.
End PlayerEntry.

Module BallEntry.
Record t : Type := make {
    frame : Z;
    x_min : pyval;
    y_min : pyval;
    x_max : pyval;
    y_max : pyval;
    center_x : pyval;
    center_y : pyval;
    timestamp : float
  }.
End BallEntry.

Module PassEntry.
Record t : Type := make {
    pass_id : pyval;
    start_frame : pyval;
    end_frame : pyval;
    passer_id : pyval;
    receiver_id : pyval;
    passer_team : pyval;
    receiver_team : pyval;
    pass_type : pyval;
    start_timestamp : float;
    end_timestamp : float;
    duration : float
  }.
End PassEntry.

Module InterceptionEntry.
Record t : Type := make {
    interception_id : pyval;
    frame : pyval;
    interceptor_id : pyval;
    interceptor_team : pyval;
    original_team : pyval;
    timestamp : float
  }.
End InterceptionEntry.

Module SpeedEntry.
Record t : Type := make {
    frame : Z;
    player_id : key;
    speed_mps : pyval;
    speed_kmh : float;
    timestamp : float
  }.
End SpeedEntry.

Module PossessionEntry.
Record t : Type := make {
    frame : Z;
    possession_data : dict;
    total_players_with_ball : Z;
    timestamp : float
  }.
End PossessionEntry.

(** The six collections of [__init__], with the output directory. *)
Record extractor : Type := mkExtractor {
  output_dir : string;
  player_data : list PlayerEntry.t;
  ball_data : list BallEntry.t;
  pass_data : list PassEntry.t;
  interception_data : list InterceptionEntry.t;
  speed_data : list SpeedEntry.t;
  team_possession_data : list PossessionEntry.t
}.

Definition init (output_dir : string) : extractor :=
  mkExtractor output_dir [] [] [] [] [] [].

(* ================================================================== *)
(** ** Methods as state transformers that may raise *)
(* ================================================================== *)

(** A method body: from a state to the state it leaves and either a
    value or the exception raised.  Records appended before an
    exception stay appended. *)
Definition M (A : Type) : Type := extractor -> extractor * result A.

Definition ret {A} (a : A) : M A := fun st => (st, Ok a).

Definition bind {A B} (m : M A) (k : A -> M B) : M B :=
  fun st =>
    match m st with
    | (st', Ok a) => k a st'
    | (st', Raise e) => (st', Raise e)
    end.

Definition lift {A} (r : result A) : M A := fun st => (st, r).

Definition get_state : M extractor := fun st => (st, Ok st).

Declare Scope py_scope.

Delimit Scope py_scope with py.

Notation "x <- m ;; k" := (bind m (fun x => k))
  (at level 100, m at next level, right associativity) : py_scope.

Notation "'try' x <- r ;; k" := (rbind r (fun x => k))
  (at level 100, x name, r at next level, right associativity).

(** [for x in l: body(x)] *)
Fixpoint for_each {A} (l : list A) (body : A -> M unit) : M unit :=
  match l with
  | [] => ret tt
  | x :: l' => bind (body x) (fun _ => for_each l' body)
  end.

(** [enumerate(l)], counting from [i]. *)
Fixpoint enumerate_from {A} (i : Z) (l : list A) : list (Z * A) :=
  match l with
  | [] => []
  | x :: l' => (i, x) :: enumerate_from (i + 1) l'
  end.

Definition enumerate {A} (l : list A) : list (Z * A) := enumerate_from 0 l.

(** [zip(a, b, c)]: as long as the shortest. *)
Fixpoint zip3 {A B C} (a : list A) (b : list B) (c : list C)
  : list (A * B * C) :=
  match a, b, c with
  | x :: a', y :: b', z :: c' => (x, y, z) :: zip3 a' b' c'
  | _, _, _ => []
  end.

(** [self.<collection>.append(entry)], one per collection. *)
Definition append_player (e : PlayerEntry.t) : M unit := fun st =>
  (mkExtractor (output_dir st) (player_data st ++ [e]) (ball_data st)
     (pass_data st) (interception_data st) (speed_data st)
     (team_possession_data st), Ok tt).

Definition append_ball (e : BallEntry.t) : M unit := fun st =>
  (mkExtractor (output_dir st) (player_data st) (ball_data st ++ [e])
     (pass_data st) (interception_data st) (speed_data st)
     (team_possession_data st), Ok tt).

Definition append_pass (e : PassEntry.t) : M unit := fun st =>
  (mkExtractor (output_dir st) (player_data st) (ball_data st)
     (pass_data st ++ [e]) (interception_data st) (speed_data st)
     (team_possession_data st), Ok tt).

Definition append_interception (e : InterceptionEntry.t) : M unit := fun st =>
  (mkExtractor (output_dir st) (player_data st) (ball_data st)
     (pass_data st) (interception_data st ++ [e]) (speed_data st)
     (team_possession_data st), Ok tt).

Definition append_speed (e : SpeedEntry.t) : M unit := fun st =>
  (mkExtractor (output_dir st) (player_data st) (ball_data st)
     (pass_data st) (interception_data st) (speed_data st ++ [e])
     (team_possession_data st), Ok tt).

Definition append_team_possession (e : PossessionEntry.t) : M unit := fun st =>
  (mkExtractor (output_dir st) (player_data st) (ball_data st)
     (pass_data st) (interception_data st) (speed_data st)
     (team_possession_data st ++ [e]), Ok tt).

(* ================================================================== *)
(** ** The extraction methods *)
(* ================================================================== *)

(** The assumed frame rate: [30.0]. *)
Definition FPS : pyval := PFloat 30.

(** [frame_numbers[frame_idx] if frame_idx < len(frame_numbers) else frame_idx] *)
Definition frame_num_of (frame_numbers : list Z) (frame_idx : Z) : result Z :=
  if frame_idx <? len frame_numbers then list_index frame_numbers frame_idx
  else Ok frame_idx.

(** [bbox[i] if len(bbox) >= 4 else None] *)
Definition bbox_field (bbox : pyval) (i : Z) : result pyval :=
  try n <- py_len bbox ;;
  if 4 <=? n then py_getitem bbox i else Ok PNone.

(** The three branches on the possession value (lines 52-57). *)
Definition has_ball_of (possession : possession) (player_id : key) : bool :=
  match possession with
  | PossDict d => dict_mem d player_id
  | PossList players => list_mem players player_id
  | PossOther _ => false
  end.

(** The body of the inner loop of [extract_player_data] up to the
    append (lines 48-69). *)
Definition player_entry_of (frame_num : Z) (assignment : dict)
    (possession : possession) (player_id : key) (track_info : pyval)
  : result PlayerEntry.t :=
  try bbox <- py_get track_info (KStr "bbox") (PList []) ;;
  let team := dict_get assignment player_id (PStr "Unknown") in
  let has_ball := has_ball_of possession player_id in
  try x_min <- bbox_field bbox 0 ;;
  try y_min <- bbox_field bbox 1 ;;
  try x_max <- bbox_field bbox 2 ;;
  try y_max <- bbox_field bbox 3 ;;
  try timestamp <- py_truediv (PInt frame_num) FPS ;;
  Ok (PlayerEntry.make frame_num player_id team x_min y_min x_max y_max
        has_ball timestamp).

Local Open Scope py_scope.

Definition player_frame (frame_numbers : list Z)
    (item : Z * (dict * dict * possession)) : M unit :=
  let '(frame_idx, (tracks, assignment, possession)) := item in
  frame_num <- lift (frame_num_of frame_numbers frame_idx) ;;
  for_each tracks (fun '(player_id, track_info) =>
    player_entry <-
      lift (player_entry_of frame_num assignment possession player_id
              track_info) ;;
    append_player player_entry).

Definition extract_player_data (player_tracks player_assignment : list dict)
    (ball_aquisition : list possession) (frame_numbers : list Z) : M unit :=
  for_each (enumerate (zip3 player_tracks player_assignment ball_aquisition))
    (player_frame frame_numbers).

(** [(bbox[i] + bbox[j]) / 2 if len(bbox) >= 4 else None] *)
Definition bbox_center (bbox : pyval) (i j : Z) : result pyval :=
  try n <- py_len bbox ;;
  if 4 <=? n then
    try a <- py_getitem bbox i ;;
    try b <- py_getitem bbox j ;;
    try s <- py_add a b ;;
    try c <- py_truediv s (PInt 2) ;;
    Ok (PFloat c)
  else Ok PNone.

(** The truth value of a dict: false when it is empty. *)
Definition dict_truthy (d : dict) : bool :=
  match d with
  | [] => false
  | _ :: _ => true
  end.

(** [ball_info and 1 in ball_info] *)
Definition ball_detected (ball_info : dict) : bool :=
  dict_truthy ball_info && dict_mem ball_info (KInt 1).

(** [d[k]] *)
Definition dict_getitem (d : dict) (k : key) : result pyval :=
  match dict_find d k with
  | Some v => Ok v
  | None => Raise KeyError
  end.

(** Lines 84-94. *)
Definition ball_entry_of (frame_num : Z) (ball_info : dict)
  : result BallEntry.t :=
  try track <- dict_getitem ball_info (KInt 1) ;;
  try bbox <- py_get track (KStr "bbox") (PList []) ;;
  try x_min <- bbox_field bbox 0 ;;
  try y_min <- bbox_field bbox 1 ;;
  try x_max <- bbox_field bbox 2 ;;
  try y_max <- bbox_field bbox 3 ;;
  try center_x <- bbox_center bbox 0 2 ;;
  try center_y <- bbox_center bbox 1 3 ;;
  try timestamp <- py_truediv (PInt frame_num) FPS ;;
  Ok (BallEntry.make frame_num x_min y_min x_max y_max center_x center_y
        timestamp).

Definition ball_frame (frame_numbers : list Z) (item : Z * dict) : M unit :=
  let '(frame_idx, ball_info) := item in
  frame_num <- lift (frame_num_of frame_numbers frame_idx) ;;
  if ball_detected ball_info then
    ball_entry <- lift (ball_entry_of frame_num ball_info) ;;
    append_ball ball_entry
  else ret tt.

Definition extract_ball_data (ball_tracks : list dict)
    (frame_numbers : list Z) : M unit :=
  for_each (enumerate ball_tracks) (ball_frame frame_numbers).

(** Lines 106-118; [n] is [len(self.pass_data)] when the entry is built. *)
Definition pass_entry_of (pass_info : dict) (n : Z) : result PassEntry.t :=
  let pass_id := dict_get pass_info (KStr "pass_id") (PInt n) in
  let start_frame := dict_get pass_info (KStr "start_frame") PNone in
  let end_frame := dict_get pass_info (KStr "end_frame") PNone in
  let passer_id := dict_get pass_info (KStr "passer_id") PNone in
  let receiver_id := dict_get pass_info (KStr "receiver_id") PNone in
  let passer_team := dict_get pass_info (KStr "passer_team") PNone in
  let receiver_team := dict_get pass_info (KStr "receiver_team") PNone in
  let pass_type := dict_get pass_info (KStr "pass_type") (PStr "Unknown") in
  try start_timestamp <-
    py_truediv (dict_get pass_info (KStr "start_frame") (PInt 0)) FPS ;;
  try end_timestamp <-
    py_truediv (dict_get pass_info (KStr "end_frame") (PInt 0)) FPS ;;
  try length <-
    py_sub (dict_get pass_info (KStr "end_frame") (PInt 0))
           (dict_get pass_info (KStr "start_frame") (PInt 0)) ;;
  try duration <- py_truediv length FPS ;;
  Ok (PassEntry.make pass_id start_frame end_frame passer_id receiver_id
        passer_team receiver_team pass_type start_timestamp end_timestamp
        duration).

(** [frame_numbers] is a parameter of the method and is never read. *)
Definition extract_pass_data (passes : list dict) (frame_numbers : list Z)
  : M unit :=
  for_each passes (fun pass_info =>
    self <- get_state ;;
    pass_entry <- lift (pass_entry_of pass_info (len (pass_data self))) ;;
    append_pass pass_entry).

(** Lines 130-137; [n] is [len(self.interception_data)]. *)
Definition interception_entry_of (interception_info : dict) (n : Z)
  : result InterceptionEntry.t :=
  let interception_id :=
    dict_get interception_info (KStr "interception_id") (PInt n) in
  let frame := dict_get interception_info (KStr "frame") PNone in
  let interceptor_id := dict_get interception_info (KStr "interceptor_id") PNone in
  let interceptor_team :=
    dict_get interception_info (KStr "interceptor_team") PNone in
  let original_team := dict_get interception_info (KStr "original_team") PNone in
  try timestamp <-
    py_truediv (dict_get interception_info (KStr "frame") (PInt 0)) FPS ;;
  Ok (InterceptionEntry.make interception_id frame interceptor_id
        interceptor_team original_team timestamp).

Definition extract_interception_data (interceptions : list dict)
    (frame_numbers : list Z) : M unit :=
  for_each interceptions (fun interception_info =>
    self <- get_state ;;
    interception_entry <-
      lift (interception_entry_of interception_info
              (len (interception_data self))) ;;
    append_interception interception_entry).

(** Lines 152-158. *)
Definition speed_entry_of (frame_num : Z) (player_id : key) (speed : pyval)
  : result SpeedEntry.t :=
  try speed_kmh <- py_mul_float speed 3.6 ;;
  try timestamp <- py_truediv (PInt frame_num) FPS ;;
  Ok (SpeedEntry.make frame_num player_id speed speed_kmh timestamp).

Definition speed_frame (frame_numbers : list Z) (item : Z * dict) : M unit :=
  let '(frame_idx, speed_info) := item in
  frame_num <- lift (frame_num_of frame_numbers frame_idx) ;;
  for_each speed_info (fun '(player_id, speed) =>
    speed_entry <- lift (speed_entry_of frame_num player_id speed) ;;
    append_speed speed_entry).

Definition extract_speed_data (player_speed_per_frame : list dict)
    (frame_numbers : list Z) : M unit :=
  for_each (enumerate player_speed_per_frame) (speed_frame frame_numbers).

(** [for player_id in possession_info]: a dict yields its keys, a list
    its items, a string its characters; nothing else is iterable. *)
Definition possession_iter (possession_info : possession) : result (list key) :=
  match possession_info with
  | PossDict d => Ok (dict_keys d)
  | PossList players => Ok players
  | PossOther (SStr s) => Ok (map KStr (string_chars s))
  | PossOther _ => Raise TypeError
  end.

(** [len(possession_info)] *)
Definition possession_len (possession_info : possession) : result Z :=
  match possession_info with
  | PossDict d => Ok (len d)
  | PossList players => Ok (len players)
  | PossOther (SStr s) => Ok (len (string_chars s))
  | PossOther _ => Raise TypeError
  end.

(** Lines 173-177: [team_possession[player_id] = 1] for each player. *)
Definition mark_players (players : list key) : dict :=
  fold_left (fun team_possession player_id =>
               dict_set team_possession player_id (PInt 1)) players [].

(** Lines 173-184. *)
Definition possession_entry_of (frame_num : Z) (possession_info : possession)
  : result PossessionEntry.t :=
  try players <- possession_iter possession_info ;;
  let team_possession := mark_players players in
  try total <- possession_len possession_info ;;
  try timestamp <- py_truediv (PInt frame_num) FPS ;;
  Ok (PossessionEntry.make frame_num team_possession total timestamp).

Definition possession_frame (frame_numbers : list Z)
    (item : Z * possession) : M unit :=
  let '(frame_idx, possession_info) := item in
  frame_num <- lift (frame_num_of frame_numbers frame_idx) ;;
  possession_entry <- lift (possession_entry_of frame_num possession_info) ;;
  append_team_possession possession_entry.

Definition extract_team_possession_data (ball_aquisition : list possession)
    (frame_numbers : list Z) : M unit :=
  for_each (enumerate ball_aquisition) (possession_frame frame_numbers).

(* ================================================================== *)
(** ** Records as the dictionaries the code builds *)
(* ================================================================== *)

Definition field (name : string) (v : pyval) : key * pyval := (KStr name, v).

Definition player_entry_py (e : PlayerEntry.t) : pyval :=
  PDict [ field "frame" (PInt (PlayerEntry.frame e));
          field "player_id" (key_val (PlayerEntry.player_id e));
          field "team" (PlayerEntry.team e);
          field "x_min" (PlayerEntry.x_min e);
          field "y_min" (PlayerEntry.y_min e);
          field "x_max" (PlayerEntry.x_max e);
          field "y_max" (PlayerEntry.y_max e);
          field "has_ball" (PBool (PlayerEntry.has_ball e));
          field "timestamp" (PFloat (PlayerEntry.timestamp e)) ].

Definition ball_entry_py (e : BallEntry.t) : pyval :=
  PDict [ field "frame" (PInt (BallEntry.frame e));
          field "x_min" (BallEntry.x_min e);
          field "y_min" (BallEntry.y_min e);
          field "x_max" (BallEntry.x_max e);
          field "y_max" (BallEntry.y_max e);
          field "center_x" (BallEntry.center_x e);
          field "center_y" (BallEntry.center_y e);
          field "timestamp" (PFloat (BallEntry.timestamp e)) ].

Definition pass_entry_py (e : PassEntry.t) : pyval :=
  PDict [ field "pass_id" (PassEntry.pass_id e);
          field "start_frame" (PassEntry.start_frame e);
          field "end_frame" (PassEntry.end_frame e);
          field "passer_id" (PassEntry.passer_id e);
          field "receiver_id" (PassEntry.receiver_id e);
          field "passer_team" (PassEntry.passer_team e);
          field "receiver_team" (PassEntry.receiver_team e);
          field "pass_type" (PassEntry.pass_type e);
          field "start_timestamp" (PFloat (PassEntry.start_timestamp e));
          field "end_timestamp" (PFloat (PassEntry.end_timestamp e));
          field "duration" (PFloat (PassEntry.duration e)) ].

Definition interception_entry_py (e : InterceptionEntry.t) : pyval :=
  PDict [ field "interception_id" (InterceptionEntry.interception_id e);
          field "frame" (InterceptionEntry.frame e);
          field "interceptor_id" (InterceptionEntry.interceptor_id e);
          field "interceptor_team" (InterceptionEntry.interceptor_team e);
          field "original_team" (InterceptionEntry.original_team e);
          field "timestamp" (PFloat (InterceptionEntry.timestamp e)) ].

Definition speed_entry_py (e : SpeedEntry.t) : pyval :=
  PDict [ field "frame" (PInt (SpeedEntry.frame e));
          field "player_id" (key_val (SpeedEntry.player_id e));
          field "speed_mps" (SpeedEntry.speed_mps e);
          field "speed_kmh" (PFloat (SpeedEntry.speed_kmh e));
          field "timestamp" (PFloat (SpeedEntry.timestamp e)) ].

Definition possession_entry_py (e : PossessionEntry.t) : pyval :=
  PDict [ field "frame" (PInt (PossessionEntry.frame e));
          field "possession_data" (PDict (PossessionEntry.possession_data e));
          field "total_players_with_ball"
            (PInt (PossessionEntry.total_players_with_ball e));
          field "timestamp" (PFloat (PossessionEntry.timestamp e)) ].

(** The six collections under the names [save_to_json] gives them. *)
Definition collections (self : extractor) : dict :=
  [ field "player_data" (PList (map player_entry_py (player_data self)));
    field "ball_data" (PList (map ball_entry_py (ball_data self)));
    field "pass_data" (PList (map pass_entry_py (pass_data self)));
    field "interception_data"
      (PList (map interception_entry_py (interception_data self)));
    field "speed_data" (PList (map speed_entry_py (speed_data self)));
    field "team_possession_data"
      (PList (map possession_entry_py (team_possession_data self))) ].

(* ================================================================== *)
(** ** [save_to_json] *)
(* ================================================================== *)

Module Json.

(** A JSON document.  The text between [json.dump] and [json.load] is
    not modelled: a document is the tree both agree on.  The members of
    an object are named by strings; an int and a float are told apart
    by their spelling, and a float is written so that it reads back as
    the same float. *)
Inductive json : Type :=
| JNull
| JBool (b : bool)
| JInt (z : Z)
| JFloat (f : float)
| JStr (s : string)
| JArr (items : list json)
| JObj (members : list (string * json)).

(** An int is written by [int.__repr__] and read by [int(...)]; both
    refuse more than 4300 digits
    ([sys.int_info.default_max_str_digits]) with ValueError. *)
Definition MAX_STR_DIGITS : Z := 4300.

Definition int_fits (z : Z) : bool := Z.abs z <? 10 ^ MAX_STR_DIGITS.

(** The name [json.dump] gives a key: a string as it is, an int in
    decimal. *)
Definition key_string (k : key) : string :=
  match k with
  | KStr s => s
  | KInt z => NilZero.string_of_int (Z.to_int z)
  end.

Definition scalar_document (a : scalar) : json :=
  match a with
  | SNone => JNull
  | SBool b => JBool b
  | SInt z => JInt z
  | SFloat f => JFloat f
  | SStr s => JStr s
  end.

(** The document [json.dump] writes when it raises nothing: a tuple is
    written as a list is. *)
Fixpoint document_of (v : pyval) : json :=
  match v with
  | PScalar a => scalar_document a
  | PList l | PTuple l => JArr (map document_of l)
  | PDict d =>
      JObj (map (fun kv => (key_string (fst kv), document_of (snd kv))) d)
  end.

(** The first exception met, in the order of writing. *)
Fixpoint first_error (errors : list (option exn)) : option exn :=
  match errors with
  | [] => None
  | Some e :: _ => Some e
  | None :: rest => first_error rest
  end.

Definition key_error (k : key) : option exn :=
  match k with
  | KInt z => if int_fits z then None else Some ValueError
  | KStr _ => None
  end.

(** The exception [json.dump(..., indent=2)] raises, if any.  With an
    indent the encoder is the recursive Python one, so a value nested
    too deep raises RecursionError; [room] is the number of levels the
    recursion limit leaves at the call.  A container that is not empty
    takes one level more than its items, a float one level (it is
    formatted by a Python function), anything else none.  The items are
    written in order, a key before its value, and the first exception
    ends the write. *)
Fixpoint dump_error (v : pyval) (room : nat) : option exn :=
  match v with
  | PScalar (SInt z) => if int_fits z then None else Some ValueError
  | PScalar (SFloat _) =>
      match room with
      | O => Some RecursionError
      | S _ => None
      end
  | PScalar _ => None
  | PList l | PTuple l =>
      match l, room with
      | [], _ => None
      | _ :: _, O => Some RecursionError
      | _ :: _, S room' => first_error (map (fun x => dump_error x room') l)
      end
  | PDict d =>
      match d, room with
      | [], _ => None
      | _ :: _, O => Some RecursionError
      | _ :: _, S room' =>
          first_error
            (map (fun kv =>
                    match key_error (fst kv) with
                    | Some e => Some e
                    | None => dump_error (snd kv) room'
                    end) d)
      end
  end.

(** [json.dump] *)
Definition dump (room : nat) (v : pyval) : result json :=
  match dump_error v room with
  | Some e => Raise e
  | None => Ok (document_of v)
  end.

(** The value [json.load] makes of a document when it raises nothing:
    an array becomes a list, an object a dict filled member by member,
    so of two members with one name the later value stays. *)
Fixpoint value_of (j : json) : pyval :=
  match j with
  | JNull => PNone
  | JBool b => PBool b
  | JInt z => PInt z
  | JFloat f => PFloat f
  | JStr s => PStr s
  | JArr items => PList (map value_of items)
  | JObj members =>
      PDict (fold_left (fun d m => dict_set d (KStr (fst m)) (value_of (snd m)))
               members [])
  end.



End Json.

(** The two readings of [datetime.now()] that [save_to_json] formats. *)
Record clock : Type := mkClock {
  strftime_stamp : string;     (* "%Y%m%d_%H%M%S" *)
  isoformat : string
}.



Definition last_char (s : string) : option ascii :=
  last (map Some (list_ascii_of_string s)) None.

(** [os.path.join(a, b)] on a POSIX system. *)
Definition path_join (a b : string) : string :=
  match b with
  | String "/" _ => b
  | _ =>
      match last_char a with
      | None => b
      | Some "/"%char => String.append a b
      | Some _ => String.append a (String.append "/" b)
      end
  end.

(** [len(set(l))] *)
Fixpoint distinct {A} (eqb : A -> A -> bool) (l : list A) : list A :=
  match l with
  | [] => []
  | x :: l' => x :: filter (fun y => negb (eqb x y)) (distinct eqb l')
  end.

(** Lines 203-217. *)
Definition data (now : clock) (self : extractor) : pyval :=
  PDict
    (field "metadata"
       (PDict
          [ field "extraction_time" (PStr (isoformat now));
            field "total_frames"
              (PInt (match player_data self with
                     | [] => 0
                     | _ => len (player_data self) / 10
                     end));
            field "total_players"
              (PInt (len (distinct key_eqb
                            (map PlayerEntry.player_id (player_data self)))));
            field "total_passes" (PInt (len (pass_data self)));
            field "total_interceptions" (PInt (len (interception_data self))) ])
     :: collections self).




(* ================================================================== *)
(** ** [generate_summary_report] *)
(* ================================================================== *)

Module Summary.
Record t : Type := make {
    total_frames_analyzed : Z;
    total_players_detected : Z;
    total_ball_detections : Z;
    total_passes : Z;
    total_interceptions : Z;
    total_speed_measurements : Z;
    analysis_duration_seconds : pyval;
    teams_detected : list pyval;
    average_player_speeds : option (list (key * float))
  }.
End Summary.

(** [max(l)] on floats, from the first item: a later item replaces the
    maximum when it is greater. *)
Definition float_max (first : float) (rest : list float) : float :=
  fold_left (fun m x => if PrimFloat.ltb m x then x else m) rest first.

(** Whether a float is the integer [z]. *)
Definition float_is_int (f : float) (z : Z) : bool :=
  match Prim2SF f with
  | S754_zero _ => z =? 0
  | S754_finite s m e =>
      let v := if s then Z.neg m else Z.pos m in
      if 0 <=? e then z =? v * 2 ^ e
      else (Z.pos m mod 2 ^ (- e) =? 0) && (z * 2 ^ (- e) =? v)
  | _ => false
  end.

(** [a == b] on scalars. *)
Definition scalar_eqb (a b : scalar) : bool :=
  match a, b with
  | SNone, SNone => true
  | SStr s, SStr t => String.eqb s t
  | _, _ =>
      match as_number (PScalar a), as_number (PScalar b) with
      | Some (NInt x), Some (NInt y) => x =? y
      | Some (NFloat x), Some (NFloat y) => PrimFloat.eqb x y
      | Some (NInt x), Some (NFloat y) => float_is_int y x
      | Some (NFloat x), Some (NInt y) => float_is_int x y
      | _, _ => false
      end
  end.

(** A value that can be put in a set: a scalar, or a tuple of such
    values; a list or a dict is not hashable. *)
Fixpoint is_hashable (v : pyval) : bool :=
  match v with
  | PScalar _ => true
  | PTuple l => forallb is_hashable l
  | PList _ | PDict _ => false
  end.

(** [a == b] on hashable values: tuples are compared item by item. *)
Fixpoint py_eqb (a b : pyval) : bool :=
  match a, b with
  | PScalar x, PScalar y => scalar_eqb x y
  | PTuple l, PTuple m =>
      (fix items (l m : list pyval) : bool :=
         match l, m with
         | [], [] => true
         | x :: l', y :: m' => py_eqb x y && items l' m'
         | _, _ => false
         end) l m
  | _, _ => false
  end.

(** The items of [set(l)].  Python leaves the order of a set open;
    here it is the order of first occurrence. *)
Definition hashable (l : list pyval) : result (list pyval) :=
  if forallb is_hashable l then Ok l else Raise TypeError.

Definition py_set (l : list pyval) : result (list pyval) :=
  try items <- hashable l ;; Ok (distinct py_eqb items).

(** [team != 'Unknown'] *)
Definition known_team (team : pyval) : bool :=
  match team with
  | PStr s => negb (String.eqb s "Unknown")
  | _ => true
  end.

(** Lines 319-323: the speeds of each player, in order of arrival. *)
Fixpoint group_append (avg_speeds : list (key * list pyval)) (player_id : key)
    (speed : pyval) : list (key * list pyval) :=
  match avg_speeds with
  | [] => [(player_id, [speed])]
  | (k, speeds) :: rest =>
      if key_eqb k player_id then (k, speeds ++ [speed]) :: rest
      else (k, speeds) :: group_append rest player_id speed
  end.

Definition group_speeds (entries : list SpeedEntry.t)
  : list (key * list pyval) :=
  fold_left (fun avg_speeds entry =>
               group_append avg_speeds (SpeedEntry.player_id entry)
                 (SpeedEntry.speed_mps entry))
    entries [].

(** [sum(speeds) / len(speeds)] *)
Definition mean (speeds : list pyval) : result float :=
  try total <- py_sum speeds ;;
  py_truediv total (PInt (len speeds)).

Fixpoint mean_each (groups : list (key * list pyval))
  : result (list (key * float)) :=
  match groups with
  | [] => Ok []
  | (player_id, speeds) :: rest =>
      try m <- mean speeds ;;
      try r <- mean_each rest ;;
      Ok ((player_id, m) :: r)
  end.

Definition generate_summary_report (self : extractor) : result Summary.t :=
  let players := player_data self in
  let total_frames_analyzed :=
    match players with
    | [] => 0
    | _ => len (distinct Z.eqb (map PlayerEntry.frame players))
    end in
  let total_players_detected :=
    match players with
    | [] => 0
    | _ => len (distinct key_eqb (map PlayerEntry.player_id players))
    end in
  let analysis_duration_seconds :=
    match map PlayerEntry.timestamp players with
    | [] => PInt 0
    | t :: ts => PFloat (float_max t ts)
    end in
  try teams_detected <-
    match players with
    | [] => Ok []
    | _ => py_set (filter known_team (map PlayerEntry.team players))
    end ;;
  try average_player_speeds <-
    match speed_data self with
    | [] => Ok None
    | _ => try avg <- mean_each (group_speeds (speed_data self)) ;; Ok (Some avg)
    end ;;
  Ok (Summary.make total_frames_analyzed total_players_detected
        (len (ball_data self)) (len (pass_data self))
        (len (interception_data self)) (len (speed_data self))
        analysis_duration_seconds teams_detected average_player_speeds).

(* ================================================================== *)
(** ** Collections and what a method appends *)
(* ================================================================== *)

(** One of the six collections: how to read it and how to add to it. *)
Record collection (T : Type) : Type := mkCollection {
  items : extractor -> list T;
  extend : extractor -> list T -> extractor;
  items_extend : forall st l, items (extend st l) = items st ++ l;
  extend_nil : forall st, extend st [] = st;
  extend_app : forall st a b, extend (extend st a) b = extend st (a ++ b)
}.

Definition extend_player (st : extractor) (l : list PlayerEntry.t) :=
  mkExtractor (output_dir st) (player_data st ++ l) (ball_data st)
    (pass_data st) (interception_data st) (speed_data st)
    (team_possession_data st).

Definition extend_ball (st : extractor) (l : list BallEntry.t) :=
  mkExtractor (output_dir st) (player_data st) (ball_data st ++ l)
    (pass_data st) (interception_data st) (speed_data st)
    (team_possession_data st).

Definition extend_pass (st : extractor) (l : list PassEntry.t) :=
  mkExtractor (output_dir st) (player_data st) (ball_data st)
    (pass_data st ++ l) (interception_data st) (speed_data st)
    (team_possession_data st).

Definition extend_interception (st : extractor) (l : list InterceptionEntry.t) :=
  mkExtractor (output_dir st) (player_data st) (ball_data st)
    (pass_data st) (interception_data st ++ l) (speed_data st)
    (team_possession_data st).

Definition extend_speed (st : extractor) (l : list SpeedEntry.t) :=
  mkExtractor (output_dir st) (player_data st) (ball_data st)
    (pass_data st) (interception_data st) (speed_data st ++ l)
    (team_possession_data st).

Definition extend_team_possession (st : extractor) (l : list PossessionEntry.t) :=
  mkExtractor (output_dir st) (player_data st) (ball_data st)
    (pass_data st) (interception_data st) (speed_data st)
    (team_possession_data st ++ l).

Ltac collection_laws :=
  intros; match goal with st : extractor |- _ => destruct st end;
  unfold extend_player, extend_ball, extend_pass, extend_interception,
    extend_speed, extend_team_possession; simpl;
  rewrite ?app_nil_r, <- ?app_assoc; reflexivity.

Definition players : collection PlayerEntry.t.
Proof. refine (@mkCollection _ player_data extend_player _ _ _); collection_laws. Defined.

Definition balls : collection BallEntry.t.
Proof. refine (@mkCollection _ ball_data extend_ball _ _ _); collection_laws. Defined.

Definition passes_made : collection PassEntry.t.
Proof. refine (@mkCollection _ pass_data extend_pass _ _ _); collection_laws. Defined.

Definition interceptions_made : collection InterceptionEntry.t.
Proof.
  refine (@mkCollection _ interception_data extend_interception _ _ _);
  collection_laws.
Defined.

Definition speeds : collection SpeedEntry.t.
Proof. refine (@mkCollection _ speed_data extend_speed _ _ _); collection_laws. Defined.

Definition possessions : collection PossessionEntry.t.
Proof.
  refine (@mkCollection _ team_possession_data extend_team_possession _ _ _);
  collection_laws.
Defined.

(** [appends c Q st st']: [st'] is [st] with records satisfying [Q]
    added at the end of collection [c], and nothing else changed. *)
Definition appends {T} (c : collection T) (Q : T -> Prop)
    (st st' : extractor) : Prop :=
  exists new, st' = extend c st new /\ Forall Q new.

(** A body that, from every state and whatever its outcome, only
    appends such records. *)
Definition only_appends {T A} (c : collection T) (Q : T -> Prop) (m : M A)
  : Prop :=
  forall st, appends c Q st (fst (m st)).

(** A player record comes from one player of one zipped frame. *)
Definition player_record_source (player_tracks player_assignment : list dict)
    (ball_aquisition : list possession) (frame_numbers : list Z)
    (r : PlayerEntry.t) : Prop :=
  exists (n : nat) tracks assignment possession track_info frame_num,
    nth_error player_tracks n = Some tracks /\
    nth_error player_assignment n = Some assignment /\
    nth_error ball_aquisition n = Some possession /\
    frame_num_of frame_numbers (Z.of_nat n) = Ok frame_num /\
    In (PlayerEntry.player_id r, track_info) tracks /\
    player_entry_of frame_num assignment possession (PlayerEntry.player_id r)
      track_info = Ok r.

(** A ball record comes from a frame whose entry has the key 1. *)
Definition ball_record_source (ball_tracks : list dict) (frame_numbers : list Z)
    (r : BallEntry.t) : Prop :=
  exists (n : nat) ball_info frame_num,
    nth_error ball_tracks n = Some ball_info /\
    ball_detected ball_info = true /\
    frame_num_of frame_numbers (Z.of_nat n) = Ok frame_num /\
    ball_entry_of frame_num ball_info = Ok r.

(** A pass record comes from one pass dict. *)
Definition pass_record_source (passes : list dict) (r : PassEntry.t) : Prop :=
  exists pass_info n, In pass_info passes /\ pass_entry_of pass_info n = Ok r.

(** An interception record comes from one interception dict. *)
Definition interception_record_source (interceptions : list dict)
    (r : InterceptionEntry.t) : Prop :=
  exists interception_info n,
    In interception_info interceptions /\
    interception_entry_of interception_info n = Ok r.

(** A speed record comes from one player of one frame's speed map. *)
Definition speed_record_source (player_speed_per_frame : list dict)
    (frame_numbers : list Z) (r : SpeedEntry.t) : Prop :=
  exists (n : nat) speed_info frame_num,
    nth_error player_speed_per_frame n = Some speed_info /\
    frame_num_of frame_numbers (Z.of_nat n) = Ok frame_num /\
    In (SpeedEntry.player_id r, SpeedEntry.speed_mps r) speed_info /\
    speed_entry_of frame_num (SpeedEntry.player_id r) (SpeedEntry.speed_mps r)
      = Ok r.

(** A team-possession record comes from one frame's possession value. *)
Definition possession_record_source (ball_aquisition : list possession)
    (frame_numbers : list Z) (r : PossessionEntry.t) : Prop :=
  exists (n : nat) possession_info frame_num,
    nth_error ball_aquisition n = Some possession_info /\
    frame_num_of frame_numbers (Z.of_nat n) = Ok frame_num /\
    possession_entry_of frame_num possession_info = Ok r.


(** A body that never raises [e]. *)
Definition never_raises {A} (e : exn) (m : M A) : Prop :=
  forall st, snd (m st) <> Raise e.

(* ================================================================== *)
(** ** Reachable states *)
(* ================================================================== *)

(** A call of one of the six extraction methods, with its arguments. *)
Inductive call : Type :=
| CallPlayer (player_tracks player_assignment : list dict)
    (ball_aquisition : list possession) (frame_numbers : list Z)
| CallBall (ball_tracks : list dict) (frame_numbers : list Z)
| CallPass (passes : list dict) (frame_numbers : list Z)
| CallInterception (interceptions : list dict) (frame_numbers : list Z)
| CallSpeed (player_speed_per_frame : list dict) (frame_numbers : list Z)
| CallTeamPossession (ball_aquisition : list possession)
    (frame_numbers : list Z).

Definition run (c : call) : M unit :=
  match c with
  | CallPlayer pt pa ba fn => extract_player_data pt pa ba fn
  | CallBall bt fn => extract_ball_data bt fn
  | CallPass ps fn => extract_pass_data ps fn
  | CallInterception xs fn => extract_interception_data xs fn
  | CallSpeed sp fn => extract_speed_data sp fn
  | CallTeamPossession ba fn => extract_team_possession_data ba fn
  end.

(** The states an extractor goes through: the one [__init__] builds,
    and the one any call leaves, whether it returns or raises. *)
Inductive reachable : extractor -> Prop :=
| reach_init : forall output_dir, reachable (init output_dir)
| reach_call : forall st c, reachable st -> reachable (fst (run c st)).

(** Several calls in a row. *)
Definition run_all (calls : list call) (st : extractor) : extractor :=
  fold_left (fun st c => fst (run c st)) calls st.

(* ================================================================== *)
(** ** Properties of records and states *)
(* ================================================================== *)

(** The timestamps of a state agree with the frames of its records. *)
Definition timestamps_agree (st : extractor) : Prop :=
  (forall r, In r (player_data st) ->
     py_truediv (PInt (PlayerEntry.frame r)) FPS = Ok (PlayerEntry.timestamp r)) /\
  (forall r, In r (ball_data st) ->
     py_truediv (PInt (BallEntry.frame r)) FPS = Ok (BallEntry.timestamp r)) /\
  (forall r, In r (speed_data st) ->
     py_truediv (PInt (SpeedEntry.frame r)) FPS = Ok (SpeedEntry.timestamp r)) /\
  (forall r, In r (team_possession_data st) ->
     py_truediv (PInt (PossessionEntry.frame r)) FPS
     = Ok (PossessionEntry.timestamp r)) /\
  (forall r, In r (pass_data st) ->
     (PassEntry.start_frame r <> PNone ->
      py_truediv (PassEntry.start_frame r) FPS
      = Ok (PassEntry.start_timestamp r)) /\
     (PassEntry.end_frame r <> PNone ->
      py_truediv (PassEntry.end_frame r) FPS = Ok (PassEntry.end_timestamp r))) /\
  (forall r, In r (interception_data st) ->
     InterceptionEntry.frame r <> PNone ->
     py_truediv (InterceptionEntry.frame r) FPS
     = Ok (InterceptionEntry.timestamp r)).

(** The frame number of a record built for frame [n]: the [n]-th of
    [frame_numbers], or [n] itself when the list is too short. *)
Definition frame_resolved (frame_numbers : list Z) (n : nat) (frame : Z) : Prop :=
  (forall f, nth_error frame_numbers n = Some f -> frame = f) /\
  ((List.length frame_numbers <= n)%nat -> frame = Z.of_nat n).

(** What a ball record holds, given the frame's entry. *)
Definition ball_record_spec (ball_info : dict) (r : BallEntry.t) : Prop :=
  exists track bbox n,
    dict_find ball_info (KInt 1) = Some track /\
    py_get track (KStr "bbox") (PList []) = Ok bbox /\
    py_len bbox = Ok n /\
    (4 <= n ->
     py_getitem bbox 0 = Ok (BallEntry.x_min r) /\
     py_getitem bbox 1 = Ok (BallEntry.y_min r) /\
     py_getitem bbox 2 = Ok (BallEntry.x_max r) /\
     py_getitem bbox 3 = Ok (BallEntry.y_max r) /\
     (exists s c, py_add (BallEntry.x_min r) (BallEntry.x_max r) = Ok s /\
                  py_truediv s (PInt 2) = Ok c /\
                  BallEntry.center_x r = PFloat c) /\
     (exists s c, py_add (BallEntry.y_min r) (BallEntry.y_max r) = Ok s /\
                  py_truediv s (PInt 2) = Ok c /\
                  BallEntry.center_y r = PFloat c)) /\
    (n < 4 ->
     BallEntry.x_min r = PNone /\ BallEntry.y_min r = PNone /\
     BallEntry.x_max r = PNone /\ BallEntry.y_max r = PNone /\
     BallEntry.center_x r = PNone /\ BallEntry.center_y r = PNone).

(** The speeds recorded for one player, in order of arrival. *)
Definition speeds_of (player_id : key) (entries : list SpeedEntry.t)
  : list pyval :=
  map SpeedEntry.speed_mps
    (filter (fun e => key_eqb (SpeedEntry.player_id e) player_id) entries).

(** What the grouping loop has built after the entries [l]. *)
Definition grouped (g : list (key * list pyval)) (l : list SpeedEntry.t) : Prop :=
  NoDup (map fst g) /\
  (forall p sp, In (p, sp) g -> sp = speeds_of p l /\ sp <> []) /\
  (forall e, In e l -> In (SpeedEntry.player_id e) (map fst g)).

(** A running total: a float, or an int that [k] small ints add up to. *)
Definition total_ok (k : Z) (acc : pyval) : Prop :=
  exists n, acc = number_val n /\
            match n with
            | NInt z => Z.abs z <= k * 2 ^ 63
            | NFloat _ => True
            end.

(** Induction on values, through the lists and dicts they hold. *)
Section PyvalInduction.
Variable P : pyval -> Prop.
Hypothesis P_scalar : forall a, P (PScalar a).
Hypothesis P_list : forall l, Forall P l -> P (PList l).
Hypothesis P_tuple : forall l, Forall P l -> P (PTuple l).
Hypothesis P_dict : forall d, Forall (fun kv => P (snd kv)) d -> P (PDict d).

End PyvalInduction.









(* ================================================================== *)
(** ** Inputs on which the methods return *)
(* ================================================================== *)

(** An int that fits a signed 64-bit word, as frame numbers, counts and
    pixel coordinates do. *)
Definition small_int (z : Z) : bool := Z.abs z <? 2 ^ 63.

(** A number the arithmetic of the methods accepts: a float, or a bool
    or an int that is small. *)
Definition small_number (v : pyval) : bool :=
  match as_number v with
  | Some (NInt z) => small_int z
  | Some (NFloat _) => true
  | None => false
  end.

(** A box: a value with fewer than four components, or a list whose
    first four items are numbers. *)
Definition box_ok (bbox : pyval) : bool :=
  match py_len bbox with
  | Ok n =>
      (n <? 4)
      || match bbox with
         | PList l => forallb small_number (firstn 4 l)
         | _ => false
         end
  | Raise _ => false
  end.

(** A track: a dict whose box, if it has one, is a box. *)
Definition track_ok (track : pyval) : bool :=
  match track with
  | PDict d => box_ok (dict_get d (KStr "bbox") (PList []))
  | _ => false
  end.

Definition ball_info_ok (ball_info : dict) : bool :=
  match dict_find ball_info (KInt 1) with
  | Some track => track_ok track
  | None => true
  end.

Definition tracks_ok (tracks : dict) : bool :=
  forallb (fun kv => track_ok (snd kv)) tracks.

Definition speeds_ok (speed_info : dict) : bool :=
  forallb (fun kv => small_number (snd kv)) speed_info.

(** A possession value a [for] loop can walk. *)
Definition possession_iterable (possession_info : possession) : bool :=
  match possession_info with
  | PossDict _ | PossList _ | PossOther (SStr _) => true
  | PossOther _ => false
  end.

(** A frame an event reports: absent, or a number. *)
Definition frame_value_ok (reported : option pyval) : bool :=
  match reported with
  | None => true
  | Some v => small_number v
  end.

Definition pass_info_ok (pass_info : dict) : bool :=
  frame_value_ok (dict_find pass_info (KStr "start_frame"))
  && frame_value_ok (dict_find pass_info (KStr "end_frame")).

Definition interception_info_ok (interception_info : dict) : bool :=
  frame_value_ok (dict_find interception_info (KStr "frame")).

(* ================================================================== *)
(** ** Examples *)
(* ================================================================== *)

(** The frame of the spec's example: player "p1" of team "Home", who
    has the ball, in the box (0, 0, 10, 10). *)
Definition example_tracks : list dict :=
  [[(KStr "p1", PDict [(KStr "bbox", PList [PInt 0; PInt 0; PInt 10; PInt 10])])]].

Definition example_assignment : list dict := [[(KStr "p1", PStr "Home")]].

Definition example_possession : list possession := [PossList [KStr "p1"]].

(** The pass of the spec's example, and a pass that reports no frame. *)
Definition example_passes : list dict :=
  [ [(KStr "start_frame", PInt 30); (KStr "end_frame", PInt 60);
     (KStr "passer_id", PStr "p1"); (KStr "receiver_id", PStr "p2")];
    [(KStr "passer_id", PStr "p2")] ].

Definition example_calls : list call :=
  [ CallPlayer example_tracks example_assignment example_possession [30];
    CallBall [[(KInt 1, PDict [(KStr "bbox", PList [PInt 2; PInt 2; PInt 6; PInt 6])])]; []] [];
    CallPass example_passes [];
    CallInterception [[(KStr "frame", PInt 45)]; []] [];
    CallSpeed [[(KStr "p1", PFloat 5)]] [];
    CallTeamPossession [PossList [KStr "p1"]; PossOther (SInt (-1))] [7] ].

Definition example_state : extractor :=
  run_all example_calls (init "extracted_data").


(** Four frames: the ball in the box (2, 2, 6, 6) of the spec's
    example, an entry without the key 1, a ball whose box has two
    components, and an empty entry. *)
Definition example_ball_tracks : list dict :=
  [ [(KInt 1, PDict [(KStr "bbox", PList [PInt 2; PInt 2; PInt 6; PInt 6])])];
    [(KInt 2, PDict [(KStr "bbox", PList [PInt 1; PInt 1; PInt 3; PInt 3])])];
    [(KInt 1, PDict [(KStr "bbox", PList [PInt 5; PInt 7])])];
    [] ].

Definition example_ball_records : list BallEntry.t :=
  [ BallEntry.make 0 (PInt 2) (PInt 2) (PInt 6) (PInt 6) (PFloat 4) (PFloat 4)
      0%float;
    BallEntry.make 2 PNone PNone PNone PNone PNone PNone
      0.066666666666666666%float ].

Definition example_interceptions : list dict :=
  [ [(KStr "frame", PInt 45); (KStr "interceptor_id", PStr "p3")];
    [(KStr "interceptor_id", PStr "p4")] ].

(** Two frames of speeds: 5.0 m/s as in the spec's example. *)
Definition example_speeds : list dict :=
  [ [(KStr "p1", PFloat 5); (KInt 3, PInt 4)];
    [(KStr "p1", PFloat 6)] ].

(** A state with speed records and no player record. *)
Definition example_speed_state : extractor :=
  fst (extract_speed_data example_speeds [] (init "extracted_data")).

Definition example_clock : clock :=
  mkClock "20250101_120000" "2025-01-01T12:00:00".



(* ================================================================== *)
(** ** The methods as functions of their arguments *)
(* ================================================================== *)

(** What one step of a loop adds: the records it appends, and whether
    it went through or raised. *)
Definition chunk (T : Type) : Type := list T * result unit.

(** The step that appends the record [r] builds, if it builds one. *)
Definition one {T} (r : result T) : chunk T :=
  match r with
  | Ok x => ([x], Ok tt)
  | Raise e => ([], Raise e)
  end.

(** The steps of a loop in a row: the records of the steps up to the
    first that raises, that one included, and its exception. *)
Fixpoint gather {T} (steps : list (chunk T)) : chunk T :=
  match steps with
  | [] => ([], Ok tt)
  | (l, Ok _) :: rest => (l ++ fst (gather rest), snd (gather rest))
  | (l, Raise e) :: _ => (l, Raise e)
  end.

(** One frame of [extract_player_data]. *)
Definition player_chunk (frame_numbers : list Z)
    (item : Z * (dict * dict * possession)) : chunk PlayerEntry.t :=
  let '(frame_idx, (tracks, assignment, possession)) := item in
  match frame_num_of frame_numbers frame_idx with
  | Ok frame_num =>
      gather (map (fun kv => one (player_entry_of frame_num assignment
                                    possession (fst kv) (snd kv))) tracks)
  | Raise e => ([], Raise e)
  end.

Definition player_records (player_tracks player_assignment : list dict)
    (ball_aquisition : list possession) (frame_numbers : list Z)
  : chunk PlayerEntry.t :=
  gather (map (player_chunk frame_numbers)
            (enumerate (zip3 player_tracks player_assignment ball_aquisition))).

(** One frame of [extract_ball_data]. *)
Definition ball_chunk (frame_numbers : list Z) (item : Z * dict)
  : chunk BallEntry.t :=
  match frame_num_of frame_numbers (fst item) with
  | Ok frame_num =>
      if ball_detected (snd item) then one (ball_entry_of frame_num (snd item))
      else ([], Ok tt)
  | Raise e => ([], Raise e)
  end.

Definition ball_records (ball_tracks : list dict) (frame_numbers : list Z)
  : chunk BallEntry.t :=
  gather (map (ball_chunk frame_numbers) (enumerate ball_tracks)).

(** One frame of [extract_speed_data]. *)
Definition speed_chunk (frame_numbers : list Z) (item : Z * dict)
  : chunk SpeedEntry.t :=
  match frame_num_of frame_numbers (fst item) with
  | Ok frame_num =>
      gather (map (fun kv => one (speed_entry_of frame_num (fst kv) (snd kv)))
                (snd item))
  | Raise e => ([], Raise e)
  end.

Definition speed_records (player_speed_per_frame : list dict)
    (frame_numbers : list Z) : chunk SpeedEntry.t :=
  gather (map (speed_chunk frame_numbers) (enumerate player_speed_per_frame)).

(** One frame of [extract_team_possession_data]. *)
Definition possession_chunk (frame_numbers : list Z) (item : Z * possession)
  : chunk PossessionEntry.t :=
  match frame_num_of frame_numbers (fst item) with
  | Ok frame_num => one (possession_entry_of frame_num (snd item))
  | Raise e => ([], Raise e)
  end.

Definition possession_records (ball_aquisition : list possession)
    (frame_numbers : list Z) : chunk PossessionEntry.t :=
  gather (map (possession_chunk frame_numbers) (enumerate ball_aquisition)).

(** The records [extract_pass_data] builds when the collection holds
    [n] records already. *)
Fixpoint pass_records (n : Z) (passes : list dict) : chunk PassEntry.t :=
  match passes with
  | [] => ([], Ok tt)
  | pass_info :: rest =>
      match pass_entry_of pass_info n with
      | Ok r => (r :: fst (pass_records (n + 1) rest),
                 snd (pass_records (n + 1) rest))
      | Raise e => ([], Raise e)
      end
  end.

Fixpoint interception_records (n : Z) (interceptions : list dict)
  : chunk InterceptionEntry.t :=
  match interceptions with
  | [] => ([], Ok tt)
  | interception_info :: rest =>
      match interception_entry_of interception_info n with
      | Ok r => (r :: fst (interception_records (n + 1) rest),
                 snd (interception_records (n + 1) rest))
      | Raise e => ([], Raise e)
      end
  end.

(** The collection a call appends to. *)
Inductive kind : Type :=
| KPlayer | KBall | KPass | KInterception | KSpeed | KTeamPossession.

Definition kind_of (c : call) : kind :=
  match c with
  | CallPlayer _ _ _ _ => KPlayer
  | CallBall _ _ => KBall
  | CallPass _ _ => KPass
  | CallInterception _ _ => KInterception
  | CallSpeed _ _ => KSpeed
  | CallTeamPossession _ _ => KTeamPossession
  end.

(** A pass that gives its start frame as None: the key is there. *)
Definition pass_with_none_start : dict :=
  [(KStr "start_frame", PNone); (KStr "end_frame", PInt 60)].


(** The number of frames [zip] pairs up. *)
Definition zipped_frames (player_tracks player_assignment : list dict)
    (ball_aquisition : list possession) : nat :=
  Nat.min (List.length player_tracks)
    (Nat.min (List.length player_assignment) (List.length ball_aquisition)).

(** A value that is a number: a bool, an int or a float. *)
Definition is_number (v : pyval) : bool :=
  match as_number v with
  | Some _ => true
  | None => false
  end.

(** A property of the records of each collection. *)
Definition each_record (Pplayer : PlayerEntry.t -> Prop)
    (Pball : BallEntry.t -> Prop) (Ppass : PassEntry.t -> Prop)
    (Pinterception : InterceptionEntry.t -> Prop)
    (Pspeed : SpeedEntry.t -> Prop) (Ppossession : PossessionEntry.t -> Prop)
    (st : extractor) : Prop :=
  Forall Pplayer (player_data st) /\
  Forall Pball (ball_data st) /\
  Forall Ppass (pass_data st) /\
  Forall Pinterception (interception_data st) /\
  Forall Pspeed (speed_data st) /\
  Forall Ppossession (team_possession_data st).

(** A speed record whose speed is a number and whose speed in km/h is
    that number, as a float, times 3.6. *)
Definition speed_record_ok (r : SpeedEntry.t) : Prop :=
  exists x f,
    as_number (SpeedEntry.speed_mps r) = Some x /\
    to_float x = Ok f /\
    SpeedEntry.speed_kmh r = PrimFloat.mul f 3.6.

(** A ball record without a box, or with a box of numbers and a center
    of floats. *)
Definition ball_record_ok (r : BallEntry.t) : Prop :=
  (BallEntry.x_min r = PNone /\ BallEntry.y_min r = PNone /\
   BallEntry.x_max r = PNone /\ BallEntry.y_max r = PNone /\
   BallEntry.center_x r = PNone /\ BallEntry.center_y r = PNone) \/
  (is_number (BallEntry.x_min r) && is_number (BallEntry.y_min r)
   && is_number (BallEntry.x_max r) && is_number (BallEntry.y_max r) = true /\
   exists cx cy,
     BallEntry.center_x r = PFloat cx /\ BallEntry.center_y r = PFloat cy).

(** A call whose event dicts leave the identifier to the method. *)
Definition gives_no_id (c : call) : bool :=
  match c with
  | CallPass passes _ =>
      forallb (fun pass_info => negb (dict_mem pass_info (KStr "pass_id")))
        passes
  | CallInterception interceptions _ =>
      forallb (fun interception_info =>
                 negb (dict_mem interception_info (KStr "interception_id")))
        interceptions
  | _ => true
  end.

(** Records numbered by their place in the collection. *)
Definition numbered_in_order (st : extractor) : Prop :=
  (forall (i : nat) r,
     nth_error (pass_data st) i = Some r ->
     PassEntry.pass_id r = PInt (Z.of_nat i)) /\
  (forall (i : nat) r,
     nth_error (interception_data st) i = Some r ->
     InterceptionEntry.interception_id r = PInt (Z.of_nat i)).


(** The metadata block of the document [save_to_json] writes. *)
Definition metadata (now : clock) (self : extractor) : pyval :=
  match data now self with
  | PDict d => dict_get d (KStr "metadata") PNone
  | _ => PNone
  end.


(* ================================================================== *)
(** ** [save_to_csv] *)
(* ================================================================== *)

(** The CSV files written so far: the path, and the records given to
    [pd.DataFrame].  The text pandas makes of them is not modelled. *)
Definition tables : Type := list (string * list pyval).

(** Lines 242-249. *)
Definition data_types (self : extractor) : list (string * list pyval) :=
  [ ("player_data", map player_entry_py (player_data self));
    ("ball_data", map ball_entry_py (ball_data self));
    ("pass_data", map pass_entry_py (pass_data self));
    ("interception_data",
     map interception_entry_py (interception_data self));
    ("speed_data", map speed_entry_py (speed_data self));
    ("team_possession_data",
     map possession_entry_py (team_possession_data self)) ].

(** The truth value of a list: false when it is empty. *)
Definition list_truthy {A} (l : list A) : bool :=
  match l with
  | [] => false
  | _ :: _ => true
  end.

(** [save_to_csv]: the files after the call and the paths returned. *)
Definition save_to_csv (now : clock) (filename_prefix : option string)
    (fs : tables) (self : extractor) : tables * list string :=
  let filename_prefix :=
    match filename_prefix with
    | Some p => p
    | None => String.append "basketball_analysis_" (strftime_stamp now)
    end in
  fold_left
    (fun (acc : tables * list string) (item : string * list pyval) =>
       if list_truthy (snd item) then
         let filename :=
           String.append filename_prefix
             (String.append "_" (String.append (fst item) ".csv")) in
         let filepath := path_join (output_dir self) filename in
         ((filepath, snd item) :: fst acc, snd acc ++ [filepath])
       else acc)
    (data_types self) (fs, []).

(** The table at a path, the last one written there. *)
Fixpoint read_table (fs : tables) (path : string) : option (list pyval) :=
  match fs with
  | [] => None
  | (p, t) :: fs' => if String.eqb p path then Some t else read_table fs' path
  end.

(** The collections that hold a record, under their names. *)
Definition written_types (self : extractor) : list (string * list pyval) :=
  filter (fun item => list_truthy (snd item)) (data_types self).

(** The path of the file of one collection. *)
Definition csv_path (now : clock) (filename_prefix : option string)
    (self : extractor) (data_type : string) : string :=
  path_join (output_dir self)
    (String.append
       (match filename_prefix with
        | Some p => p
        | None => String.append "basketball_analysis_" (strftime_stamp now)
        end)
       (String.append "_" (String.append data_type ".csv"))).

(** Whether a path is absolute. *)
Definition starts_with_slash (b : string) : bool :=
  match b with
  | String c _ => Ascii.eqb c "/"
  | EmptyString => false
  end.

(* ================================================================== *)
(** ** The rows a call is expected to add *)
(* ================================================================== *)

(** The frame number of frame [n]. *)
Definition frame_number (frame_numbers : list Z) (n : nat) : Z :=
  match nth_error frame_numbers n with
  | Some f => f
  | None => Z.of_nat n
  end.

(** Frame and player of each track, frame after frame. *)
Definition player_rows (player_tracks player_assignment : list dict)
    (ball_aquisition : list possession) (frame_numbers : list Z)
  : list (Z * key) :=
  flat_map (fun item =>
              map (fun kv => (frame_number frame_numbers (Z.to_nat (fst item)),
                              fst kv))
                (fst (fst (snd item))))
    (enumerate (zip3 player_tracks player_assignment ball_aquisition)).

(** Frame, player and speed of each speed given, frame after frame. *)
Definition speed_rows (player_speed_per_frame : list dict)
    (frame_numbers : list Z) : list (Z * key * pyval) :=
  flat_map (fun item =>
              map (fun kv => (frame_number frame_numbers (Z.to_nat (fst item)),
                              fst kv, snd kv))
                (snd item))
    (enumerate player_speed_per_frame).

(** The frame of each possession value. *)
Definition possession_rows (ball_aquisition : list possession)
    (frame_numbers : list Z) : list Z :=
  map (fun item => frame_number frame_numbers (Z.to_nat (fst item)))
    (enumerate ball_aquisition).

(* ================================================================== *)
(** ** Loops and appended records *)
(* ================================================================== *)

Section Appends.
Context {T : Type} (c : collection T) (Q : T -> Prop).

Lemma appends_refl : forall st, appends c Q st st.
Proof. intros st. exists []. split; [now rewrite extend_nil | constructor]. Qed.

Lemma appends_trans : forall st1 st2 st3,
  appends c Q st1 st2 -> appends c Q st2 st3 -> appends c Q st1 st3.
Proof.
  intros st1 st2 st3 [l1 [-> H1]] [l2 [-> H2]].
  exists (l1 ++ l2). split; [apply extend_app | now apply Forall_app].
Qed.

Lemma appends_one : forall st e, Q e -> appends c Q st (extend c st [e]).
Proof. intros st e H. exists [e]. split; [reflexivity | now constructor]. Qed.

Lemma only_appends_ret : forall A (a : A), only_appends c Q (ret a).
Proof. intros A a st. apply appends_refl. Qed.

Lemma only_appends_lift : forall A (r : result A), only_appends c Q (lift r).
Proof. intros A r st. apply appends_refl. Qed.

Lemma only_appends_get : only_appends c Q get_state.
Proof. intros st. apply appends_refl. Qed.

Lemma only_appends_bind : forall A B (m : M A) (k : A -> M B),
  only_appends c Q m ->
  (forall a st, m st = (fst (m st), Ok a) -> only_appends c Q (k a)) ->
  only_appends c Q (bind m k).
Proof.
  intros A B m k Hm Hk st. unfold bind.
  specialize (Hm st). destruct (m st) as [st1 [a | e]] eqn:E; simpl in *.
  - eapply appends_trans; [exact Hm |].
    apply (Hk a st). rewrite E. reflexivity.
  - exact Hm.
Qed.

Lemma only_appends_for_each : forall A (l : list A) (body : A -> M unit),
  (forall x, In x l -> only_appends c Q (body x)) ->
  only_appends c Q (for_each l body).
Proof.
  induction l as [| x l IH]; intros body H; simpl.
  - apply only_appends_ret.
  - apply only_appends_bind.
    + apply H. now left.
    + intros _ _ _. apply IH. intros y Hy. apply H. now right.
Qed.
End Appends.

Lemma appends_weaken : forall T (c : collection T) (Q Q' : T -> Prop) st st',
  (forall e, Q e -> Q' e) -> appends c Q st st' -> appends c Q' st st'.
Proof.
  intros T c Q Q' st st' H [new [-> Hn]]. exists new. split; [reflexivity |].
  eapply Forall_impl; eauto.
Qed.

Lemma enumerate_from_In : forall A (l : list A) i idx x,
  In (idx, x) (enumerate_from i l) ->
  exists n, idx = i + Z.of_nat n /\ nth_error l n = Some x.
Proof.
  induction l as [| y l IH]; simpl; intros i idx x H; [contradiction |].
  destruct H as [H | H].
  - inversion H; subst. exists 0%nat. split; [lia | reflexivity].
  - destruct (IH _ _ _ H) as [n [-> Hn]]. exists (S n). split; [lia | exact Hn].
Qed.

Lemma enumerate_In : forall A (l : list A) idx x,
  In (idx, x) (enumerate l) ->
  exists n, idx = Z.of_nat n /\ nth_error l n = Some x.
Proof.
  intros A l idx x H. destruct (enumerate_from_In _ _ _ _ H) as [n [-> Hn]].
  exists n. split; [lia | exact Hn].
Qed.

Lemma zip3_nth_error : forall A B C (a : list A) (b : list B) (c : list C) n x y z,
  nth_error (zip3 a b c) n = Some (x, y, z) ->
  nth_error a n = Some x /\ nth_error b n = Some y /\ nth_error c n = Some z.
Proof.
  induction a as [| x0 a IH]; intros b c n x y z H.
  - destruct n; discriminate.
  - destruct b as [| y0 b]; [destruct n; discriminate |].
    destruct c as [| z0 c]; [destruct n; discriminate |].
    destruct n; simpl in H.
    + inversion H; subst. repeat split.
    + apply IH in H. exact H.
Qed.

Lemma list_index_nth : forall A (l : list A) n x,
  nth_error l n = Some x -> list_index l (Z.of_nat n) = Ok x.
Proof.
  intros A l n x H. unfold list_index.
  assert (Hlt : (n < List.length l)%nat) by (apply nth_error_Some; congruence).
  replace (Z.of_nat n <? 0) with false by (symmetry; apply Z.ltb_ge; lia).
  unfold len.
  replace (0 <=? Z.of_nat n) with true by (symmetry; apply Z.leb_le; lia).
  replace (Z.of_nat n <? Z.of_nat (List.length l)) with true
    by (symmetry; apply Z.ltb_lt; lia).
  simpl. rewrite Nat2Z.id, H. reflexivity.
Qed.

(** The frame number of frame [n]: never an error, and [n] itself past
    the end of [frame_numbers]. *)
Lemma frame_num_of_total : forall frame_numbers (n : nat),
  frame_num_of frame_numbers (Z.of_nat n) =
  Ok (match nth_error frame_numbers n with
      | Some f => f
      | None => Z.of_nat n
      end).
Proof.
  intros fn n. unfold frame_num_of, len.
  destruct (nth_error fn n) as [f |] eqn:E.
  - assert ((n < List.length fn)%nat) by (apply nth_error_Some; congruence).
    replace (Z.of_nat n <? Z.of_nat (List.length fn)) with true
      by (symmetry; apply Z.ltb_lt; lia).
    now apply list_index_nth.
  - apply nth_error_None in E.
    replace (Z.of_nat n <? Z.of_nat (List.length fn)) with false
      by (symmetry; apply Z.ltb_ge; lia).
    reflexivity.
Qed.

Lemma rbind_Ok : forall A B (r : result A) (k : A -> result B) b,
  rbind r k = Ok b -> exists a, r = Ok a /\ k a = Ok b.
Proof. intros A B [a | e] k b H; simpl in H; [eauto | discriminate]. Qed.

Ltac inv_try H :=
  repeat (let a := fresh "v" in
          let Ha := fresh "E" in
          apply rbind_Ok in H; destruct H as [a [Ha H]]).

Lemma lift_Ok : forall A (r : result A) st a,
  lift r st = (fst (lift r st), Ok a) -> r = Ok a.
Proof. intros A r st a H. unfold lift in H. simpl in H. congruence. Qed.

Lemma player_entry_of_id : forall frame_num assignment possession player_id
    track_info r,
  player_entry_of frame_num assignment possession player_id track_info = Ok r ->
  PlayerEntry.player_id r = player_id /\ PlayerEntry.frame r = frame_num.
Proof.
  intros * H. unfold player_entry_of in H. inv_try H.
  inversion H; subst. split; reflexivity.
Qed.

Lemma extract_player_data_appends : forall pt pa ba fn,
  only_appends players (player_record_source pt pa ba fn)
    (extract_player_data pt pa ba fn).
Proof.
  intros pt pa ba fn. unfold extract_player_data.
  apply only_appends_for_each.
  intros [idx [[tracks assignment] possession]] Hin.
  apply enumerate_In in Hin. destruct Hin as [n [-> Hn]].
  apply zip3_nth_error in Hn. destruct Hn as [Ht [Ha Hp]].
  unfold player_frame. apply only_appends_bind; [apply only_appends_lift |].
  intros frame_num st Hf. apply lift_Ok in Hf.
  apply only_appends_for_each. intros [player_id track_info] Hin.
  apply only_appends_bind; [apply only_appends_lift |].
  intros e st' He. apply lift_Ok in He.
  intros st''. apply (appends_one players).
  destruct (player_entry_of_id _ _ _ _ _ He) as [Hid _].
  exists n, tracks, assignment, possession, track_info, frame_num.
  rewrite Hid. repeat split; assumption.
Qed.

Lemma extract_ball_data_appends : forall bt fn,
  only_appends balls (ball_record_source bt fn) (extract_ball_data bt fn).
Proof.
  intros bt fn. unfold extract_ball_data.
  apply only_appends_for_each. intros [idx ball_info] Hin.
  apply enumerate_In in Hin. destruct Hin as [n [-> Hn]].
  unfold ball_frame. apply only_appends_bind; [apply only_appends_lift |].
  intros frame_num st Hf. apply lift_Ok in Hf.
  destruct (ball_detected ball_info) eqn:Hd; [| apply only_appends_ret].
  apply only_appends_bind; [apply only_appends_lift |].
  intros e st' He. apply lift_Ok in He.
  intros st''. apply (appends_one balls).
  exists n, ball_info, frame_num. repeat split; assumption.
Qed.

Lemma extract_pass_data_appends : forall passes fn,
  only_appends passes_made (pass_record_source passes)
    (extract_pass_data passes fn).
Proof.
  intros passes fn. unfold extract_pass_data.
  apply only_appends_for_each. intros pass_info Hin.
  apply only_appends_bind; [apply only_appends_get |].
  intros self st _.
  apply only_appends_bind; [apply only_appends_lift |].
  intros e st' He. apply lift_Ok in He.
  intros st''. apply (appends_one passes_made).
  exists pass_info, (len (pass_data self)). split; assumption.
Qed.

Lemma extract_interception_data_appends : forall interceptions fn,
  only_appends interceptions_made (interception_record_source interceptions)
    (extract_interception_data interceptions fn).
Proof.
  intros interceptions fn. unfold extract_interception_data.
  apply only_appends_for_each. intros info Hin.
  apply only_appends_bind; [apply only_appends_get |].
  intros self st _.
  apply only_appends_bind; [apply only_appends_lift |].
  intros e st' He. apply lift_Ok in He.
  intros st''. apply (appends_one interceptions_made).
  exists info, (len (interception_data self)). split; assumption.
Qed.

Lemma speed_entry_of_fields : forall frame_num player_id speed r,
  speed_entry_of frame_num player_id speed = Ok r ->
  SpeedEntry.player_id r = player_id /\ SpeedEntry.speed_mps r = speed /\
  SpeedEntry.frame r = frame_num.
Proof.
  intros * H. unfold speed_entry_of in H. inv_try H.
  inversion H; subst. repeat split.
Qed.

Lemma extract_speed_data_appends : forall sp fn,
  only_appends speeds (speed_record_source sp fn) (extract_speed_data sp fn).
Proof.
  intros sp fn. unfold extract_speed_data.
  apply only_appends_for_each. intros [idx speed_info] Hin.
  apply enumerate_In in Hin. destruct Hin as [n [-> Hn]].
  unfold speed_frame. apply only_appends_bind; [apply only_appends_lift |].
  intros frame_num st Hf. apply lift_Ok in Hf.
  apply only_appends_for_each. intros [player_id speed] Hin.
  apply only_appends_bind; [apply only_appends_lift |].
  intros e st' He. apply lift_Ok in He.
  intros st''. apply (appends_one speeds).
  destruct (speed_entry_of_fields _ _ _ He) as [Hid [Hs _]].
  exists n, speed_info, frame_num. rewrite Hid, Hs. repeat split; assumption.
Qed.

Lemma extract_team_possession_data_appends : forall ba fn,
  only_appends possessions (possession_record_source ba fn)
    (extract_team_possession_data ba fn).
Proof.
  intros ba fn. unfold extract_team_possession_data.
  apply only_appends_for_each. intros [idx possession_info] Hin.
  apply enumerate_In in Hin. destruct Hin as [n [-> Hn]].
  unfold possession_frame. apply only_appends_bind; [apply only_appends_lift |].
  intros frame_num st Hf. apply lift_Ok in Hf.
  apply only_appends_bind; [apply only_appends_lift |].
  intros e st' He. apply lift_Ok in He.
  intros st''. apply (appends_one possessions).
  exists n, possession_info, frame_num. repeat split; assumption.
Qed.

(* ================================================================== *)
(** ** C1: timestamps *)
(* ================================================================== *)

Lemma player_entry_of_timestamp : forall frame_num assignment possession
    player_id track_info r,
  player_entry_of frame_num assignment possession player_id track_info = Ok r ->
  py_truediv (PInt (PlayerEntry.frame r)) FPS = Ok (PlayerEntry.timestamp r).
Proof.
  intros * H. unfold player_entry_of in H. inv_try H.
  inversion H; subst. simpl. assumption.
Qed.

Lemma ball_entry_of_timestamp : forall frame_num ball_info r,
  ball_entry_of frame_num ball_info = Ok r ->
  py_truediv (PInt (BallEntry.frame r)) FPS = Ok (BallEntry.timestamp r).
Proof.
  intros * H. unfold ball_entry_of in H. inv_try H.
  inversion H; subst. simpl. assumption.
Qed.

Lemma speed_entry_of_timestamp : forall frame_num player_id speed r,
  speed_entry_of frame_num player_id speed = Ok r ->
  py_truediv (PInt (SpeedEntry.frame r)) FPS = Ok (SpeedEntry.timestamp r).
Proof.
  intros * H. unfold speed_entry_of in H. inv_try H.
  inversion H; subst. simpl. assumption.
Qed.

Lemma possession_entry_of_timestamp : forall frame_num possession_info r,
  possession_entry_of frame_num possession_info = Ok r ->
  py_truediv (PInt (PossessionEntry.frame r)) FPS
  = Ok (PossessionEntry.timestamp r).
Proof.
  intros * H. unfold possession_entry_of in H. inv_try H.
  inversion H; subst. simpl. assumption.
Qed.

Lemma dict_get_reported : forall d k default,
  dict_get d k PNone <> PNone -> dict_get d k default = dict_get d k PNone.
Proof.
  intros d k default H. unfold dict_get in *.
  destruct (dict_find d k); [reflexivity | congruence].
Qed.

Lemma pass_entry_of_timestamps : forall pass_info n r,
  pass_entry_of pass_info n = Ok r ->
  (PassEntry.start_frame r <> PNone ->
   py_truediv (PassEntry.start_frame r) FPS = Ok (PassEntry.start_timestamp r)) /\
  (PassEntry.end_frame r <> PNone ->
   py_truediv (PassEntry.end_frame r) FPS = Ok (PassEntry.end_timestamp r)).
Proof.
  intros * H. unfold pass_entry_of in H. inv_try H.
  inversion H; subst; simpl. split; intros Hr.
  - rewrite <- (@dict_get_reported _ _ (PInt 0) Hr). assumption.
  - rewrite <- (@dict_get_reported _ _ (PInt 0) Hr). assumption.
Qed.

Lemma interception_entry_of_timestamp : forall interception_info n r,
  interception_entry_of interception_info n = Ok r ->
  InterceptionEntry.frame r <> PNone ->
  py_truediv (InterceptionEntry.frame r) FPS = Ok (InterceptionEntry.timestamp r).
Proof.
  intros * H. unfold interception_entry_of in H. inv_try H.
  inversion H; subst; simpl. intros Hr.
  rewrite <- (@dict_get_reported _ _ (PInt 0) Hr). assumption.
Qed.

Ltac split_six := split; [| split; [| split; [| split; [| split]]]].

Ltac split_old_new H :=
  apply in_app_or in H; destruct H as [H | H]; [solve [auto] |].

Lemma timestamps_agree_call : forall st c,
  timestamps_agree st -> timestamps_agree (fst (run c st)).
Proof.
  intros st c (Hpl & Hb & Hs & Hp & Hpa & Hi).
  destruct c as [pt pa ba fn | bt fn | ps fn | xs fn | sp fn | ba fn]; simpl.
  - destruct (extract_player_data_appends pt pa ba fn st) as [new [-> Hn]].
    rewrite Forall_forall in Hn. split_six; simpl; auto.
    intros r H. split_old_new H.
    destruct (Hn r H) as (n & t & a & p & ti & f & _ & _ & _ & _ & _ & He).
    eapply player_entry_of_timestamp; eauto.
  - destruct (extract_ball_data_appends bt fn st) as [new [-> Hn]].
    rewrite Forall_forall in Hn. split_six; simpl; auto.
    intros r H. split_old_new H.
    destruct (Hn r H) as (n & bi & f & _ & _ & _ & He).
    eapply ball_entry_of_timestamp; eauto.
  - destruct (extract_pass_data_appends ps fn st) as [new [-> Hn]].
    rewrite Forall_forall in Hn. split_six; simpl; auto.
    intros r H. split_old_new H.
    destruct (Hn r H) as (info & n & _ & He).
    eapply pass_entry_of_timestamps; eauto.
  - destruct (extract_interception_data_appends xs fn st) as [new [-> Hn]].
    rewrite Forall_forall in Hn. split_six; simpl; auto.
    intros r H. split_old_new H.
    destruct (Hn r H) as (info & n & _ & He).
    eapply interception_entry_of_timestamp; eauto.
  - destruct (extract_speed_data_appends sp fn st) as [new [-> Hn]].
    rewrite Forall_forall in Hn. split_six; simpl; auto.
    intros r H. split_old_new H.
    destruct (Hn r H) as (n & si & f & _ & _ & _ & He).
    eapply speed_entry_of_timestamp; eauto.
  - destruct (extract_team_possession_data_appends ba fn st) as [new [-> Hn]].
    rewrite Forall_forall in Hn. split_six; simpl; auto.
    intros r H. split_old_new H.
    destruct (Hn r H) as (n & pi & f & _ & _ & He).
    eapply possession_entry_of_timestamp; eauto.
Qed.

Lemma reachable_run_all : forall calls st,
  reachable st -> reachable (run_all calls st).
Proof.
  induction calls as [| c calls IH]; intros st H; simpl; [exact H |].
  apply IH. now apply reach_call.
Qed.

(** C1. In every state the extractor can reach, the timestamp of each
    record is its frame number divided by [30.0], computed as Python
    computes [frame / 30.0]: for player, ball, speed and team-possession
    records the frame is the resolved frame number; for pass and
    interception records it is the frame the event itself reports
    (a frame field that is not None). *)
Theorem timestamp_is_frame_over_30 : forall st,
  reachable st -> timestamps_agree st.
Proof.
  intros st H. induction H as [dir | st c H IH].
  - unfold timestamps_agree, init; simpl. split_six; intros r [].
  - now apply timestamps_agree_call.
Qed.

Lemma timestamp_is_frame_over_30_witness :
  reachable example_state /\ timestamps_agree example_state.
Proof.
  split.
  - apply reachable_run_all, reach_init.
  - apply (timestamp_is_frame_over_30 (st := example_state)).
    apply reachable_run_all, reach_init.
Defined.

(* ================================================================== *)
(** ** C8: each method only appends to its own collection *)
(* ================================================================== *)

(** C8. Whatever its arguments and whether it returns or raises, each
    extraction method leaves the state it started from with new records
    added at the end of its own collection: the records already there
    keep their place and value, and the other five collections (and the
    output directory) are the same. *)
Theorem extraction_appends_to_own_collection :
  (forall pt pa ba fn st, exists new,
      fst (extract_player_data pt pa ba fn st) = extend_player st new) /\
  (forall bt fn st, exists new,
      fst (extract_ball_data bt fn st) = extend_ball st new) /\
  (forall ps fn st, exists new,
      fst (extract_pass_data ps fn st) = extend_pass st new) /\
  (forall xs fn st, exists new,
      fst (extract_interception_data xs fn st) = extend_interception st new) /\
  (forall sp fn st, exists new,
      fst (extract_speed_data sp fn st) = extend_speed st new) /\
  (forall ba fn st, exists new,
      fst (extract_team_possession_data ba fn st)
      = extend_team_possession st new).
Proof.
  split_six; intros.
  - destruct (extract_player_data_appends pt pa ba fn st) as [new [E _]]; eauto.
  - destruct (extract_ball_data_appends bt fn st) as [new [E _]]; eauto.
  - destruct (extract_pass_data_appends ps fn st) as [new [E _]]; eauto.
  - destruct (extract_interception_data_appends xs fn st) as [new [E _]]; eauto.
  - destruct (extract_speed_data_appends sp fn st) as [new [E _]]; eauto.
  - destruct (extract_team_possession_data_appends ba fn st) as [new [E _]]; eauto.
Qed.

(* ================================================================== *)
(** ** C6: the frame numbers given to the event methods *)
(* ================================================================== *)

(** C6. [extract_pass_data] and [extract_interception_data] leave the
    same state and the same outcome whatever list of frame numbers they
    are given. *)
Theorem event_methods_ignore_frame_numbers :
  forall (passes interceptions : list dict) (frame_numbers frame_numbers' : list Z)
         (st : extractor),
    extract_pass_data passes frame_numbers st
    = extract_pass_data passes frame_numbers' st /\
    extract_interception_data interceptions frame_numbers st
    = extract_interception_data interceptions frame_numbers' st.
Proof. intros. split; reflexivity. Qed.

(* ================================================================== *)
(** ** C2 and C3: player records *)
(* ================================================================== *)


Lemma bbox_field_short : forall bbox n i v,
  py_len bbox = Ok n -> n < 4 -> bbox_field bbox i = Ok v -> v = PNone.
Proof.
  intros bbox n i v Hlen Hn H. unfold bbox_field in H. rewrite Hlen in H.
  simpl in H. replace (4 <=? n) with false in H by (symmetry; apply Z.leb_gt; lia).
  congruence.
Qed.

Lemma bbox_field_full : forall bbox n i v,
  py_len bbox = Ok n -> 4 <= n -> bbox_field bbox i = Ok v ->
  py_getitem bbox i = Ok v.
Proof.
  intros bbox n i v Hlen Hn H. unfold bbox_field in H. rewrite Hlen in H.
  simpl in H. replace (4 <=? n) with true in H by (symmetry; apply Z.leb_le; lia).
  exact H.
Qed.





(* ================================================================== *)
(** ** Index errors *)
(* ================================================================== *)

Lemma never_raises_ret : forall A e (a : A), never_raises e (ret a).
Proof. intros A e a st. simpl. discriminate. Qed.

Lemma never_raises_lift : forall A e (r : result A),
  r <> Raise e -> never_raises e (lift r).
Proof. intros A e r H st. exact H. Qed.

Lemma never_raises_bind : forall A B e (m : M A) (k : A -> M B),
  never_raises e m ->
  (forall a st, m st = (fst (m st), Ok a) -> never_raises e (k a)) ->
  never_raises e (bind m k).
Proof.
  intros A B e m k Hm Hk st. unfold bind. specialize (Hm st).
  destruct (m st) as [st1 [a | e']] eqn:E; simpl in *.
  - apply (Hk a st). rewrite E. reflexivity.
  - intros H. apply Hm. congruence.
Qed.

Lemma never_raises_for_each : forall A e (l : list A) (body : A -> M unit),
  (forall x, In x l -> never_raises e (body x)) ->
  never_raises e (for_each l body).
Proof.
  induction l as [| x l IH]; intros body H; simpl.
  - apply never_raises_ret.
  - apply never_raises_bind.
    + apply H. now left.
    + intros _ _ _. apply IH. intros y Hy. apply H. now right.
Qed.

Lemma rbind_not_raise : forall A B e (r : result A) (k : A -> result B),
  r <> Raise e -> (forall a, r = Ok a -> k a <> Raise e) ->
  rbind r k <> Raise e.
Proof.
  intros A B e [a | e'] k Hr Hk; simpl; auto.
  intros H. apply Hr. congruence.
Qed.

Lemma list_index_in_range : forall A (l : list A) i,
  0 <= i < len l -> exists x, list_index l i = Ok x.
Proof.
  intros A l i H. unfold len in H.
  destruct (nth_error l (Z.to_nat i)) as [x |] eqn:E.
  - exists x. rewrite <- (Z2Nat.id i) by lia. now apply list_index_nth.
  - apply nth_error_None in E. lia.
Qed.

Lemma string_chars_len : forall s,
  len (string_chars s) = len (list_ascii_of_string s).
Proof. intros s. unfold len, string_chars. now rewrite length_map. Qed.

(** A subscript behind the test [len(bbox) >= 4] is in range. *)
Lemma py_getitem_guarded : forall bbox n i,
  py_len bbox = Ok n -> 4 <= n -> 0 <= i < 4 ->
  py_getitem bbox i <> Raise IndexError.
Proof.
  intros bbox n i Hlen Hn Hi.
  destruct bbox as [[| b | z | f | s] | l | l | d]; simpl in *; try discriminate.
  - inversion Hlen; subst.
    destruct (@list_index_in_range _ (string_chars s) i) as [x Hx].
    { rewrite string_chars_len. lia. }
    rewrite Hx. simpl. discriminate.
  - inversion Hlen; subst.
    destruct (@list_index_in_range _ l i) as [x Hx]; [lia |].
    rewrite Hx. discriminate.
  - inversion Hlen; subst.
    destruct (@list_index_in_range _ l i) as [x Hx]; [lia |].
    rewrite Hx. discriminate.
  - destruct (dict_find d (KInt i)); discriminate.
Qed.

Lemma bbox_field_no_index_error : forall bbox i,
  0 <= i < 4 -> bbox_field bbox i <> Raise IndexError.
Proof.
  intros bbox i Hi. unfold bbox_field.
  destruct (py_len bbox) as [n | e] eqn:Hlen; simpl.
  - destruct (4 <=? n) eqn:Hn; [| discriminate].
    apply Z.leb_le in Hn. eapply py_getitem_guarded; eauto.
  - destruct bbox as [[| b | z | f | s] | l | l | d]; simpl in Hlen; congruence.
Qed.

Ltac case_results :=
  repeat (simpl;
          match goal with
          | |- Raise _ <> Raise _ => discriminate
          | |- Ok _ <> Raise _ => discriminate
          | |- context [match ?x with _ => _ end] =>
              lazymatch x with
              | context [match _ with _ => _ end] => fail
              | _ => destruct x
              end
          end).

Lemma py_truediv_no_index_error : forall a b, py_truediv a b <> Raise IndexError.
Proof.
  intros a b. unfold py_truediv, num_truediv, int_truediv, float_truediv,
    to_float, float_of_int, rbind.
  case_results.
Qed.

Lemma py_add_no_index_error : forall a b, py_add a b <> Raise IndexError.
Proof.
  intros a b. unfold py_add, num_arith, to_float, float_of_int, rbind.
  case_results.
Qed.

Lemma py_get_no_index_error : forall v k default,
  py_get v k default <> Raise IndexError.
Proof. intros [a | l | l | d] k default; simpl; discriminate. Qed.

Lemma bbox_center_no_index_error : forall bbox i j,
  0 <= i < 4 -> 0 <= j < 4 -> bbox_center bbox i j <> Raise IndexError.
Proof.
  intros bbox i j Hi Hj. unfold bbox_center.
  destruct (py_len bbox) as [n | e] eqn:Hlen; simpl.
  - destruct (4 <=? n) eqn:Hn; [| discriminate].
    apply Z.leb_le in Hn.
    apply rbind_not_raise; [eapply py_getitem_guarded; eauto |]. intros a _.
    apply rbind_not_raise; [eapply py_getitem_guarded; eauto |]. intros b _.
    apply rbind_not_raise; [apply py_add_no_index_error |]. intros s _.
    apply rbind_not_raise; [apply py_truediv_no_index_error |]. intros c _.
    discriminate.
  - destruct bbox as [[| b | z | f | s] | l | l | d]; simpl in Hlen; congruence.
Qed.

Lemma player_entry_of_no_index_error : forall frame_num assignment possession
    player_id track_info,
  player_entry_of frame_num assignment possession player_id track_info
  <> Raise IndexError.
Proof.
  intros. unfold player_entry_of.
  apply rbind_not_raise; [apply py_get_no_index_error |]. intros bbox _.
  do 4 (apply rbind_not_raise; [apply bbox_field_no_index_error; lia |];
        intros ? _).
  apply rbind_not_raise; [apply py_truediv_no_index_error |]. intros t _.
  discriminate.
Qed.

Lemma ball_entry_of_no_index_error : forall frame_num ball_info,
  ball_entry_of frame_num ball_info <> Raise IndexError.
Proof.
  intros. unfold ball_entry_of.
  apply rbind_not_raise.
  { unfold dict_getitem. destruct (dict_find ball_info (KInt 1)); discriminate. }
  intros track _.
  apply rbind_not_raise; [apply py_get_no_index_error |]. intros bbox _.
  do 4 (apply rbind_not_raise; [apply bbox_field_no_index_error; lia |];
        intros ? _).
  do 2 (apply rbind_not_raise; [apply bbox_center_no_index_error; lia |];
        intros ? _).
  apply rbind_not_raise; [apply py_truediv_no_index_error |]. intros t _.
  discriminate.
Qed.

Lemma speed_entry_of_no_index_error : forall frame_num player_id speed,
  speed_entry_of frame_num player_id speed <> Raise IndexError.
Proof.
  intros. unfold speed_entry_of.
  apply rbind_not_raise.
  { unfold py_mul_float, to_float, float_of_int, rbind. case_results. }
  intros kmh _.
  apply rbind_not_raise; [apply py_truediv_no_index_error |]. intros t _.
  discriminate.
Qed.

Lemma possession_entry_of_no_index_error : forall frame_num possession_info,
  possession_entry_of frame_num possession_info <> Raise IndexError.
Proof.
  intros. unfold possession_entry_of.
  apply rbind_not_raise.
  { unfold possession_iter. case_results. }
  intros players _.
  apply rbind_not_raise.
  { unfold possession_len. case_results. }
  intros total _.
  apply rbind_not_raise; [apply py_truediv_no_index_error |]. intros t _.
  discriminate.
Qed.

Lemma frame_num_of_enumerated : forall frame_numbers (n : nat) e,
  frame_num_of frame_numbers (Z.of_nat n) <> Raise e.
Proof. intros fn n e. rewrite frame_num_of_total. discriminate. Qed.

Lemma never_raises_append : forall e (m : M unit),
  (forall st, snd (m st) = Ok tt) -> never_raises e m.
Proof. intros e m H st. rewrite H. discriminate. Qed.

Lemma extract_player_data_no_index_error : forall pt pa ba fn,
  never_raises IndexError (extract_player_data pt pa ba fn).
Proof.
  intros. unfold extract_player_data. apply never_raises_for_each.
  intros [idx [[tracks assignment] possession]] Hin.
  apply enumerate_In in Hin. destruct Hin as [n [-> _]].
  unfold player_frame. apply never_raises_bind.
  { apply never_raises_lift, frame_num_of_enumerated. }
  intros frame_num _ _. apply never_raises_for_each. intros [pid info] _.
  apply never_raises_bind.
  { apply never_raises_lift, player_entry_of_no_index_error. }
  intros e _ _. now apply never_raises_append.
Qed.

Lemma extract_ball_data_no_index_error : forall bt fn,
  never_raises IndexError (extract_ball_data bt fn).
Proof.
  intros. unfold extract_ball_data. apply never_raises_for_each.
  intros [idx ball_info] Hin.
  apply enumerate_In in Hin. destruct Hin as [n [-> _]].
  unfold ball_frame. apply never_raises_bind.
  { apply never_raises_lift, frame_num_of_enumerated. }
  intros frame_num _ _.
  destruct (ball_detected ball_info); [| apply never_raises_ret].
  apply never_raises_bind.
  { apply never_raises_lift, ball_entry_of_no_index_error. }
  intros e _ _. now apply never_raises_append.
Qed.

Lemma extract_speed_data_no_index_error : forall sp fn,
  never_raises IndexError (extract_speed_data sp fn).
Proof.
  intros. unfold extract_speed_data. apply never_raises_for_each.
  intros [idx speed_info] Hin.
  apply enumerate_In in Hin. destruct Hin as [n [-> _]].
  unfold speed_frame. apply never_raises_bind.
  { apply never_raises_lift, frame_num_of_enumerated. }
  intros frame_num _ _. apply never_raises_for_each. intros [pid speed] _.
  apply never_raises_bind.
  { apply never_raises_lift, speed_entry_of_no_index_error. }
  intros e _ _. now apply never_raises_append.
Qed.

Lemma extract_team_possession_data_no_index_error : forall ba fn,
  never_raises IndexError (extract_team_possession_data ba fn).
Proof.
  intros. unfold extract_team_possession_data. apply never_raises_for_each.
  intros [idx possession_info] Hin.
  apply enumerate_In in Hin. destruct Hin as [n [-> _]].
  unfold possession_frame. apply never_raises_bind.
  { apply never_raises_lift, frame_num_of_enumerated. }
  intros frame_num _ _.
  apply never_raises_bind.
  { apply never_raises_lift, possession_entry_of_no_index_error. }
  intros e _ _. now apply never_raises_append.
Qed.

Lemma frame_num_of_resolved : forall frame_numbers n frame,
  frame_num_of frame_numbers (Z.of_nat n) = Ok frame ->
  frame_resolved frame_numbers n frame.
Proof.
  intros fn n frame H. rewrite frame_num_of_total in H. inversion H; subst.
  split.
  - intros f Hf. now rewrite Hf.
  - intros Hn. apply nth_error_None in Hn. now rewrite Hn.
Qed.

Lemma ball_entry_of_frame : forall frame_num ball_info r,
  ball_entry_of frame_num ball_info = Ok r -> BallEntry.frame r = frame_num.
Proof.
  intros * H. unfold ball_entry_of in H. inv_try H. now inversion H.
Qed.

Lemma possession_entry_of_frame : forall frame_num possession_info r,
  possession_entry_of frame_num possession_info = Ok r ->
  PossessionEntry.frame r = frame_num.
Proof.
  intros * H. unfold possession_entry_of in H. inv_try H. now inversion H.
Qed.

(* ================================================================== *)
(** ** Returning on well-formed inputs *)
(* ================================================================== *)

Lemma small_below_limit : (2 ^ 65 <? DBL_LIMIT) = true.
Proof. vm_compute. reflexivity. Qed.

Lemma small_int_bound : forall z, small_int z = true -> Z.abs z < 2 ^ 63.
Proof. intros z H. unfold small_int in H. now apply Z.ltb_lt in H. Qed.

Lemma small_in_double_range : forall z,
  Z.abs z < 2 ^ 65 -> in_double_range z = true.
Proof.
  intros z H. unfold in_double_range. apply Z.ltb_lt.
  pose proof small_below_limit as L. apply Z.ltb_lt in L. lia.
Qed.

Lemma float_of_int_small : forall z,
  Z.abs z < 2 ^ 65 -> exists f, float_of_int z = Ok f.
Proof.
  intros z H. unfold float_of_int. rewrite (small_in_double_range _ H). eauto.
Qed.

(** [frame_num / 30.0] for a small frame number. *)
Lemma timestamp_defined : forall z,
  small_int z = true -> exists t, py_truediv (PInt z) FPS = Ok t.
Proof.
  intros z H. apply small_int_bound in H.
  destruct (@float_of_int_small z) as [f Hf]; [lia |].
  unfold py_truediv, FPS, as_number, num_truediv, float_truediv, to_float.
  rewrite Hf. exists (f / 30)%float. reflexivity.
Qed.

Lemma over_fps_defined : forall n,
  match n with NInt z => Z.abs z < 2 ^ 65 | NFloat _ => True end ->
  exists t, py_truediv (number_val n) FPS = Ok t.
Proof.
  intros [z | f] H; unfold py_truediv, FPS, number_val, as_number, num_truediv,
    float_truediv, to_float.
  - destruct (@float_of_int_small z H) as [x Hx]. rewrite Hx.
    exists (x / 30)%float. reflexivity.
  - exists (f / 30)%float. reflexivity.
Qed.

Lemma small_number_cases : forall v,
  small_number v = true ->
  exists n, as_number v = Some n /\
            match n with NInt z => Z.abs z < 2 ^ 63 | NFloat _ => True end.
Proof.
  intros v H. unfold small_number in H.
  destruct (as_number v) as [[z | f] |]; try discriminate.
  - exists (NInt z). split; [reflexivity | now apply small_int_bound].
  - exists (NFloat f). split; [reflexivity | exact I].
Qed.

Lemma py_truediv_as_number : forall v n b,
  as_number v = Some n -> py_truediv v b = py_truediv (number_val n) b.
Proof.
  intros v n b H. unfold py_truediv. rewrite H.
  destruct n; reflexivity.
Qed.

(** [v / 30.0] on a number. *)
Lemma frame_over_fps_defined : forall v,
  small_number v = true -> exists t, py_truediv v FPS = Ok t.
Proof.
  intros v H. destruct (@small_number_cases v H) as [n [Hn Hb]].
  rewrite (@py_truediv_as_number v n FPS Hn). apply over_fps_defined.
  destruct n; [lia | exact I].
Qed.

(** [(a - b) / 30.0] on two numbers. *)
Lemma duration_defined : forall a b,
  small_number a = true -> small_number b = true ->
  exists d t, py_sub a b = Ok d /\ py_truediv d FPS = Ok t.
Proof.
  intros a b Ha Hb.
  destruct (@small_number_cases a Ha) as [[x | fx] [Hx Bx]];
  destruct (@small_number_cases b Hb) as [[y | fy] [Hy By]];
  unfold py_sub; rewrite Hx, Hy; unfold num_arith, to_float.
  - simpl. destruct (@over_fps_defined (NInt (x - y))) as [t Ht]; [simpl; lia |].
    eauto.
  - destruct (@float_of_int_small x) as [f Hf]; [lia |]. rewrite Hf. simpl.
    destruct (@over_fps_defined (NFloat (f - fy))) as [t Ht]; [exact I |]. eauto.
  - destruct (@float_of_int_small y) as [f Hf]; [lia |]. rewrite Hf. simpl.
    destruct (@over_fps_defined (NFloat (fx - f))) as [t Ht]; [exact I |]. eauto.
  - simpl.
    destruct (@over_fps_defined (NFloat (fx - fy))) as [t Ht]; [exact I |]. eauto.
Qed.

Lemma for_each_returns : forall A (l : list A) (body : A -> M unit),
  (forall x, In x l -> forall st, snd (body x st) = Ok tt) ->
  forall st, snd (for_each l body st) = Ok tt.
Proof.
  induction l as [| x l IH]; intros body H st; simpl; [reflexivity |].
  unfold bind. pose proof (H x (or_introl eq_refl) st) as Hx.
  destruct (body x st) as [st1 [[] | e]]; simpl in Hx; [| discriminate].
  apply IH. intros y Hy. apply H. now right.
Qed.

Lemma bind_returns : forall A (r : result A) (k : A -> M unit) a st,
  r = Ok a -> (forall st', snd (k a st') = Ok tt) ->
  snd (bind (lift r) k st) = Ok tt.
Proof. intros A r k a st -> H. unfold bind, lift. apply H. Qed.

Lemma int_truediv_defined : forall a b,
  b <> 0 -> Z.abs a < DBL_LIMIT * Z.abs b -> exists f, int_truediv a b = Ok f.
Proof.
  intros a b Hb H. unfold int_truediv.
  replace (b =? 0) with false by (symmetry; now apply Z.eqb_neq).
  replace (Z.abs a <? DBL_LIMIT * Z.abs b) with true
    by (symmetry; now apply Z.ltb_lt).
  eauto.
Qed.

Lemma float_of_int_2 : float_of_int 2 = Ok 2%float.
Proof. vm_compute. reflexivity. Qed.

(** Half of a float, or of an int below [2^65]. *)
Lemma halve_defined : forall n,
  match n with NInt z => Z.abs z < 2 ^ 65 | NFloat _ => True end ->
  exists c, py_truediv (number_val n) (PInt 2) = Ok c.
Proof.
  intros [z | f] H; unfold py_truediv, number_val, as_number, num_truediv,
    float_truediv, to_float.
  - apply int_truediv_defined; [lia |].
    pose proof small_below_limit as L. apply Z.ltb_lt in L. lia.
  - rewrite float_of_int_2. exists (f / 2)%float. reflexivity.
Qed.

(** [(a + b) / 2] on two numbers of a box. *)
Lemma center_defined : forall a b,
  small_number a = true -> small_number b = true ->
  exists s c, py_add a b = Ok s /\ py_truediv s (PInt 2) = Ok c.
Proof.
  intros a b Ha Hb. unfold small_number in *. unfold py_add.
  destruct (as_number a) as [[x | fx] |]; try discriminate;
  destruct (as_number b) as [[y | fy] |]; try discriminate; simpl.
  - apply small_int_bound in Ha, Hb.
    destruct (@halve_defined (NInt (x + y))) as [c Hc]; [simpl; lia |].
    eauto.
  - apply small_int_bound in Ha.
    destruct (@float_of_int_small x) as [f Hf]; [lia |]. rewrite Hf. simpl.
    destruct (@halve_defined (NFloat (f + fy))) as [c Hc]; [exact I |]. eauto.
  - apply small_int_bound in Hb.
    destruct (@float_of_int_small y) as [f Hf]; [lia |]. rewrite Hf. simpl.
    destruct (@halve_defined (NFloat (fx + f))) as [c Hc]; [exact I |]. eauto.
  - destruct (@halve_defined (NFloat (fx + fy))) as [c Hc]; [exact I |]. eauto.
Qed.

Lemma box_ok_cases : forall bbox,
  box_ok bbox = true ->
  (exists n, py_len bbox = Ok n /\ n < 4) \/
  (exists a b c d rest, bbox = PList (a :: b :: c :: d :: rest) /\
     small_number a = true /\ small_number b = true /\
     small_number c = true /\ small_number d = true).
Proof.
  intros bbox H. unfold box_ok in H.
  destruct (py_len bbox) as [n | e] eqn:Hlen; [| discriminate].
  destruct (n <? 4) eqn:E; [left; exists n; split; [reflexivity | now apply Z.ltb_lt] |].
  right. apply Z.ltb_ge in E. simpl in H.
  destruct bbox as [s | l | l | d]; try discriminate.
  simpl in Hlen. inversion Hlen; subst; clear Hlen. unfold len in E.
  destruct l as [| a [| b [| c [| d rest]]]]; simpl in E; try lia.
  simpl in H. repeat (apply andb_prop in H; destruct H as [? H]).
  exists a, b, c, d, rest. repeat split; assumption.
Qed.

(** The fields of a box are defined, whatever the methods read. *)
Lemma box_fields_defined : forall bbox,
  box_ok bbox = true ->
  (forall i, 0 <= i < 4 -> exists v, bbox_field bbox i = Ok v) /\
  (exists cx, bbox_center bbox 0 2 = Ok cx) /\
  (exists cy, bbox_center bbox 1 3 = Ok cy).
Proof.
  intros bbox H. destruct (box_ok_cases _ H) as [[n [Hlen Hs]] | Hl].
  - assert (E : (4 <=? n) = false) by (apply Z.leb_gt; lia).
    unfold bbox_field, bbox_center. rewrite Hlen. simpl. rewrite E.
    split; [| split]; intros; eexists; reflexivity.
  - destruct Hl as (a & b & c & d & rest & -> & Ha & Hb & Hc & Hd).
    assert (E : (4 <=? len (a :: b :: c :: d :: rest)) = true).
    { apply Z.leb_le. unfold len. simpl List.length. lia. }
    unfold bbox_field, bbox_center. simpl py_len. simpl rbind. rewrite E.
    split; [| split].
    + intros i Hi. simpl py_getitem.
      destruct (@list_index_in_range _ (a :: b :: c :: d :: rest) i) as [x Hx];
        [unfold len; simpl List.length; lia | eauto].
    + destruct (center_defined _ _ Ha Hc) as (s & cx & Hs & Hcx).
      simpl py_getitem.
      assert (G0 : list_index (a :: b :: c :: d :: rest) 0 = Ok a)
        by (apply (@list_index_nth _ _ 0%nat); reflexivity).
      assert (G2 : list_index (a :: b :: c :: d :: rest) 2 = Ok c)
        by (apply (@list_index_nth _ _ 2%nat); reflexivity).
      rewrite ?G0, ?G2. simpl. rewrite Hs. simpl. rewrite Hcx. simpl. eauto.
    + destruct (center_defined _ _ Hb Hd) as (s & cy & Hs & Hcy).
      simpl py_getitem.
      assert (G1 : list_index (a :: b :: c :: d :: rest) 1 = Ok b)
        by (apply (@list_index_nth _ _ 1%nat); reflexivity).
      assert (G3 : list_index (a :: b :: c :: d :: rest) 3 = Ok d)
        by (apply (@list_index_nth _ _ 3%nat); reflexivity).
      rewrite ?G1, ?G3. simpl. rewrite Hs. simpl. rewrite Hcy. simpl. eauto.
Qed.

Lemma ball_entry_of_defined : forall frame_num ball_info,
  ball_detected ball_info = true -> ball_info_ok ball_info = true ->
  small_int frame_num = true ->
  exists r, ball_entry_of frame_num ball_info = Ok r.
Proof.
  intros f info Hd Hok Hf. unfold ball_detected in Hd.
  apply andb_prop in Hd. destruct Hd as [_ Hd].
  unfold dict_mem in Hd. unfold ball_info_ok in Hok.
  unfold ball_entry_of, dict_getitem.
  destruct (dict_find info (KInt 1)) as [track |]; [| discriminate]. simpl.
  destruct track as [s | l | l | d]; simpl in Hok; try discriminate. simpl.
  destruct (box_fields_defined _ Hok) as (Hfield & [cx Hcx] & [cy Hcy]).
  destruct (Hfield 0) as [x0 H0]; [lia |].
  destruct (Hfield 1) as [x1 H1]; [lia |].
  destruct (Hfield 2) as [x2 H2]; [lia |].
  destruct (Hfield 3) as [x3 H3]; [lia |].
  destruct (timestamp_defined _ Hf) as [t Ht].
  rewrite H0; simpl. rewrite H1; simpl. rewrite H2; simpl. rewrite H3; simpl.
  rewrite Hcx; simpl. rewrite Hcy; simpl. rewrite Ht; simpl. eauto.
Qed.

(** The frame number of a frame is small when the frame numbers given
    are, and the frames are no more than a list can hold. *)
Lemma frame_num_small : forall A (frames : list A) frame_numbers (n : nat) x,
  forallb small_int frame_numbers = true ->
  len frames <= 2 ^ 63 ->
  nth_error frames n = Some x ->
  exists f, frame_num_of frame_numbers (Z.of_nat n) = Ok f /\ small_int f = true.
Proof.
  intros A frames fn n x Hfn Hlen Hx. rewrite frame_num_of_total.
  eexists. split; [reflexivity |].
  destruct (nth_error fn n) as [f |] eqn:E.
  - apply nth_error_In in E. rewrite forallb_forall in Hfn. now apply Hfn.
  - assert ((n < List.length frames)%nat) by (apply nth_error_Some; congruence).
    unfold small_int, len in *. apply Z.ltb_lt. lia.
Qed.

Lemma extract_ball_data_returns : forall bt fn st,
  forallb ball_info_ok bt = true ->
  forallb small_int fn = true ->
  len bt <= 2 ^ 63 ->
  snd (extract_ball_data bt fn st) = Ok tt.
Proof.
  intros bt fn st Hbt Hfn Hlen. unfold extract_ball_data.
  apply for_each_returns. intros [idx info] Hin st'.
  apply enumerate_In in Hin. destruct Hin as [n [-> Hn]].
  destruct (@frame_num_small _ bt fn n info Hfn Hlen Hn) as [f [Hf Hs]].
  unfold ball_frame. eapply bind_returns; [exact Hf |]. intros st1.
  destruct (ball_detected info) eqn:Hd; [| reflexivity].
  assert (Hok : ball_info_ok info = true).
  { rewrite forallb_forall in Hbt. apply Hbt. eapply nth_error_In; eauto. }
  destruct (@ball_entry_of_defined f info Hd Hok Hs) as [r Hr].
  eapply bind_returns; [exact Hr |]. reflexivity.
Qed.

Lemma player_entry_of_defined : forall frame_num assignment possession
    player_id track_info,
  track_ok track_info = true -> small_int frame_num = true ->
  exists r,
    player_entry_of frame_num assignment possession player_id track_info = Ok r.
Proof.
  intros f a p pid ti Hok Hf. unfold player_entry_of.
  destruct ti as [s | l | l | d]; simpl in Hok; try discriminate. simpl.
  destruct (box_fields_defined _ Hok) as (Hfield & _ & _).
  destruct (Hfield 0) as [x0 H0]; [lia |].
  destruct (Hfield 1) as [x1 H1]; [lia |].
  destruct (Hfield 2) as [x2 H2]; [lia |].
  destruct (Hfield 3) as [x3 H3]; [lia |].
  destruct (timestamp_defined _ Hf) as [t Ht].
  rewrite H0; simpl. rewrite H1; simpl. rewrite H2; simpl. rewrite H3; simpl.
  rewrite Ht; simpl. eauto.
Qed.

Lemma extract_player_data_returns : forall pt pa ba fn st,
  forallb tracks_ok pt = true ->
  forallb small_int fn = true ->
  len pt <= 2 ^ 63 ->
  snd (extract_player_data pt pa ba fn st) = Ok tt.
Proof.
  intros pt pa ba fn st Hpt Hfn Hlen. unfold extract_player_data.
  apply for_each_returns. intros [idx [[tracks assignment] possession]] Hin st'.
  apply enumerate_In in Hin. destruct Hin as [n [-> Hn]].
  apply zip3_nth_error in Hn. destruct Hn as [Ht _].
  destruct (@frame_num_small _ pt fn n tracks Hfn Hlen Ht) as [f [Hf Hs]].
  unfold player_frame. eapply bind_returns; [exact Hf |]. intros st1.
  assert (Hok : tracks_ok tracks = true).
  { rewrite forallb_forall in Hpt. apply Hpt. eapply nth_error_In; eauto. }
  apply for_each_returns. intros [pid info] Hin st2.
  unfold tracks_ok in Hok. rewrite forallb_forall in Hok.
  destruct (@player_entry_of_defined f assignment possession pid info
              (Hok _ Hin) Hs) as [r Hr].
  eapply bind_returns; [exact Hr |]. reflexivity.
Qed.

Lemma speed_entry_of_defined : forall frame_num player_id speed,
  small_number speed = true -> small_int frame_num = true ->
  exists r, speed_entry_of frame_num player_id speed = Ok r.
Proof.
  intros f pid speed Hsp Hf. unfold speed_entry_of, py_mul_float.
  destruct (@small_number_cases speed Hsp) as [[z | x] [Hn Hb]]; rewrite Hn;
    unfold to_float.
  - destruct (@float_of_int_small z) as [fz Hfz]; [lia |]. rewrite Hfz. simpl.
    destruct (timestamp_defined _ Hf) as [t Ht]. rewrite Ht. simpl. eauto.
  - simpl. destruct (timestamp_defined _ Hf) as [t Ht]. rewrite Ht. simpl. eauto.
Qed.

Lemma extract_speed_data_returns : forall sp fn st,
  forallb speeds_ok sp = true ->
  forallb small_int fn = true ->
  len sp <= 2 ^ 63 ->
  snd (extract_speed_data sp fn st) = Ok tt.
Proof.
  intros sp fn st Hsp Hfn Hlen. unfold extract_speed_data.
  apply for_each_returns. intros [idx speed_info] Hin st'.
  apply enumerate_In in Hin. destruct Hin as [n [-> Hn]].
  destruct (@frame_num_small _ sp fn n speed_info Hfn Hlen Hn) as [f [Hf Hs]].
  unfold speed_frame. eapply bind_returns; [exact Hf |]. intros st1.
  assert (Hok : speeds_ok speed_info = true).
  { rewrite forallb_forall in Hsp. apply Hsp. eapply nth_error_In; eauto. }
  apply for_each_returns. intros [pid speed] Hin st2.
  unfold speeds_ok in Hok. rewrite forallb_forall in Hok.
  destruct (@speed_entry_of_defined f pid speed (Hok _ Hin) Hs) as [r Hr].
  eapply bind_returns; [exact Hr |]. reflexivity.
Qed.

Lemma possession_entry_of_defined : forall frame_num possession_info,
  possession_iterable possession_info = true -> small_int frame_num = true ->
  exists r, possession_entry_of frame_num possession_info = Ok r.
Proof.
  intros f p Hp Hf. unfold possession_entry_of.
  destruct (timestamp_defined _ Hf) as [t Ht].
  destruct p as [d | l | [| b | z | x | s]]; try discriminate; simpl;
    rewrite Ht; simpl; eauto.
Qed.

Lemma extract_team_possession_data_returns : forall ba fn st,
  forallb possession_iterable ba = true ->
  forallb small_int fn = true ->
  len ba <= 2 ^ 63 ->
  snd (extract_team_possession_data ba fn st) = Ok tt.
Proof.
  intros ba fn st Hba Hfn Hlen. unfold extract_team_possession_data.
  apply for_each_returns. intros [idx p] Hin st'.
  apply enumerate_In in Hin. destruct Hin as [n [-> Hn]].
  destruct (@frame_num_small _ ba fn n p Hfn Hlen Hn) as [f [Hf Hs]].
  unfold possession_frame. eapply bind_returns; [exact Hf |]. intros st1.
  assert (Hok : possession_iterable p = true).
  { rewrite forallb_forall in Hba. apply Hba. eapply nth_error_In; eauto. }
  destruct (@possession_entry_of_defined f p Hok Hs) as [r Hr].
  eapply bind_returns; [exact Hr |]. reflexivity.
Qed.

(* ================================================================== *)
(** ** C4: the frame number of a frame past the end of [frame_numbers] *)
(* ================================================================== *)

(** C4. In the four methods that walk the frames, the subscript
    [frame_numbers[frame_idx]] is never out of range: the frame number
    of frame [n] is always defined, no call raises IndexError, and every
    record appended comes from a frame [n] of the per-frame data whose
    frame number is the [n]-th of [frame_numbers] when there is one and
    [n] itself when [frame_numbers] is too short.  However short
    [frame_numbers] is, the four methods return on per-frame data of
    the expected shape (tracks that are dicts with a box, speeds that
    are numbers, possession values that can be walked). *)
Theorem frame_number_falls_back_to_index :
  (forall fn (n : nat), exists frame,
     frame_num_of fn (Z.of_nat n) = Ok frame /\ frame_resolved fn n frame) /\
  (forall pt pa ba fn st,
     snd (extract_player_data pt pa ba fn st) <> Raise IndexError /\
     exists new,
       fst (extract_player_data pt pa ba fn st) = extend_player st new /\
       Forall (fun r => exists (n : nat) tracks,
                 nth_error pt n = Some tracks /\
                 In (PlayerEntry.player_id r) (dict_keys tracks) /\
                 frame_resolved fn n (PlayerEntry.frame r)) new) /\
  (forall bt fn st,
     snd (extract_ball_data bt fn st) <> Raise IndexError /\
     exists new,
       fst (extract_ball_data bt fn st) = extend_ball st new /\
       Forall (fun r => exists (n : nat) ball_info,
                 nth_error bt n = Some ball_info /\
                 frame_resolved fn n (BallEntry.frame r)) new) /\
  (forall sp fn st,
     snd (extract_speed_data sp fn st) <> Raise IndexError /\
     exists new,
       fst (extract_speed_data sp fn st) = extend_speed st new /\
       Forall (fun r => exists (n : nat) speed_info,
                 nth_error sp n = Some speed_info /\
                 In (SpeedEntry.player_id r, SpeedEntry.speed_mps r) speed_info /\
                 frame_resolved fn n (SpeedEntry.frame r)) new) /\
  (forall ba fn st,
     snd (extract_team_possession_data ba fn st) <> Raise IndexError /\
     exists new,
       fst (extract_team_possession_data ba fn st)
       = extend_team_possession st new /\
       Forall (fun r => exists (n : nat) possession_info,
                 nth_error ba n = Some possession_info /\
                 frame_resolved fn n (PossessionEntry.frame r)) new) /\
  (forall pt pa ba bt sp fn st,
     forallb small_int fn = true ->
     forallb tracks_ok pt = true -> len pt <= 2 ^ 63 ->
     forallb ball_info_ok bt = true -> len bt <= 2 ^ 63 ->
     forallb speeds_ok sp = true -> len sp <= 2 ^ 63 ->
     forallb possession_iterable ba = true -> len ba <= 2 ^ 63 ->
     snd (extract_player_data pt pa ba fn st) = Ok tt /\
     snd (extract_ball_data bt fn st) = Ok tt /\
     snd (extract_speed_data sp fn st) = Ok tt /\
     snd (extract_team_possession_data ba fn st) = Ok tt).
Proof.
  split; [| split; [| split; [| split; [| split]]]].
  - intros fn n. eexists. split; [apply frame_num_of_total |].
    apply frame_num_of_resolved, frame_num_of_total.
  - intros. split; [apply extract_player_data_no_index_error |].
    destruct (extract_player_data_appends pt pa ba fn st) as [new [E Hn]].
    exists new. split; [exact E |]. eapply Forall_impl; [| exact Hn].
    intros r (n & tracks & assignment & possession & track_info & frame_num &
              Ht & _ & _ & Hf & Hin & He).
    exists n, tracks. repeat split; try assumption.
    + unfold dict_keys. apply in_map_iff.
      exists (PlayerEntry.player_id r, track_info). now split.
    + destruct (player_entry_of_id _ _ _ _ _ He) as [_ ->].
      destruct (frame_num_of_resolved _ _ Hf) as [H _]. exact H.
    + destruct (player_entry_of_id _ _ _ _ _ He) as [_ ->].
      destruct (frame_num_of_resolved _ _ Hf) as [_ H]. exact H.
  - intros. split; [apply extract_ball_data_no_index_error |].
    destruct (extract_ball_data_appends bt fn st) as [new [E Hn]].
    exists new. split; [exact E |]. eapply Forall_impl; [| exact Hn].
    intros r (n & ball_info & frame_num & Hb & _ & Hf & He).
    exists n, ball_info. split; [assumption |].
    rewrite (@ball_entry_of_frame _ _ _ He). now apply frame_num_of_resolved.
  - intros. split; [apply extract_speed_data_no_index_error |].
    destruct (extract_speed_data_appends sp fn st) as [new [E Hn]].
    exists new. split; [exact E |]. eapply Forall_impl; [| exact Hn].
    intros r (n & speed_info & frame_num & Hs & Hf & Hin & He).
    exists n, speed_info. split; [assumption |]. split; [assumption |].
    destruct (speed_entry_of_fields _ _ _ He) as (_ & _ & ->).
    now apply frame_num_of_resolved.
  - intros. split; [apply extract_team_possession_data_no_index_error |].
    destruct (extract_team_possession_data_appends ba fn st) as [new [E Hn]].
    exists new. split; [exact E |]. eapply Forall_impl; [| exact Hn].
    intros r (n & possession_info & frame_num & Hp & Hf & He).
    exists n, possession_info. split; [assumption |].
    rewrite (@possession_entry_of_frame _ _ _ He). now apply frame_num_of_resolved.
  - intros pt pa ba bt sp fn st Hfn Hpt Lpt Hbt Lbt Hsp Lsp Hba Lba.
    split; [| split; [| split]].
    + now apply extract_player_data_returns.
    + now apply extract_ball_data_returns.
    + now apply extract_speed_data_returns.
    + now apply extract_team_possession_data_returns.
Qed.

Lemma frame_number_falls_back_to_index_witness :
  forallb small_int [] = true /\
  forallb tracks_ok example_tracks = true /\ len example_tracks <= 2 ^ 63 /\
  forallb ball_info_ok example_ball_tracks = true /\
  len example_ball_tracks <= 2 ^ 63 /\
  forallb speeds_ok example_speeds = true /\ len example_speeds <= 2 ^ 63 /\
  forallb possession_iterable example_possession = true /\
  len example_possession <= 2 ^ 63 /\
  snd (extract_player_data example_tracks example_assignment
         example_possession [] (init "extracted_data")) = Ok tt /\
  snd (extract_ball_data example_ball_tracks [] (init "extracted_data"))
  = Ok tt /\
  snd (extract_speed_data example_speeds [] (init "extracted_data")) = Ok tt /\
  snd (extract_team_possession_data example_possession []
         (init "extracted_data")) = Ok tt.
Proof.
  destruct frame_number_falls_back_to_index as (_ & _ & _ & _ & _ & Hret).
  assert (L1 : len example_tracks <= 2 ^ 63) by (vm_compute; discriminate).
  assert (L2 : len example_ball_tracks <= 2 ^ 63) by (vm_compute; discriminate).
  assert (L3 : len example_speeds <= 2 ^ 63) by (vm_compute; discriminate).
  assert (L4 : len example_possession <= 2 ^ 63) by (vm_compute; discriminate).
  do 9 (split; [first [reflexivity | assumption] |]).
  apply (Hret example_tracks example_assignment example_possession
           example_ball_tracks example_speeds [] (init "extracted_data"));
    first [reflexivity | assumption].
Defined.

(* ================================================================== *)
(** ** C5: ball records *)
(* ================================================================== *)

Lemma bbox_center_short : forall bbox n i j v,
  py_len bbox = Ok n -> n < 4 -> bbox_center bbox i j = Ok v -> v = PNone.
Proof.
  intros bbox n i j v Hlen Hn H. unfold bbox_center in H. rewrite Hlen in H.
  simpl in H. replace (4 <=? n) with false in H by (symmetry; apply Z.leb_gt; lia).
  congruence.
Qed.

Lemma bbox_center_full : forall bbox n i j a b v,
  py_len bbox = Ok n -> 4 <= n ->
  py_getitem bbox i = Ok a -> py_getitem bbox j = Ok b ->
  bbox_center bbox i j = Ok v ->
  exists s c, py_add a b = Ok s /\ py_truediv s (PInt 2) = Ok c /\ v = PFloat c.
Proof.
  intros bbox n i j a b v Hlen Hn Ha Hb H. unfold bbox_center in H.
  rewrite Hlen in H. simpl in H.
  replace (4 <=? n) with true in H by (symmetry; apply Z.leb_le; lia).
  rewrite Ha, Hb in H. simpl in H. inv_try H. inversion H; subst. eauto.
Qed.

Lemma ball_entry_of_spec : forall frame_num ball_info r,
  ball_entry_of frame_num ball_info = Ok r -> ball_record_spec ball_info r.
Proof.
  intros f info r H. unfold ball_entry_of in H. inv_try H.
  inversion H; subst; clear H. unfold ball_record_spec; simpl.
  unfold dict_getitem in E.
  destruct (dict_find info (KInt 1)) as [track |] eqn:Et; [| discriminate].
  inversion E; subst; clear E.
  assert (Hlen : exists n, py_len v0 = Ok n).
  { unfold bbox_field in E1. apply rbind_Ok in E1.
    destruct E1 as [n [Hn _]]. eauto. }
  destruct Hlen as [n Hlen].
  exists v, v0, n. repeat split; try assumption;
    try (eapply bbox_field_full; eassumption);
    try (eapply bbox_field_short; eassumption);
    try (eapply bbox_center_short; eassumption).
  - eapply bbox_center_full; try eassumption;
      eapply bbox_field_full; eassumption.
  - eapply bbox_center_full; try eassumption;
      eapply bbox_field_full; eassumption.
Qed.

Lemma for_each_cons_returned : forall A (x : A) l (body : A -> M unit) st st',
  for_each (x :: l) body st = (st', Ok tt) ->
  exists st1, body x st = (st1, Ok tt) /\ for_each l body st1 = (st', Ok tt).
Proof.
  intros A x l body st st' H.
  change (for_each (x :: l) body) with (bind (body x) (fun _ => for_each l body)) in H.
  unfold bind in H. destruct (body x st) as [st1 [[] | e]]; [| discriminate].
  exists st1. split; [reflexivity | exact H].
Qed.

Lemma for_each_nil_returned : forall A (body : A -> M unit) st st' o,
  for_each [] body st = (st', o) -> st' = st.
Proof. intros A body st st' o H. simpl in H. unfold ret in H. congruence. Qed.

Lemma ball_loop_returned : forall fn items st st',
  for_each items (ball_frame fn) st = (st', Ok tt) ->
  exists new,
    st' = extend_ball st new /\
    Forall2 (fun item r =>
               exists frame_num,
                 frame_num_of fn (fst item) = Ok frame_num /\
                 ball_entry_of frame_num (snd item) = Ok r)
      (filter (fun item => ball_detected (snd item)) items) new.
Proof.
  intros fn items. induction items as [| [idx info] items IH]; intros st st' H.
  - apply for_each_nil_returned in H. subst.
    exists []. split; [| constructor].
    symmetry. apply (extend_nil balls).
  - apply for_each_cons_returned in H. destruct H as [st1 [E1 H]].
    apply IH in H. destruct H as [new [-> Hnew]].
    unfold ball_frame, bind, lift in E1.
    destruct (frame_num_of fn idx) as [f |] eqn:Ef; [| discriminate].
    simpl. destruct (ball_detected info) eqn:Hd.
    + destruct (ball_entry_of f info) as [r |] eqn:Er; [| discriminate].
      unfold append_ball in E1. inversion E1; subst; clear E1.
      exists (r :: new). split.
      * apply (extend_app balls st [r] new).
      * constructor; [| exact Hnew]. exists f. split; assumption.
    + unfold ret in E1. inversion E1; subst. exists new. split; auto.
Qed.

(** C5. [extract_ball_data] appends a record for the frames whose
    entry is non-empty and has the key 1, and for no other frame:
    whether it returns or raises, every record appended is for such a
    frame, and when it returns, the records appended are, in order, one
    for each such frame.  With [n] the length of the ball's box (the empty list if
    the track has none): if [n >= 4] the box fields are the first four
    components and center_x = (x_min + x_max) / 2, center_y = (y_min +
    y_max) / 2; if [n < 4] the four box fields and the two center
    fields are None.  The method returns whenever the ball's track is a
    dict whose box is a list with fewer than four items or with four
    numbers first, and the frame numbers are 64-bit.  On the spec's
    example the box (2, 2, 6, 6) at frame 0 gives center (4.0, 4.0) and
    timestamp 0.0, and the entry without the key 1 gives no record. *)
Theorem extract_ball_data_records :
  (forall st,
     extract_ball_data example_ball_tracks [] st
     = (extend_ball st example_ball_records, Ok tt)) /\
  (forall bt fn st, exists new,
     fst (extract_ball_data bt fn st) = extend_ball st new /\
     Forall (fun r =>
       exists (n : nat) ball_info,
         nth_error bt n = Some ball_info /\
         dict_truthy ball_info && dict_mem ball_info (KInt 1) = true /\
         ball_record_spec ball_info r) new) /\
  (forall bt fn st st',
     extract_ball_data bt fn st = (st', Ok tt) ->
     exists new,
       st' = extend_ball st new /\
       Forall2 (fun item r =>
                  frame_num_of fn (fst item) = Ok (BallEntry.frame r) /\
                  ball_record_spec (snd item) r)
         (filter (fun item => dict_truthy (snd item)
                              && dict_mem (snd item) (KInt 1))
            (enumerate bt))
         new) /\
  (forall bt fn st,
     forallb ball_info_ok bt = true ->
     forallb small_int fn = true ->
     len bt <= 2 ^ 63 ->
     snd (extract_ball_data bt fn st) = Ok tt).
Proof.
  split; [| split; [| split]].
  - intros st. unfold example_ball_records.
    match goal with
    | |- _ = (extend_ball st [?a; ?b], _) =>
        transitivity (extend balls (extend balls st [a]) [b], Ok tt)
    end; [reflexivity |].
    rewrite (extend_app balls). reflexivity.
  - intros bt fn st.
    destruct (extract_ball_data_appends bt fn st) as [new [E Hn]].
    exists new. split; [exact E |]. eapply Forall_impl; [| exact Hn].
    intros r (n & ball_info & frame_num & Hb & Hd & _ & He).
    exists n, ball_info. split; [exact Hb |]. split; [exact Hd |].
    eapply ball_entry_of_spec; eauto.
  - intros bt fn st st' H. unfold extract_ball_data in H.
    apply ball_loop_returned in H. destruct H as [new [-> Hnew]].
    exists new. split; [reflexivity |].
    eapply Forall2_impl; [| exact Hnew].
    intros [idx info] r [f [Hf He]]. simpl in *.
    rewrite (@ball_entry_of_frame _ _ _ He). split; [exact Hf |].
    eapply ball_entry_of_spec; eauto.
  - intros bt fn st Hbt Hfn Hlen. now apply extract_ball_data_returns.
Qed.

Lemma extract_ball_data_records_witness :
  (extract_ball_data example_ball_tracks [] (init "extracted_data")
   = (extend_ball (init "extracted_data") example_ball_records, Ok tt) /\
   exists new,
     extend_ball (init "extracted_data") example_ball_records
     = extend_ball (init "extracted_data") new /\
     Forall2 (fun item r =>
                frame_num_of [] (fst item) = Ok (BallEntry.frame r) /\
                ball_record_spec (snd item) r)
       (filter (fun item => dict_truthy (snd item)
                            && dict_mem (snd item) (KInt 1))
          (enumerate example_ball_tracks))
       new) /\
  (forallb ball_info_ok example_ball_tracks = true /\
   forallb small_int [] = true /\
   len example_ball_tracks <= 2 ^ 63 /\
   snd (extract_ball_data example_ball_tracks [] (init "extracted_data"))
   = Ok tt).
Proof.
  destruct extract_ball_data_records as (_ & _ & Hrec & Hret).
  split.
  - split; [reflexivity |].
    apply (Hrec example_ball_tracks [] (init "extracted_data")). reflexivity.
  - split; [reflexivity |]. split; [reflexivity |].
    split; [vm_compute; discriminate |].
    apply Hret; [reflexivity | reflexivity | vm_compute; discriminate].
Defined.

(* ================================================================== *)
(** ** Events whose frames are absent or numbers *)
(* ================================================================== *)

Lemma frame_or_zero_small : forall d k,
  frame_value_ok (dict_find d k) = true ->
  small_number (dict_get d k (PInt 0)) = true.
Proof.
  intros d k H. unfold dict_get. destruct (dict_find d k); [exact H | reflexivity].
Qed.

Lemma pass_entry_of_defined : forall pass_info n,
  pass_info_ok pass_info = true -> exists r, pass_entry_of pass_info n = Ok r.
Proof.
  intros info n H. unfold pass_info_ok in H. apply andb_prop in H.
  destruct H as [Hs He].
  apply frame_or_zero_small in Hs, He.
  destruct (@frame_over_fps_defined _ Hs) as [ts Hts].
  destruct (@frame_over_fps_defined _ He) as [te Hte].
  destruct (@duration_defined _ _ He Hs) as (d & t & Hd & Ht).
  unfold pass_entry_of. rewrite Hts; simpl. rewrite Hte; simpl.
  rewrite Hd; simpl. rewrite Ht; simpl. eauto.
Qed.

Lemma interception_entry_of_defined : forall interception_info n,
  interception_info_ok interception_info = true ->
  exists r, interception_entry_of interception_info n = Ok r.
Proof.
  intros info n H. unfold interception_info_ok in H.
  apply frame_or_zero_small in H.
  destruct (@frame_over_fps_defined _ H) as [t Ht].
  unfold interception_entry_of. rewrite Ht; simpl. eauto.
Qed.




(** The pass of the spec's example: timestamps 1.0 and 2.0, duration
    1.0, pass type "Unknown", identifier 0 on an empty collection. *)
Example extract_pass_data_example :
  option_map (fun r => (PassEntry.pass_id r, PassEntry.pass_type r,
                        PassEntry.start_timestamp r, PassEntry.end_timestamp r,
                        PassEntry.duration r))
    (hd_error (pass_data
                 (fst (extract_pass_data example_passes []
                         (init "extracted_data")))))
  = Some (PInt 0, PStr "Unknown", 1%float, 2%float, 1%float).
Proof. vm_compute. reflexivity. Qed.

(** A speed of 5.0 m/s is 18.0 km/h. *)
Example extract_speed_data_example :
  map SpeedEntry.speed_kmh
    (speed_data (fst (extract_speed_data [[(KStr "p1", PFloat 5)]] [0]
                        (init "extracted_data"))))
  = [18%float].
Proof. vm_compute. reflexivity. Qed.

(* ================================================================== *)
(** ** C9: the summary *)
(* ================================================================== *)

Lemma key_eqb_eq : forall a b, key_eqb a b = true <-> a = b.
Proof.
  intros [x | s] [y | t]; simpl; split; intros H; try discriminate.
  - apply Z.eqb_eq in H. now subst.
  - inversion H. apply Z.eqb_refl.
  - apply String.eqb_eq in H. now subst.
  - inversion H. apply String.eqb_refl.
Qed.

Lemma key_eqb_refl : forall a, key_eqb a a = true.
Proof. intros a. now apply key_eqb_eq. Qed.

Lemma key_eqb_neq : forall a b, key_eqb a b = false <-> a <> b.
Proof.
  intros a b. split.
  - intros H E. apply key_eqb_eq in E. congruence.
  - intros H. destruct (key_eqb a b) eqn:E; [| reflexivity].
    apply key_eqb_eq in E. contradiction.
Qed.

Lemma speeds_of_app : forall p l e,
  speeds_of p (l ++ [e])
  = speeds_of p l
    ++ (if key_eqb (SpeedEntry.player_id e) p then [SpeedEntry.speed_mps e]
        else []).
Proof.
  intros p l e. unfold speeds_of. rewrite filter_app, map_app. simpl.
  destruct (key_eqb (SpeedEntry.player_id e) p); reflexivity.
Qed.

Lemma speeds_of_none : forall p l,
  (forall e, In e l -> SpeedEntry.player_id e <> p) -> speeds_of p l = [].
Proof.
  intros p l H. unfold speeds_of. induction l as [| e l IH]; [reflexivity |].
  simpl. replace (key_eqb (SpeedEntry.player_id e) p) with false.
  - apply IH. intros e' He'. apply H. now right.
  - symmetry. apply key_eqb_neq. apply H. now left.
Qed.

Lemma group_append_keys : forall g k v p,
  In p (map fst (group_append g k v)) <-> p = k \/ In p (map fst g).
Proof.
  induction g as [| [k' sp] g IH]; intros k v p; simpl.
  - intuition (subst; auto).
  - destruct (key_eqb k' k) eqn:E; simpl.
    + apply key_eqb_eq in E. subst. intuition (subst; auto).
    + rewrite IH. intuition (subst; auto).
Qed.

Lemma group_append_nodup : forall g k v,
  NoDup (map fst g) -> NoDup (map fst (group_append g k v)).
Proof.
  induction g as [| [k' sp] g IH]; intros k v H; simpl.
  - constructor; [intros [] | constructor].
  - inversion H as [| ? ? Hnotin Hnd]; subst.
    destruct (key_eqb k' k) eqn:E; simpl.
    + constructor; assumption.
    + constructor; [| now apply IH].
      rewrite group_append_keys. intros [-> | Hin]; [| contradiction].
      rewrite key_eqb_refl in E. discriminate.
Qed.

Lemma group_append_in : forall g k v p sp,
  NoDup (map fst g) ->
  In (p, sp) (group_append g k v) ->
  (p = k /\ ((exists old, In (k, old) g /\ sp = old ++ [v]) \/
             (~ In k (map fst g) /\ sp = [v]))) \/
  (p <> k /\ In (p, sp) g).
Proof.
  induction g as [| [k' old] g IH]; intros k v p sp Hnd H; simpl in *.
  - destruct H as [H | []]. inversion H; subst. left. split; [reflexivity |].
    right. split; [intros [] | reflexivity].
  - inversion Hnd as [| ? ? Hnotin Hnd']; subst.
    destruct (key_eqb k' k) eqn:E.
    + apply key_eqb_eq in E. subst k'. destruct H as [H | H].
      * inversion H; subst. left. split; [reflexivity |]. left.
        exists old. split; [now left | reflexivity].
      * right. split; [| now right]. intros ->. apply Hnotin.
        apply in_map_iff. exists (k, sp). now split.
    + apply key_eqb_neq in E. destruct H as [H | H].
      * inversion H; subst. right. split; [exact E | now left].
      * destruct (IH _ _ _ _ Hnd' H) as [[-> [[o [Ho ->]] | [Hn ->]]] | [Hne Hin]].
        -- left. split; [reflexivity |]. left. exists o. split; [now right | reflexivity].
        -- left. split; [reflexivity |]. right. split; [| reflexivity].
           intros [Hk | Hk]; [congruence | contradiction].
        -- right. split; [exact Hne | now right].
Qed.

Lemma grouped_step : forall g l e,
  grouped g l ->
  grouped (group_append g (SpeedEntry.player_id e) (SpeedEntry.speed_mps e))
    (l ++ [e]).
Proof.
  intros g l e (Hnd & Hsp & Hall). split; [| split].
  - now apply group_append_nodup.
  - intros p sp Hin. rewrite speeds_of_app.
    destruct (group_append_in _ _ _ _ _ Hnd Hin)
      as [[-> [[old [Ho ->]] | [Hn ->]]] | [Hne Hi]].
    + rewrite key_eqb_refl. destruct (Hsp _ _ Ho) as [-> _].
      split; [reflexivity |]. intros H. apply app_eq_nil in H.
      destruct H; discriminate.
    + rewrite key_eqb_refl. rewrite speeds_of_none.
      * split; [reflexivity | discriminate].
      * intros e' He' Heq. apply Hn. rewrite <- Heq. now apply Hall.
    + replace (key_eqb (SpeedEntry.player_id e) p) with false
        by (symmetry; apply key_eqb_neq; congruence).
      rewrite app_nil_r. now apply Hsp.
  - intros e' He'. apply group_append_keys. apply in_app_or in He'.
    destruct He' as [He' | [-> | []]]; [right; now apply Hall | now left].
Qed.

Lemma grouped_fold : forall l2 g l1,
  grouped g l1 ->
  grouped (fold_left (fun avg_speeds entry =>
                        group_append avg_speeds (SpeedEntry.player_id entry)
                          (SpeedEntry.speed_mps entry)) l2 g)
    (l1 ++ l2).
Proof.
  induction l2 as [| e l2 IH]; intros g l1 H; simpl.
  - now rewrite app_nil_r.
  - replace (l1 ++ e :: l2) with ((l1 ++ [e]) ++ l2)
      by (rewrite <- app_assoc; reflexivity).
    apply IH. now apply grouped_step.
Qed.

Lemma group_speeds_grouped : forall entries,
  grouped (group_speeds entries) entries.
Proof.
  intros entries. unfold group_speeds.
  apply (@grouped_fold entries [] []).
  split; [constructor | split]; intros; contradiction.
Qed.

Lemma mean_each_returned : forall groups avg,
  mean_each groups = Ok avg ->
  Forall2 (fun g a => fst a = fst g /\ mean (snd g) = Ok (snd a)) groups avg.
Proof.
  induction groups as [| [p sp] groups IH]; intros avg H; simpl in H.
  - inversion H. constructor.
  - inv_try H. inversion H; subst; clear H.
    constructor; [split; [reflexivity | assumption] | now apply IH].
Qed.

Lemma medium_below_limit : (2 ^ 126 <? DBL_LIMIT) = true.
Proof. vm_compute. reflexivity. Qed.

Lemma float_of_int_medium : forall z,
  Z.abs z <= 2 ^ 126 -> exists f, float_of_int z = Ok f.
Proof.
  intros z H. unfold float_of_int, in_double_range.
  pose proof medium_below_limit as L. apply Z.ltb_lt in L.
  replace (Z.abs z <? DBL_LIMIT) with true by (symmetry; apply Z.ltb_lt; lia).
  eauto.
Qed.

Lemma as_number_val : forall n, as_number (number_val n) = Some n.
Proof. intros [z | f]; reflexivity. Qed.

Lemma py_add_total : forall k acc x,
  0 <= k < 2 ^ 63 -> total_ok k acc -> small_number x = true ->
  exists acc', py_add acc x = Ok acc' /\ total_ok (k + 1) acc'.
Proof.
  intros k acc x Hk [n [-> Hn]] Hx.
  destruct (@small_number_cases x Hx) as [m [Hm Bm]].
  unfold py_add. rewrite as_number_val, Hm. unfold num_arith, to_float.
  destruct n as [z | f]; destruct m as [y | g].
  - simpl. eexists. split; [reflexivity |]. exists (NInt (z + y)).
    split; [reflexivity | lia].
  - destruct (@float_of_int_medium z) as [fz Hfz]; [lia |]. rewrite Hfz. simpl.
    eexists. split; [reflexivity |]. exists (NFloat (fz + g)). now split.
  - destruct (@float_of_int_medium y) as [fy Hfy]; [lia |]. rewrite Hfy. simpl.
    eexists. split; [reflexivity |]. exists (NFloat (f + fy)). now split.
  - simpl. eexists. split; [reflexivity |]. exists (NFloat (f + g)). now split.
Qed.

Lemma py_sum_from_defined : forall l acc k,
  0 <= k -> total_ok k acc -> forallb small_number l = true ->
  k + len l <= 2 ^ 63 ->
  exists total, py_sum_from acc l = Ok total /\ total_ok (k + len l) total.
Proof.
  induction l as [| x l IH]; intros acc k Hk Hacc Hl Hlen.
  - exists acc. split; [reflexivity |]. unfold len. simpl.
    now rewrite Z.add_0_r.
  - simpl in Hl. apply andb_prop in Hl. destruct Hl as [Hx Hl].
    assert (Hcons : len (x :: l) = len l + 1).
    { unfold len. simpl List.length. lia. }
    rewrite Hcons in *.
    assert (0 <= len l) by (unfold len; lia).
    destruct (@py_add_total k acc x) as [acc' [Ha Hacc']];
      [lia | assumption | assumption |].
    destruct (IH acc' (k + 1)) as [total [Ht Htot]];
      [lia | assumption | assumption | lia |].
    exists total. simpl. rewrite Ha. simpl.
    split; [exact Ht |]. now replace (k + (len l + 1)) with (k + 1 + len l) by lia.
Qed.

(** [sum(speeds) / len(speeds)] on a non-empty list of numbers. *)
Lemma mean_defined : forall speeds,
  speeds <> [] -> forallb small_number speeds = true -> len speeds <= 2 ^ 63 ->
  exists m, mean speeds = Ok m.
Proof.
  intros l Hne Hl Hlen. unfold mean, py_sum.
  destruct (@py_sum_from_defined l (PInt 0) 0) as [total [Ht [n [-> Hn]]]];
    [lia | exists (NInt 0); split; [reflexivity | simpl; lia]
    | assumption | lia |].
  rewrite Ht. simpl rbind.
  assert (Hpos : 0 < len l).
  { destruct l; [contradiction | unfold len; simpl List.length; lia]. }
  unfold py_truediv. rewrite as_number_val. simpl as_number.
  destruct n as [z | f]; unfold num_truediv.
  - apply int_truediv_defined; [lia |].
    pose proof medium_below_limit as L. apply Z.ltb_lt in L.
    assert (Z.abs z <= 2 ^ 126) by lia.
    assert (DBL_LIMIT <= DBL_LIMIT * Z.abs (len l)) by nia.
    lia.
  - unfold float_truediv, to_float.
    destruct (@float_of_int_medium (len l)) as [fl Hfl]; [lia |].
    rewrite Hfl. simpl rbind. unfold is_zero.
    replace (len l =? 0) with false by (symmetry; apply Z.eqb_neq; lia).
    eauto.
Qed.

Lemma mean_each_defined : forall groups,
  Forall (fun g => snd g <> [] /\ forallb small_number (snd g) = true /\
                   len (snd g) <= 2 ^ 63) groups ->
  exists avg, mean_each groups = Ok avg.
Proof.
  induction groups as [| [p sp] groups IH]; intros H; simpl.
  - eauto.
  - inversion H as [| ? ? (Hne & Hs & Hlen) Hrest]; subst. simpl in *.
    destruct (mean_defined Hne Hs Hlen) as [m Hm].
    destruct (IH Hrest) as [avg Havg].
    rewrite Hm; simpl. rewrite Havg; simpl. eauto.
Qed.

Lemma speeds_of_small : forall p entries,
  forallb (fun e => small_number (SpeedEntry.speed_mps e)) entries = true ->
  forallb small_number (speeds_of p entries) = true.
Proof.
  intros p entries H. unfold speeds_of.
  induction entries as [| e l IH]; [reflexivity |].
  simpl in *. apply andb_prop in H. destruct H as [He Hl].
  destruct (key_eqb (SpeedEntry.player_id e) p); simpl; auto.
  rewrite He. simpl. auto.
Qed.

Lemma speeds_of_len : forall p entries, len (speeds_of p entries) <= len entries.
Proof.
  intros p entries. unfold speeds_of, len. rewrite length_map.
  pose proof (filter_length_le
                (fun e => key_eqb (SpeedEntry.player_id e) p) entries).
  lia.
Qed.

Lemma average_defined : forall entries,
  forallb (fun e => small_number (SpeedEntry.speed_mps e)) entries = true ->
  len entries <= 2 ^ 63 ->
  exists avg, mean_each (group_speeds entries) = Ok avg.
Proof.
  intros entries Hs Hlen. apply mean_each_defined.
  destruct (group_speeds_grouped entries) as (_ & Hsp & _).
  apply Forall_forall. intros [p sp] Hin. simpl.
  destruct (Hsp _ _ Hin) as [-> Hne].
  split; [exact Hne | split].
  - now apply speeds_of_small.
  - pose proof (speeds_of_len p entries). lia.
Qed.

(** C9. With no player record, [generate_summary_report] returns, with
    0 distinct frames, 0 distinct players and duration 0 (given speeds
    that are floats or 64-bit ints).  Whenever it returns, its result
    has the average-speed mapping if and only if there is at least one
    speed record; the mapping then has one entry for each player with a
    speed record, and the entry of a player is the sum of the speeds
    (m/s) recorded for that player divided by their number. *)
Theorem summary_counts_and_average_speeds :
  (forall st,
     player_data st = [] ->
     forallb (fun e => small_number (SpeedEntry.speed_mps e)) (speed_data st)
     = true ->
     len (speed_data st) <= 2 ^ 63 ->
     exists s,
       generate_summary_report st = Ok s /\
       Summary.total_frames_analyzed s = 0 /\
       Summary.total_players_detected s = 0 /\
       Summary.analysis_duration_seconds s = PInt 0) /\
  (forall st s,
     generate_summary_report st = Ok s ->
     (Summary.average_player_speeds s <> None <-> speed_data st <> []) /\
     forall avg,
       Summary.average_player_speeds s = Some avg ->
       NoDup (map fst avg) /\
       (forall e, In e (speed_data st) ->
                  In (SpeedEntry.player_id e) (map fst avg)) /\
       (forall player_id m,
          In (player_id, m) avg ->
          let speeds := speeds_of player_id (speed_data st) in
          speeds <> [] /\
          exists total,
            py_sum speeds = Ok total /\
            py_truediv total (PInt (len speeds)) = Ok m)).
Proof.
  split.
  - intros st Hp Hs Hlen. unfold generate_summary_report. rewrite Hp. simpl.
    destruct (speed_data st) as [| e l] eqn:Hsd.
    + simpl. eexists. repeat split.
    + rewrite <- Hsd in *. destruct (average_defined _ Hs Hlen) as [avg Havg].
      rewrite Havg. simpl. rewrite Hsd. eexists. repeat split.
  - intros st s H. unfold generate_summary_report in H. inv_try H.
    inversion H; subst; clear H; simpl.
    destruct (speed_data st) as [| e l] eqn:Hsd.
    + inversion E0; subst. split.
      * split; intros Hc; now contradiction Hc.
      * intros avg Ha. discriminate.
    + rewrite <- Hsd in *. inv_try E0. inversion E0; subst; clear E0.
      split.
      * split; intros _; [rewrite Hsd |]; discriminate.
      * intros avg Ha. inversion Ha; subst; clear Ha.
        apply mean_each_returned in E1.
        destruct (group_speeds_grouped (speed_data st)) as (Hnd & Hsp & Hall).
        assert (Hkeys : map fst avg = map fst (group_speeds (speed_data st))).
        { clear - E1. induction E1 as [| g a gs av [Hf _] _ IH]; simpl;
            [reflexivity | now rewrite Hf, IH]. }
        split; [now rewrite Hkeys | split].
        -- intros e' He'. rewrite Hkeys. now apply Hall.
        -- intros p m Hin. simpl.
           assert (Hg : exists sp, In (p, sp) (group_speeds (speed_data st))
                                   /\ mean sp = Ok m).
           { clear - E1 Hin. induction E1 as [| [p' sp] [q m'] gs av [Hf Hm] _ IH].
             - contradiction.
             - simpl in *. subst q. destruct Hin as [Hin | Hin].
               + inversion Hin; subst. exists sp. split; [now left | exact Hm].
               + destruct (IH Hin) as [sp' [H1 H2]]. exists sp'.
                 split; [now right | exact H2]. }
           destruct Hg as [sp [Hin' Hm]].
           destruct (Hsp _ _ Hin') as [-> Hne]. split; [exact Hne |].
           unfold mean in Hm. apply rbind_Ok in Hm.
           destruct Hm as [total [Ht Hd]]. eauto.
Qed.

Lemma summary_counts_and_average_speeds_witness :
  (player_data example_speed_state = [] /\
   forallb (fun e => small_number (SpeedEntry.speed_mps e))
     (speed_data example_speed_state) = true /\
   len (speed_data example_speed_state) <= 2 ^ 63 /\
   exists s,
     generate_summary_report example_speed_state = Ok s /\
     Summary.total_frames_analyzed s = 0 /\
     Summary.total_players_detected s = 0 /\
     Summary.analysis_duration_seconds s = PInt 0) /\
  (exists s,
     generate_summary_report example_speed_state = Ok s /\
     (Summary.average_player_speeds s <> None
      <-> speed_data example_speed_state <> []) /\
     forall avg,
       Summary.average_player_speeds s = Some avg ->
       NoDup (map fst avg) /\
       (forall e, In e (speed_data example_speed_state) ->
                  In (SpeedEntry.player_id e) (map fst avg)) /\
       (forall player_id m,
          In (player_id, m) avg ->
          let speeds := speeds_of player_id (speed_data example_speed_state) in
          speeds <> [] /\
          exists total,
            py_sum speeds = Ok total /\
            py_truediv total (PInt (len speeds)) = Ok m)).
Proof.
  destruct summary_counts_and_average_speeds as [Hzero Havg].
  split.
  - split; [reflexivity |]. split; [reflexivity |].
    split; [vm_compute; discriminate |].
    apply Hzero; [reflexivity | reflexivity | vm_compute; discriminate].
  - eexists. split; [vm_compute; reflexivity |].
    apply Havg. vm_compute. reflexivity.
Defined.

Example summary_of_example_speeds :
  option_map Summary.average_player_speeds
    (match generate_summary_report example_speed_state with
     | Ok s => Some s
     | Raise _ => None
     end)
  = Some (Some [(KStr "p1", 5.5%float); (KInt 3, 4%float)]).
Proof. vm_compute. reflexivity. Qed.

(* ================================================================== *)
(** ** C7: writing the JSON file and reading it back *)
(* ================================================================== *)



















(** A tuple held in a record is read back as a list. *)
Example tuple_reads_back_as_list :
  Json.value_of (Json.document_of (PTuple [PInt 1; PInt 2]))
  = PList [PInt 1; PInt 2].
Proof. reflexivity. Qed.

(** An int of 4301 digits makes [json.dump] raise ValueError; one of
    4300 digits is written. *)
Example long_int_is_refused :
  Json.dump 1 (PList [PInt (10 ^ 4300)]) = Raise ValueError /\
  Json.dump 1 (PList [PInt (10 ^ 4300 - 1)])
  = Ok (Json.JArr [Json.JInt (10 ^ 4300 - 1)]).
Proof. split; vm_compute; reflexivity. Qed.



(* ================================================================== *)
(** ** The methods as functions of their arguments: proofs *)
(* ================================================================== *)

Lemma for_each_gather : forall T (c : collection T) A (l : list A)
    (body : A -> M unit) (step : A -> chunk T),
  (forall x, In x l ->
     forall st, body x st = (extend c st (fst (step x)), snd (step x))) ->
  forall st,
    for_each l body st
    = (extend c st (fst (gather (map step l))), snd (gather (map step l))).
Proof.
  intros T c A l body step. induction l as [| x l IH]; intros H st.
  - simpl. unfold ret. now rewrite extend_nil.
  - change (for_each (x :: l) body)
      with (bind (body x) (fun _ => for_each l body)).
    unfold bind. rewrite (H x (or_introl eq_refl) st).
    simpl map. simpl gather.
    destruct (step x) as [new [[] | e]]; simpl.
    + rewrite IH by (intros y Hy; apply H; now right).
      now rewrite extend_app.
    + reflexivity.
Qed.

Lemma lift_then_append : forall T (c : collection T) (r : result T)
    (append : T -> M unit),
  (forall e st, append e st = (extend c st [e], Ok tt)) ->
  forall st,
    bind (lift r) append st = (extend c st (fst (one r)), snd (one r)).
Proof.
  intros T c r append H st. unfold bind, lift.
  destruct r as [e | x]; simpl; [apply H | now rewrite extend_nil].
Qed.

Lemma extract_player_data_records_of : forall pt pa ba fn st,
  extract_player_data pt pa ba fn st
  = (extend_player st (fst (player_records pt pa ba fn)),
     snd (player_records pt pa ba fn)).
Proof.
  intros. unfold extract_player_data, player_records.
  apply (@for_each_gather _ players). intros [idx [[tracks assignment] possession]] _ st'.
  unfold player_frame, player_chunk, bind at 1, lift at 1.
  destruct (frame_num_of fn idx) as [f | e].
  - apply (@for_each_gather _ players _ tracks
             (fun '(player_id, track_info) =>
                bind (lift (player_entry_of f assignment possession player_id
                              track_info)) append_player)
             (fun kv => one (player_entry_of f assignment possession
                               (fst kv) (snd kv)))).
    intros [pid ti] _ st''. now apply (@lift_then_append _ players).
  - simpl. now rewrite (extend_nil players).
Qed.

Lemma extract_ball_data_records_of : forall bt fn st,
  extract_ball_data bt fn st
  = (extend_ball st (fst (ball_records bt fn)), snd (ball_records bt fn)).
Proof.
  intros. unfold extract_ball_data, ball_records.
  apply (@for_each_gather _ balls). intros [idx info] _ st'.
  unfold ball_frame, ball_chunk, bind at 1, lift at 1. simpl fst. simpl snd.
  destruct (frame_num_of fn idx) as [f | e].
  - destruct (ball_detected info).
    + now apply (@lift_then_append _ balls).
    + unfold ret. simpl. now rewrite (extend_nil balls).
  - simpl. now rewrite (extend_nil balls).
Qed.

Lemma extract_speed_data_records_of : forall sp fn st,
  extract_speed_data sp fn st
  = (extend_speed st (fst (speed_records sp fn)), snd (speed_records sp fn)).
Proof.
  intros. unfold extract_speed_data, speed_records.
  apply (@for_each_gather _ speeds). intros [idx info] _ st'.
  unfold speed_frame, speed_chunk, bind at 1, lift at 1. simpl fst. simpl snd.
  destruct (frame_num_of fn idx) as [f | e].
  - apply (@for_each_gather _ speeds _ info
             (fun '(player_id, speed) =>
                bind (lift (speed_entry_of f player_id speed)) append_speed)
             (fun kv => one (speed_entry_of f (fst kv) (snd kv)))).
    intros [pid speed] _ st''. now apply (@lift_then_append _ speeds).
  - simpl. now rewrite (extend_nil speeds).
Qed.

Lemma extract_team_possession_data_records_of : forall ba fn st,
  extract_team_possession_data ba fn st
  = (extend_team_possession st (fst (possession_records ba fn)),
     snd (possession_records ba fn)).
Proof.
  intros. unfold extract_team_possession_data, possession_records.
  apply (@for_each_gather _ possessions). intros [idx p] _ st'.
  unfold possession_frame, possession_chunk, bind at 1, lift at 1.
  simpl fst. simpl snd.
  destruct (frame_num_of fn idx) as [f | e].
  - now apply (@lift_then_append _ possessions).
  - simpl. now rewrite (extend_nil possessions).
Qed.

Lemma extract_pass_data_records_of : forall passes fn st,
  extract_pass_data passes fn st
  = (extend_pass st (fst (pass_records (len (pass_data st)) passes)),
     snd (pass_records (len (pass_data st)) passes)).
Proof.
  intros passes fn. unfold extract_pass_data.
  induction passes as [| info passes IH]; intros st.
  - simpl. unfold ret. f_equal. symmetry. apply (extend_nil passes_made st).
  - simpl for_each. unfold bind at 1, get_state at 1, bind at 1, lift at 1.
    simpl pass_records.
    destruct (pass_entry_of info (len (pass_data st))) as [r | e].
    + unfold bind at 1, append_pass at 1.
      change (mkExtractor (output_dir st) (player_data st) (ball_data st)
                (pass_data st ++ [r]) (interception_data st) (speed_data st)
                (team_possession_data st)) with (extend_pass st [r]).
      rewrite IH.
      assert (E : len (pass_data (extend_pass st [r])) = len (pass_data st) + 1).
      { unfold len. simpl. rewrite length_app. simpl. lia. }
      rewrite E. simpl fst. simpl snd. f_equal.
      apply (extend_app passes_made st [r]).
    + simpl. f_equal. symmetry. apply (extend_nil passes_made st).
Qed.

Lemma extract_interception_data_records_of : forall xs fn st,
  extract_interception_data xs fn st
  = (extend_interception st
       (fst (interception_records (len (interception_data st)) xs)),
     snd (interception_records (len (interception_data st)) xs)).
Proof.
  intros xs fn. unfold extract_interception_data.
  induction xs as [| info xs IH]; intros st.
  - simpl. unfold ret. f_equal. symmetry. apply (extend_nil interceptions_made st).
  - simpl for_each. unfold bind at 1, get_state at 1, bind at 1, lift at 1.
    simpl interception_records.
    destruct (interception_entry_of info (len (interception_data st))) as [r | e].
    + unfold bind at 1, append_interception at 1.
      change (mkExtractor (output_dir st) (player_data st) (ball_data st)
                (pass_data st) (interception_data st ++ [r]) (speed_data st)
                (team_possession_data st)) with (extend_interception st [r]).
      rewrite IH.
      assert (E : len (interception_data (extend_interception st [r]))
                  = len (interception_data st) + 1).
      { unfold len. simpl. rewrite length_app. simpl. lia. }
      rewrite E. simpl fst. simpl snd. f_equal.
      apply (extend_app interceptions_made st [r]).
    + simpl. f_equal. symmetry. apply (extend_nil interceptions_made st).
Qed.

(** X1. What a frame-indexed extraction method appends, and whether it
    returns or raises, is fixed by its arguments: it does not depend on
    what the extractor already holds. *)
Theorem frame_methods_ignore_state :
  (forall pt pa ba fn, exists new o, forall st,
     extract_player_data pt pa ba fn st = (extend_player st new, o)) /\
  (forall bt fn, exists new o, forall st,
     extract_ball_data bt fn st = (extend_ball st new, o)) /\
  (forall sp fn, exists new o, forall st,
     extract_speed_data sp fn st = (extend_speed st new, o)) /\
  (forall ba fn, exists new o, forall st,
     extract_team_possession_data ba fn st = (extend_team_possession st new, o)).
Proof.
  split; [| split; [| split]]; intros.
  - eexists. eexists. intros st. apply extract_player_data_records_of.
  - eexists. eexists. intros st. apply extract_ball_data_records_of.
  - eexists. eexists. intros st. apply extract_speed_data_records_of.
  - eexists. eexists. intros st. apply extract_team_possession_data_records_of.
Qed.

(** X2. What [extract_pass_data] appends depends on the state only
    through the number of pass records it holds (the default
    identifier), and likewise for [extract_interception_data]: from two
    states with as many records the same records are appended, with the
    same outcome. *)
Theorem event_methods_read_only_the_count :
  (forall passes fn st st',
     len (pass_data st) = len (pass_data st') ->
     exists new o,
       extract_pass_data passes fn st = (extend_pass st new, o) /\
       extract_pass_data passes fn st' = (extend_pass st' new, o)) /\
  (forall interceptions fn st st',
     len (interception_data st) = len (interception_data st') ->
     exists new o,
       extract_interception_data interceptions fn st
       = (extend_interception st new, o) /\
       extract_interception_data interceptions fn st'
       = (extend_interception st' new, o)).
Proof.
  split; intros * H.
  - eexists. eexists. split; [apply extract_pass_data_records_of |].
    rewrite H. apply extract_pass_data_records_of.
  - eexists. eexists. split; [apply extract_interception_data_records_of |].
    rewrite H. apply extract_interception_data_records_of.
Qed.

Lemma event_methods_read_only_the_count_witness :
  len (pass_data (init "a")) = len (pass_data example_speed_state) /\
  exists new o,
    extract_pass_data example_passes [] (init "a")
    = (extend_pass (init "a") new, o) /\
    extract_pass_data example_passes [] example_speed_state
    = (extend_pass example_speed_state new, o).
Proof.
  split; [reflexivity |].
  destruct event_methods_read_only_the_count as [H _].
  apply H. reflexivity.
Defined.

Ltac rewrite_records_of :=
  rewrite ?extract_player_data_records_of, ?extract_ball_data_records_of,
    ?extract_pass_data_records_of, ?extract_interception_data_records_of,
    ?extract_speed_data_records_of, ?extract_team_possession_data_records_of.

(** X3. Calls of two different extraction methods can be swapped: the
    extractor ends in the same state in either order, and each call has
    the outcome it has when it runs first. *)
Theorem calls_of_different_methods_commute : forall c1 c2 st,
  kind_of c1 <> kind_of c2 ->
  fst (run c2 (fst (run c1 st))) = fst (run c1 (fst (run c2 st))) /\
  snd (run c2 (fst (run c1 st))) = snd (run c2 st) /\
  snd (run c1 (fst (run c2 st))) = snd (run c1 st).
Proof.
  intros c1 c2 st H.
  destruct c1, c2; simpl in H; try (now contradiction H); simpl run;
    rewrite_records_of; simpl fst; rewrite_records_of;
    (split; [| split]); reflexivity.
Qed.

Lemma calls_of_different_methods_commute_witness :
  kind_of (CallSpeed example_speeds []) <> kind_of (CallPass example_passes []) /\
  fst (run (CallPass example_passes [])
         (fst (run (CallSpeed example_speeds []) (init "a"))))
  = fst (run (CallSpeed example_speeds [])
           (fst (run (CallPass example_passes []) (init "a")))).
Proof.
  split; [discriminate |].
  apply (calls_of_different_methods_commute
           (CallSpeed example_speeds []) (CallPass example_passes []) (init "a")).
  discriminate.
Defined.

Lemma for_each_app : forall A (a b : list A) (body : A -> M unit) st,
  for_each (a ++ b) body st
  = match for_each a body st with
    | (st1, Ok _) => for_each b body st1
    | (st1, Raise e) => (st1, Raise e)
    end.
Proof.
  induction a as [| x a IH]; intros b body st.
  - reflexivity.
  - change (for_each ((x :: a) ++ b) body)
      with (bind (body x) (fun _ => for_each (a ++ b) body)).
    change (for_each (x :: a) body)
      with (bind (body x) (fun _ => for_each a body)).
    unfold bind. destruct (body x st) as [st1 [[] | e]]; [apply IH | reflexivity].
Qed.

(** X4. Passes (or interceptions) given in one list or in two
    successive calls give the same state and outcome: the second call
    runs if the first returned, and an exception of the first is the
    exception of the whole. *)
Theorem event_methods_split_into_calls :
  (forall a b fn fn' fn'' st,
     extract_pass_data (a ++ b) fn st
     = match extract_pass_data a fn' st with
       | (st1, Ok _) => extract_pass_data b fn'' st1
       | (st1, Raise e) => (st1, Raise e)
       end) /\
  (forall a b fn fn' fn'' st,
     extract_interception_data (a ++ b) fn st
     = match extract_interception_data a fn' st with
       | (st1, Ok _) => extract_interception_data b fn'' st1
       | (st1, Raise e) => (st1, Raise e)
       end).
Proof.
  split; intros; unfold extract_pass_data, extract_interception_data;
    apply for_each_app.
Qed.

Lemma enumerate_from_app : forall A (a b : list A) i,
  enumerate_from i (a ++ b)
  = enumerate_from i a ++ enumerate_from (i + len a) b.
Proof.
  induction a as [| x a IH]; intros b i; simpl.
  - unfold len. simpl. now rewrite Z.add_0_r.
  - rewrite IH. do 3 f_equal. unfold len. simpl List.length. lia.
Qed.

Lemma map_enumerate_from_shift : forall A B (F G : Z * A -> B) (b : list A) i j,
  (forall (k : nat) x, nth_error b k = Some x ->
     F (i + Z.of_nat k, x) = G (j + Z.of_nat k, x)) ->
  map F (enumerate_from i b) = map G (enumerate_from j b).
Proof.
  induction b as [| x b IH]; intros i j H; simpl; [reflexivity |].
  f_equal.
  - specialize (H 0%nat x eq_refl). now rewrite !Z.add_0_r in H.
  - apply IH. intros k y Hk. specialize (H (S k) y Hk).
    replace (i + 1 + Z.of_nat k) with (i + Z.of_nat (S k)) by lia.
    replace (j + 1 + Z.of_nat k) with (j + Z.of_nat (S k)) by lia.
    exact H.
Qed.

(** The frame numbers left for the frames after the first [m]. *)
Lemma frame_num_of_skipn : forall fn (m k : nat),
  (m + k < List.length fn)%nat ->
  frame_num_of fn (Z.of_nat m + Z.of_nat k)
  = frame_num_of (skipn m fn) (0 + Z.of_nat k).
Proof.
  intros fn m k H. rewrite Z.add_0_l.
  replace (Z.of_nat m + Z.of_nat k) with (Z.of_nat (m + k)) by lia.
  rewrite !frame_num_of_total.
  assert (E : nth_error (skipn m fn) k = nth_error fn (m + k)).
  { clear H. revert fn. induction m as [| m IH]; intros fn; simpl.
    - reflexivity.
    - destruct fn as [| f fn]; simpl.
      + now destruct k.
      + apply IH. }
  rewrite E.
  destruct (nth_error fn (m + k)) as [f |] eqn:Ef; [reflexivity |].
  apply nth_error_None in Ef. lia.
Qed.

Lemma gather_app : forall T (l1 l2 : list (chunk T)),
  gather (l1 ++ l2)
  = match snd (gather l1) with
    | Ok _ => (fst (gather l1) ++ fst (gather l2), snd (gather l2))
    | Raise e => gather l1
    end.
Proof.
  induction l1 as [| [l [[] | e]] l1 IH]; intros l2; simpl.
  - now destruct (gather l2).
  - rewrite IH. destruct (gather l1) as [g [u | e]]; simpl;
      [now rewrite app_assoc | reflexivity].
  - reflexivity.
Qed.

Lemma extend_then : forall T (c : collection T) st (g1 g2 : chunk T),
  (extend c st (fst (match snd g1 with
                     | Ok _ => (fst g1 ++ fst g2, snd g2)
                     | Raise e => g1
                     end)),
   snd (match snd g1 with
        | Ok _ => (fst g1 ++ fst g2, snd g2)
        | Raise e => g1
        end))
  = match (extend c st (fst g1), snd g1) with
    | (st1, Ok _) => (extend c st1 (fst g2), snd g2)
    | (st1, Raise e) => (st1, Raise e)
    end.
Proof.
  intros T c st [l1 [u | e]] g2; simpl; [now rewrite extend_app | reflexivity].
Qed.

Lemma gather_batches : forall A T (step : list Z -> Z * A -> chunk T)
    (a b : list A) fn,
  (forall fn fn' i j x,
     frame_num_of fn i = frame_num_of fn' j -> step fn (i, x) = step fn' (j, x)) ->
  (List.length a + List.length b <= List.length fn)%nat ->
  gather (map (step fn) (enumerate (a ++ b)))
  = match snd (gather (map (step fn) (enumerate a))) with
    | Ok _ =>
        (fst (gather (map (step fn) (enumerate a)))
         ++ fst (gather (map (step (skipn (List.length a) fn)) (enumerate b))),
         snd (gather (map (step (skipn (List.length a) fn)) (enumerate b))))
    | Raise e => gather (map (step fn) (enumerate a))
    end.
Proof.
  intros A T step a b fn Hstep Hlen. unfold enumerate.
  rewrite enumerate_from_app, map_app, gather_app.
  rewrite (@map_enumerate_from_shift _ _ (step fn)
             (step (skipn (List.length a) fn)) b (0 + len a) 0).
  - reflexivity.
  - intros k x Hk. apply Hstep. unfold len. rewrite (Z.add_0_l (Z.of_nat _)).
    apply frame_num_of_skipn.
    assert ((k < List.length b)%nat) by (apply nth_error_Some; congruence).
    lia.
Qed.

(** X5. Frames processed in one call or in two batches give the same
    state and outcome, when [frame_numbers] has a number for every frame
    and the second call is given the numbers that are left. *)
Theorem frame_methods_split_into_batches :
  (forall a b fn st,
     (List.length a + List.length b <= List.length fn)%nat ->
     extract_ball_data (a ++ b) fn st
     = match extract_ball_data a fn st with
       | (st1, Ok _) => extract_ball_data b (skipn (List.length a) fn) st1
       | (st1, Raise e) => (st1, Raise e)
       end) /\
  (forall a b fn st,
     (List.length a + List.length b <= List.length fn)%nat ->
     extract_speed_data (a ++ b) fn st
     = match extract_speed_data a fn st with
       | (st1, Ok _) => extract_speed_data b (skipn (List.length a) fn) st1
       | (st1, Raise e) => (st1, Raise e)
       end) /\
  (forall a b fn st,
     (List.length a + List.length b <= List.length fn)%nat ->
     extract_team_possession_data (a ++ b) fn st
     = match extract_team_possession_data a fn st with
       | (st1, Ok _) =>
           extract_team_possession_data b (skipn (List.length a) fn) st1
       | (st1, Raise e) => (st1, Raise e)
       end).
Proof.
  split; [| split]; intros a b fn st H.
  - rewrite (extract_ball_data_records_of (a ++ b)),
      (extract_ball_data_records_of a).
    unfold ball_records at 1 2.
    rewrite (@gather_batches _ _ ball_chunk a b fn); [| | exact H].
    + rewrite (extend_then balls). fold (ball_records a fn).
      destruct (snd (ball_records a fn)); [| reflexivity].
      symmetry. apply extract_ball_data_records_of.
    + intros fn1 fn2 i j x E. unfold ball_chunk. simpl. now rewrite E.
  - rewrite (extract_speed_data_records_of (a ++ b)),
      (extract_speed_data_records_of a).
    unfold speed_records at 1 2.
    rewrite (@gather_batches _ _ speed_chunk a b fn); [| | exact H].
    + rewrite (extend_then speeds). fold (speed_records a fn).
      destruct (snd (speed_records a fn)); [| reflexivity].
      symmetry. apply extract_speed_data_records_of.
    + intros fn1 fn2 i j x E. unfold speed_chunk. simpl. now rewrite E.
  - rewrite (extract_team_possession_data_records_of (a ++ b)),
      (extract_team_possession_data_records_of a).
    unfold possession_records at 1 2.
    rewrite (@gather_batches _ _ possession_chunk a b fn); [| | exact H].
    + rewrite (extend_then possessions). fold (possession_records a fn).
      destruct (snd (possession_records a fn)); [| reflexivity].
      symmetry. apply extract_team_possession_data_records_of.
    + intros fn1 fn2 i j x E. unfold possession_chunk. simpl. now rewrite E.
Qed.

Lemma frame_methods_split_into_batches_witness :
  (List.length [ [(KStr "p1", PFloat 5)] ] + List.length [ [(KStr "p1", PFloat 6)] ]
   <= List.length [10; 11])%nat /\
  extract_speed_data ([ [(KStr "p1", PFloat 5)] ] ++ [ [(KStr "p1", PFloat 6)] ])
    [10; 11] (init "a")
  = match extract_speed_data [ [(KStr "p1", PFloat 5)] ] [10; 11] (init "a") with
    | (st1, Ok _) =>
        extract_speed_data [ [(KStr "p1", PFloat 6)] ]
          (skipn (List.length [ [(KStr "p1", PFloat 5)] ]) [10; 11]) st1
    | (st1, Raise e) => (st1, Raise e)
    end.
Proof.
  assert (L : (1 + 1 <= 2)%nat) by (repeat constructor).
  split; [exact L |].
  destruct frame_methods_split_into_batches as (_ & H & _).
  apply (H [ [(KStr "p1", PFloat 5)] ] [ [(KStr "p1", PFloat 6)] ] [10; 11]
           (init "a")).
  exact L.
Defined.

(* ================================================================== *)
(** ** Defaults and identifiers of event records *)
(* ================================================================== *)

Lemma pass_records_nth : forall passes n i pass_info r,
  nth_error passes i = Some pass_info ->
  nth_error (fst (pass_records n passes)) i = Some r ->
  pass_entry_of pass_info (n + Z.of_nat i) = Ok r.
Proof.
  induction passes as [| p passes IH]; intros n i info r Hi Hr.
  - destruct i; discriminate.
  - simpl in Hr. destruct (pass_entry_of p n) as [r0 | e] eqn:E.
    + destruct i as [| i]; simpl in *.
      * inversion Hi; inversion Hr; subst. now rewrite Z.add_0_r.
      * replace (n + Z.pos (Pos.of_succ_nat i)) with (n + 1 + Z.of_nat i) by lia.
        eapply IH; eauto.
    + destruct i; discriminate.
Qed.

Lemma interception_records_nth : forall xs n i info r,
  nth_error xs i = Some info ->
  nth_error (fst (interception_records n xs)) i = Some r ->
  interception_entry_of info (n + Z.of_nat i) = Ok r.
Proof.
  induction xs as [| p xs IH]; intros n i info r Hi Hr.
  - destruct i; discriminate.
  - simpl in Hr. destruct (interception_entry_of p n) as [r0 | e] eqn:E.
    + destruct i as [| i]; simpl in *.
      * inversion Hi; inversion Hr; subst. now rewrite Z.add_0_r.
      * replace (n + Z.pos (Pos.of_succ_nat i)) with (n + 1 + Z.of_nat i) by lia.
        eapply IH; eauto.
    + destruct i; discriminate.
Qed.

(** X6. The [i]-th record [extract_pass_data] appends is built from the
    [i]-th pass dict: each field is the value the dict gives, or None
    when the key is missing, except that a missing pass_type is
    "Unknown" and a missing pass_id is the number of pass records the
    collection held when the record was built, which is the number it
    held before the call plus [i].  The same holds of
    [extract_interception_data] and its interception_id. *)
Theorem event_records_copy_fields_and_number_themselves :
  (forall passes fn st, exists new o,
     extract_pass_data passes fn st = (extend_pass st new, o) /\
     forall (i : nat) pass_info r,
       nth_error passes i = Some pass_info ->
       nth_error new i = Some r ->
       let given k default := dict_get pass_info (KStr k) default in
       PassEntry.pass_id r
       = given "pass_id" (PInt (len (pass_data st) + Z.of_nat i)) /\
       PassEntry.pass_type r = given "pass_type" (PStr "Unknown") /\
       PassEntry.start_frame r = given "start_frame" PNone /\
       PassEntry.end_frame r = given "end_frame" PNone /\
       PassEntry.passer_id r = given "passer_id" PNone /\
       PassEntry.receiver_id r = given "receiver_id" PNone /\
       PassEntry.passer_team r = given "passer_team" PNone /\
       PassEntry.receiver_team r = given "receiver_team" PNone) /\
  (forall interceptions fn st, exists new o,
     extract_interception_data interceptions fn st
     = (extend_interception st new, o) /\
     forall (i : nat) interception_info r,
       nth_error interceptions i = Some interception_info ->
       nth_error new i = Some r ->
       let given k default := dict_get interception_info (KStr k) default in
       InterceptionEntry.interception_id r
       = given "interception_id"
           (PInt (len (interception_data st) + Z.of_nat i)) /\
       InterceptionEntry.frame r = given "frame" PNone /\
       InterceptionEntry.interceptor_id r = given "interceptor_id" PNone /\
       InterceptionEntry.interceptor_team r = given "interceptor_team" PNone /\
       InterceptionEntry.original_team r = given "original_team" PNone).
Proof.
  split.
  - intros passes fn st. eexists. eexists.
    split; [apply extract_pass_data_records_of |].
    intros i info r Hi Hr.
    pose proof (pass_records_nth _ _ _ Hi Hr) as H.
    unfold pass_entry_of in H. inv_try H. inversion H; subst; simpl.
    repeat split.
  - intros xs fn st. eexists. eexists.
    split; [apply extract_interception_data_records_of |].
    intros i info r Hi Hr.
    pose proof (interception_records_nth _ _ _ Hi Hr) as H.
    unfold interception_entry_of in H. inv_try H. inversion H; subst; simpl.
    repeat split.
Qed.

(* ================================================================== *)
(** ** Where a loop stops *)
(* ================================================================== *)

Lemma pass_records_stop : forall good bad rest n e,
  forallb pass_info_ok good = true ->
  (forall m, pass_entry_of bad m = Raise e) ->
  exists new,
    pass_records n (good ++ bad :: rest) = (new, Raise e) /\
    List.length new = List.length good.
Proof.
  induction good as [| g good IH]; intros bad rest n e Hg Hbad.
  - exists []. simpl. rewrite Hbad. split; reflexivity.
  - simpl in Hg. apply andb_prop in Hg. destruct Hg as [Hg1 Hg].
    destruct (@pass_entry_of_defined g n Hg1) as [r Hr].
    destruct (IH bad rest (n + 1) e Hg Hbad) as [new [E Hl]].
    exists (r :: new). simpl. rewrite Hr, E. simpl. split; [reflexivity | now rewrite Hl].
Qed.

Lemma interception_records_stop : forall good bad rest n e,
  forallb interception_info_ok good = true ->
  (forall m, interception_entry_of bad m = Raise e) ->
  exists new,
    interception_records n (good ++ bad :: rest) = (new, Raise e) /\
    List.length new = List.length good.
Proof.
  induction good as [| g good IH]; intros bad rest n e Hg Hbad.
  - exists []. simpl. rewrite Hbad. split; reflexivity.
  - simpl in Hg. apply andb_prop in Hg. destruct Hg as [Hg1 Hg].
    destruct (@interception_entry_of_defined g n Hg1) as [r Hr].
    destruct (IH bad rest (n + 1) e Hg Hbad) as [new [E Hl]].
    exists (r :: new). simpl. rewrite Hr, E. simpl. split; [reflexivity | now rewrite Hl].
Qed.

Lemma py_truediv_not_number : forall v b,
  as_number v = None -> py_truediv v b = Raise TypeError.
Proof. intros v b H. unfold py_truediv. now rewrite H. Qed.

(** X7. A start_frame (or, for an interception, a frame) that is
    present and is not a number, None included, is not replaced by a
    default: the method raises TypeError at that dict.  The records of
    the dicts before it are appended, the dicts after it are not
    read. *)
Theorem event_with_non_numeric_frame_raises :
  (forall good bad rest fn st v,
     forallb pass_info_ok good = true ->
     dict_find bad (KStr "start_frame") = Some v ->
     as_number v = None ->
     exists new,
       extract_pass_data (good ++ bad :: rest) fn st
       = (extend_pass st new, Raise TypeError) /\
       List.length new = List.length good) /\
  (forall good bad rest fn st v,
     forallb interception_info_ok good = true ->
     dict_find bad (KStr "frame") = Some v ->
     as_number v = None ->
     exists new,
       extract_interception_data (good ++ bad :: rest) fn st
       = (extend_interception st new, Raise TypeError) /\
       List.length new = List.length good).
Proof.
  split; intros good bad rest fn st v Hg Hf Hv.
  - destruct (@pass_records_stop good bad rest (len (pass_data st)) TypeError Hg)
      as [new [E Hl]].
    { intros m. unfold pass_entry_of, dict_get. rewrite Hf.
      now rewrite py_truediv_not_number. }
    exists new. rewrite extract_pass_data_records_of, E. now split.
  - destruct (@interception_records_stop good bad rest
                (len (interception_data st)) TypeError Hg) as [new [E Hl]].
    { intros m. unfold interception_entry_of, dict_get. rewrite Hf.
      now rewrite py_truediv_not_number. }
    exists new. rewrite extract_interception_data_records_of, E. now split.
Qed.

Lemma event_with_non_numeric_frame_raises_witness :
  forallb pass_info_ok example_passes = true /\
  dict_find pass_with_none_start (KStr "start_frame") = Some PNone /\
  as_number PNone = None /\
  exists new,
    extract_pass_data (example_passes ++ pass_with_none_start :: example_passes)
      [] (init "a")
    = (extend_pass (init "a") new, Raise TypeError) /\
    List.length new = List.length example_passes.
Proof.
  do 3 (split; [reflexivity |]).
  destruct event_with_non_numeric_frame_raises as [H _].
  apply (H example_passes pass_with_none_start example_passes [] (init "a") PNone);
    reflexivity.
Defined.

Lemma gather_stop : forall T (good : list (chunk T)) lb e rest,
  Forall (fun c => snd c = Ok tt) good ->
  gather (good ++ (lb, Raise e) :: rest)
  = (List.concat (map fst good) ++ lb, Raise e).
Proof.
  induction good as [| [l o] good IH]; intros lb e rest H; simpl.
  - reflexivity.
  - inversion H as [| ? ? Ho Hgood]; subst. simpl in Ho. subst o.
    rewrite (IH lb e rest Hgood). simpl. now rewrite app_assoc.
Qed.

Lemma possession_entry_of_not_iterable : forall frame_num possession_info,
  possession_iterable possession_info = false ->
  possession_entry_of frame_num possession_info = Raise TypeError.
Proof.
  intros f [d | l | [| b | z | x | s]] H; try discriminate; reflexivity.
Qed.

(** X8. [extract_team_possession_data] raises TypeError at the first
    frame whose possession value cannot be walked (an int such as -1, a
    float, a bool or None): the records of the frames before it are
    appended, one per frame, and the frames after it are not read. *)
Theorem possession_that_cannot_be_walked_raises :
  forall good bad rest fn st,
    forallb possession_iterable good = true ->
    possession_iterable bad = false ->
    forallb small_int fn = true ->
    len good <= 2 ^ 63 ->
    exists new,
      extract_team_possession_data (good ++ bad :: rest) fn st
      = (extend_team_possession st new, Raise TypeError) /\
      List.length new = List.length good.
Proof.
  intros good bad rest fn st Hgood Hbad Hfn Hlen.
  rewrite extract_team_possession_data_records_of. unfold possession_records.
  unfold enumerate. rewrite enumerate_from_app, map_app.
  cbn [enumerate_from map].
  assert (Hb : possession_chunk fn (0 + len good, bad) = ([], Raise TypeError)).
  { unfold possession_chunk.
    change (fst (0 + len good, bad)) with (len good). simpl fst. simpl snd. unfold len.
    rewrite frame_num_of_total.
    now rewrite possession_entry_of_not_iterable. }
  rewrite Hb.
  assert (Hone : Forall (fun c => exists r, c = ([r], Ok tt))
                   (map (possession_chunk fn) (enumerate_from 0 good))).
  { apply Forall_forall. intros c Hc. apply in_map_iff in Hc.
    destruct Hc as [[idx p] [<- Hin]].
    apply enumerate_In in Hin. destruct Hin as [n [-> Ep]].
    destruct (@frame_num_small _ good fn _ p Hfn Hlen Ep) as [f [Hf Hs]].
    unfold possession_chunk. simpl fst. simpl snd. rewrite Hf.
    assert (Hok : possession_iterable p = true).
    { rewrite forallb_forall in Hgood. apply Hgood.
      eapply nth_error_In; eauto. }
    destruct (@possession_entry_of_defined f p Hok Hs) as [r Hr].
    rewrite Hr. now exists r. }
  rewrite gather_stop.
  - eexists. split; [reflexivity |]. cbn [fst]. rewrite app_nil_r.
    assert (Hl : forall z, List.length (enumerate_from z good) = List.length good).
    { clear. induction good; intros z; simpl; [reflexivity |].
      now rewrite IHgood. }
    rewrite <- (Hl 0), <- (length_map (possession_chunk fn)).
    clear - Hone.
    induction Hone as [| c cs [r ->] _ IH]; simpl; [reflexivity |].
    now rewrite IH.
  - eapply Forall_impl; [| exact Hone]. intros c [r ->]. reflexivity.
Qed.

Lemma possession_that_cannot_be_walked_raises_witness :
  forallb possession_iterable [PossList [KInt 7]] = true /\
  possession_iterable (PossOther (SInt (-1))) = false /\
  forallb small_int [0; 1; 2] = true /\
  len [PossList [KInt 7]] <= 2 ^ 63 /\
  exists new,
    extract_team_possession_data
      ([PossList [KInt 7]] ++ PossOther (SInt (-1)) :: [PossList [KInt 8]])
      [0; 1; 2] (init "a")
    = (extend_team_possession (init "a") new, Raise TypeError) /\
    List.length new = List.length [PossList [KInt 7]].
Proof.
  assert (L : len [PossList [KInt 7]] <= 2 ^ 63) by (unfold len; simpl; lia).
  do 3 (split; [reflexivity |]). split; [exact L |].
  apply (@possession_that_cannot_be_walked_raises [PossList [KInt 7]]
           (PossOther (SInt (-1))) [PossList [KInt 8]] [0; 1; 2] (init "a"));
    try reflexivity.
  exact L.
Defined.

(* ================================================================== *)
(** ** What a team-possession record holds *)
(* ================================================================== *)

Lemma key_eqb_sym : forall a b, key_eqb a b = key_eqb b a.
Proof.
  intros [x | s] [y | t]; simpl; try reflexivity.
  - apply Z.eqb_sym.
  - apply String.eqb_sym.
Qed.

Lemma dict_set_keys : forall d k v,
  dict_keys (dict_set d k v)
  = if list_mem (dict_keys d) k then dict_keys d else dict_keys d ++ [k].
Proof.
  induction d as [| [k' v'] d IH]; intros k v; simpl; [reflexivity |].
  rewrite (key_eqb_sym k k').
  destruct (key_eqb k' k) eqn:E; simpl; [reflexivity |].
  fold (dict_keys d). fold (list_mem (dict_keys d) k).
  unfold dict_keys in *. rewrite IH.
  now destruct (list_mem (map fst d) k).
Qed.

Lemma dict_set_values : forall d k v (P : pyval -> Prop),
  P v -> (forall kv, In kv d -> P (snd kv)) ->
  forall kv, In kv (dict_set d k v) -> P (snd kv).
Proof.
  induction d as [| [k' v'] d IH]; intros k v P Hv Hd kv Hin; simpl in Hin.
  - destruct Hin as [<- | []]. exact Hv.
  - destruct (key_eqb k' k).
    + destruct Hin as [<- | Hin]; [exact Hv |]. apply Hd. now right.
    + destruct Hin as [<- | Hin]; [apply (Hd (k', v')); now left |].
      eapply IH; eauto. intros kv' H'. apply Hd. now right.
Qed.

Lemma filter_twice : forall A (f g h : A -> bool) l,
  (forall x, h x = g x && f x) -> filter f (filter g l) = filter h l.
Proof.
  intros A f g h l H. induction l as [| x l IH]; simpl; [reflexivity |].
  rewrite H. destruct (g x); simpl; [| exact IH].
  destruct (f x); now rewrite IH.
Qed.

Lemma mark_from_keys : forall ids d,
  dict_keys (fold_left (fun team_possession player_id =>
                          dict_set team_possession player_id (PInt 1))
               ids d)
  = dict_keys d
    ++ filter (fun k => negb (list_mem (dict_keys d) k))
         (distinct key_eqb ids).
Proof.
  induction ids as [| x ps IH]; intros d; simpl.
  - now rewrite app_nil_r.
  - rewrite IH, dict_set_keys.
    destruct (list_mem (dict_keys d) x) eqn:Ex; simpl.
    + f_equal. symmetry. apply filter_twice. intros k.
      destruct (key_eqb x k) eqn:Exk; simpl; [| reflexivity].
      apply key_eqb_eq in Exk. subst. now rewrite Ex.
    + rewrite <- app_assoc. simpl. do 2 f_equal.
      symmetry. apply filter_twice. intros k.
      unfold list_mem. rewrite existsb_app. simpl. rewrite orb_false_r.
      rewrite (key_eqb_sym k x).
      destruct (existsb (key_eqb k) (dict_keys d)), (key_eqb x k); reflexivity.
Qed.

Lemma mark_from_values : forall ids d,
  (forall kv, In kv d -> snd kv = PInt 1) ->
  forall kv,
    In kv (fold_left (fun team_possession player_id =>
                        dict_set team_possession player_id (PInt 1))
             ids d) ->
    snd kv = PInt 1.
Proof.
  induction ids as [| x ps IH]; intros d Hd kv Hin; simpl in Hin.
  - now apply Hd.
  - eapply IH; [| exact Hin].
    intros kv' H'. eapply (@dict_set_values d x (PInt 1)); eauto.
Qed.

Lemma distinct_length : forall A (eqb : A -> A -> bool) l,
  (List.length (distinct eqb l) <= List.length l)%nat.
Proof.
  induction l as [| x l IH]; simpl; [lia |].
  pose proof (filter_length_le (fun y => negb (eqb x y)) (distinct eqb l)).
  lia.
Qed.

(** X9. A team-possession record marks each player of the frame's
    possession value once, in the order of first appearance, with the
    constant 1, while [total_players_with_ball] is the length of the
    possession value itself: a player listed twice is counted twice in
    the total and once in the marks, so the marks are never more than
    the total. *)
Theorem possession_record_marks_each_player_once :
  forall frame_num possession_info r,
    possession_entry_of frame_num possession_info = Ok r ->
    exists players,
      possession_iter possession_info = Ok players /\
      dict_keys (PossessionEntry.possession_data r)
      = distinct key_eqb players /\
      (forall player_id v,
         In (player_id, v) (PossessionEntry.possession_data r) -> v = PInt 1) /\
      PossessionEntry.total_players_with_ball r = len players /\
      len (PossessionEntry.possession_data r)
      <= PossessionEntry.total_players_with_ball r.
Proof.
  intros f p r H. unfold possession_entry_of in H.
  destruct (possession_iter p) as [players | e] eqn:Ei; [| discriminate].
  simpl in H.
  assert (El : possession_len p = Ok (len players)).
  { destruct p as [d | l | [| b | z | x | s]]; simpl in *; try discriminate;
      inversion Ei; subst; try reflexivity.
    - unfold len, dict_keys. now rewrite length_map.
    - unfold len. now rewrite length_map. }
  rewrite El in H. simpl in H.
  destruct (py_truediv (PInt f) FPS) as [t | e]; [| discriminate].
  simpl in H. inversion H; subst; clear H. simpl.
  exists players. split; [reflexivity |].
  assert (K : dict_keys (mark_players players) = distinct key_eqb players).
  { unfold mark_players. rewrite mark_from_keys. simpl.
    generalize (distinct key_eqb players) as l.
    induction l as [| k l IHl]; simpl; [reflexivity | now rewrite IHl]. }
  split; [exact K |]. split; [| split; [reflexivity |]].
  - intros k v Hin.
    apply (@mark_from_values players [] (fun _ F => match F with end) (k, v) Hin).
  - unfold len. apply inj_le.
    rewrite <- (length_map fst (mark_players players)).
    fold (dict_keys (mark_players players)). rewrite K.
    apply distinct_length.
Qed.

Lemma possession_record_marks_each_player_once_witness :
  exists r,
    possession_entry_of 3 (PossList [KInt 7; KInt 9; KInt 7]) = Ok r /\
    exists players,
      possession_iter (PossList [KInt 7; KInt 9; KInt 7]) = Ok players /\
      dict_keys (PossessionEntry.possession_data r)
      = distinct key_eqb players /\
      (forall player_id v,
         In (player_id, v) (PossessionEntry.possession_data r) -> v = PInt 1) /\
      PossessionEntry.total_players_with_ball r = len players /\
      len (PossessionEntry.possession_data r)
      <= PossessionEntry.total_players_with_ball r.
Proof.
  destruct (@possession_entry_of_defined 3 (PossList [KInt 7; KInt 9; KInt 7])
              eq_refl eq_refl) as [r Hr].
  exists r. split; [exact Hr |].
  exact (@possession_record_marks_each_player_once 3
           (PossList [KInt 7; KInt 9; KInt 7]) r Hr).
Defined.

(* ================================================================== *)
(** ** Frames [zip] leaves out *)
(* ================================================================== *)

Lemma zip3_firstn : forall A B C (a : list A) (b : list B) (c : list C),
  zip3 a b c
  = zip3 (firstn (Nat.min (List.length a)
                    (Nat.min (List.length b) (List.length c))) a)
         (firstn (Nat.min (List.length a)
                    (Nat.min (List.length b) (List.length c))) b)
         (firstn (Nat.min (List.length a)
                    (Nat.min (List.length b) (List.length c))) c).
Proof.
  induction a as [| x a IH]; intros b c; [reflexivity |].
  destruct b as [| y b]; [reflexivity |].
  destruct c as [| z c]; [reflexivity |].
  simpl. f_equal. apply IH.
Qed.

Lemma zip3_length : forall A B C (a : list A) (b : list B) (c : list C),
  List.length (zip3 a b c)
  = Nat.min (List.length a) (Nat.min (List.length b) (List.length c)).
Proof.
  induction a as [| x a IH]; intros b c; [reflexivity |].
  destruct b as [| y b]; [reflexivity |].
  destruct c as [| z c]; [reflexivity |].
  simpl. f_equal. apply IH.
Qed.

(** X10. [extract_player_data] reads only as many frames as the
    shortest of its three per-frame lists has: the frames the longer
    lists have beyond that are dropped without an error, so the call is
    the call on the three lists cut to that length. *)
Theorem player_frames_beyond_the_shortest_list_are_dropped :
  forall pt pa ba fn st,
    extract_player_data pt pa ba fn st
    = extract_player_data (firstn (zipped_frames pt pa ba) pt)
        (firstn (zipped_frames pt pa ba) pa)
        (firstn (zipped_frames pt pa ba) ba) fn st /\
    List.length (zip3 pt pa ba) = zipped_frames pt pa ba.
Proof.
  intros pt pa ba fn st. unfold extract_player_data, zipped_frames.
  rewrite <- zip3_firstn. split; [reflexivity | apply zip3_length].
Qed.

(* ================================================================== *)
(** ** What holds of every record of a reachable state *)
(* ================================================================== *)

Lemma Forall_extend : forall T (P : T -> Prop) old new,
  Forall P old -> Forall P new -> Forall P (old ++ new).
Proof. intros. apply Forall_app. now split. Qed.

(** A property every record has when it is built holds of every record
    of every reachable state. *)
Lemma reachable_each_record :
  forall (Pplayer : PlayerEntry.t -> Prop) (Pball : BallEntry.t -> Prop)
         (Ppass : PassEntry.t -> Prop)
         (Pinterception : InterceptionEntry.t -> Prop)
         (Pspeed : SpeedEntry.t -> Prop)
         (Ppossession : PossessionEntry.t -> Prop),
    (forall f a p id t r, player_entry_of f a p id t = Ok r -> Pplayer r) ->
    (forall f info r, ball_entry_of f info = Ok r -> Pball r) ->
    (forall info n r, pass_entry_of info n = Ok r -> Ppass r) ->
    (forall info n r, interception_entry_of info n = Ok r -> Pinterception r) ->
    (forall f id s r, speed_entry_of f id s = Ok r -> Pspeed r) ->
    (forall f p r, possession_entry_of f p = Ok r -> Ppossession r) ->
    forall st, reachable st ->
      each_record Pplayer Pball Ppass Pinterception Pspeed Ppossession st.
Proof.
  intros Ppl Pb Ppa Pi Ps Ppo Hpl Hb Hpa Hi Hs Hpo st H.
  induction H as [dir | st c H IH].
  - unfold each_record, init; simpl. split_six; constructor.
  - destruct IH as (I1 & I2 & I3 & I4 & I5 & I6).
    destruct c as [pt pa ba fn | bt fn | ps fn | xs fn | sp fn | ba fn]; simpl.
    + destruct (extract_player_data_appends pt pa ba fn st) as [new [-> Hn]].
      split_six; simpl; auto. apply Forall_extend; [exact I1 |].
      eapply Forall_impl; [| exact Hn].
      intros r (n & t & a & p & ti & f & _ & _ & _ & _ & _ & He). eauto.
    + destruct (extract_ball_data_appends bt fn st) as [new [-> Hn]].
      split_six; simpl; auto. apply Forall_extend; [exact I2 |].
      eapply Forall_impl; [| exact Hn].
      intros r (n & bi & f & _ & _ & _ & He). eauto.
    + destruct (extract_pass_data_appends ps fn st) as [new [-> Hn]].
      split_six; simpl; auto. apply Forall_extend; [exact I3 |].
      eapply Forall_impl; [| exact Hn].
      intros r (info & n & _ & He). eauto.
    + destruct (extract_interception_data_appends xs fn st) as [new [-> Hn]].
      split_six; simpl; auto. apply Forall_extend; [exact I4 |].
      eapply Forall_impl; [| exact Hn].
      intros r (info & n & _ & He). eauto.
    + destruct (extract_speed_data_appends sp fn st) as [new [-> Hn]].
      split_six; simpl; auto. apply Forall_extend; [exact I5 |].
      eapply Forall_impl; [| exact Hn].
      intros r (n & si & f & _ & _ & _ & He). eauto.
    + destruct (extract_team_possession_data_appends ba fn st) as [new [-> Hn]].
      split_six; simpl; auto. apply Forall_extend; [exact I6 |].
      eapply Forall_impl; [| exact Hn].
      intros r (n & pi & f & _ & _ & He). eauto.
Qed.

Lemma speed_entry_of_ok : forall f id s r,
  speed_entry_of f id s = Ok r -> speed_record_ok r.
Proof.
  intros f id s r H. unfold speed_entry_of in H.
  destruct (py_mul_float s 3.6) as [kmh | e] eqn:Ek; [| discriminate].
  simpl in H.
  destruct (py_truediv (PInt f) FPS) as [t | e]; [| discriminate].
  simpl in H. inversion H; subst; clear H. unfold speed_record_ok; simpl.
  unfold py_mul_float in Ek.
  destruct (as_number s) as [x |]; [| discriminate].
  destruct (to_float x) as [fl | e] eqn:Ef; [| discriminate].
  simpl in Ek. inversion Ek; subst. eauto.
Qed.

Lemma speed_entry_of_not_number : forall f id s,
  is_number s = false -> speed_entry_of f id s = Raise TypeError.
Proof.
  intros f id s H. unfold speed_entry_of, py_mul_float, is_number in *.
  destruct (as_number s); [discriminate | reflexivity].
Qed.

(** X11. In every state the extractor can reach, each speed record
    holds a speed that is a number (a bool, an int or a float) and a
    speed in km/h that is this number, taken as a float, times 3.6.  A
    speed that is not a number (None, a string, a list) gives no record:
    building the record raises TypeError. *)
Theorem speed_records_hold_numbers :
  (forall st, reachable st ->
     forall r, In r (speed_data st) -> speed_record_ok r) /\
  (forall frame_num player_id speed,
     is_number speed = false ->
     speed_entry_of frame_num player_id speed = Raise TypeError).
Proof.
  split.
  - intros st H r Hin.
    destruct (@reachable_each_record (fun _ => True) (fun _ => True)
                (fun _ => True) (fun _ => True) speed_record_ok (fun _ => True))
      with (st := st) as (_ & _ & _ & _ & Hs & _); auto.
    + apply speed_entry_of_ok.
    + rewrite Forall_forall in Hs. now apply Hs.
  - apply speed_entry_of_not_number.
Qed.

Lemma speed_records_hold_numbers_witness :
  reachable example_speed_state /\
  forall r, In r (speed_data example_speed_state) -> speed_record_ok r.
Proof.
  assert (R : reachable example_speed_state).
  { apply (reach_call (CallSpeed example_speeds [])), reach_init. }
  split; [exact R |].
  destruct speed_records_hold_numbers as [H _]. exact (H _ R).
Defined.

Lemma py_add_number : forall a b s,
  py_add a b = Ok s -> is_number s = true ->
  is_number a && is_number b = true.
Proof.
  intros a b s H Hs. unfold py_add, is_number in *.
  destruct (as_number a) as [x |] eqn:Ea; destruct (as_number b) as [y |] eqn:Eb;
    try reflexivity;
    destruct a as [[] | | |], b as [[] | | |]; simpl in *; try discriminate;
    inversion H; subst; discriminate.
Qed.

Lemma py_truediv_number : forall a b c,
  py_truediv a b = Ok c -> is_number a = true.
Proof.
  intros a b c H. unfold py_truediv, is_number in *.
  destruct (as_number a); [reflexivity | discriminate].
Qed.

Lemma ball_entry_of_ok : forall f info r,
  ball_entry_of f info = Ok r -> ball_record_ok r.
Proof.
  intros f info r H. apply ball_entry_of_spec in H.
  destruct H as (track & bbox & n & _ & _ & _ & Hfull & Hshort).
  destruct (Z_lt_le_dec n 4) as [Hn | Hn].
  - left. now apply Hshort.
  - right. destruct (Hfull Hn) as (_ & _ & _ & _ & Hx & Hy).
    destruct Hx as (sx & cx & Ax & Dx & Cx).
    destruct Hy as (sy & cy & Ay & Dy & Cy).
    apply py_truediv_number in Dx. apply py_truediv_number in Dy.
    pose proof (py_add_number _ _ Ax Dx) as Nx.
    pose proof (py_add_number _ _ Ay Dy) as Ny.
    apply andb_prop in Nx. apply andb_prop in Ny.
    destruct Nx as [N1 N2], Ny as [N3 N4].
    split; [now rewrite N1, N2, N3, N4 | eauto].
Qed.

(** X12. In every state the extractor can reach, a ball record has
    either no box at all (the four box fields and the two center fields
    are None together) or a box of four numbers with a center of two
    floats. *)
Theorem ball_records_have_a_numeric_box_or_none :
  forall st, reachable st ->
    forall r, In r (ball_data st) -> ball_record_ok r.
Proof.
  intros st H r Hin.
  destruct (@reachable_each_record (fun _ => True) ball_record_ok
              (fun _ => True) (fun _ => True) (fun _ => True) (fun _ => True))
    with (st := st) as (_ & Hb & _); auto.
  - apply ball_entry_of_ok.
  - rewrite Forall_forall in Hb. now apply Hb.
Qed.

Lemma ball_records_have_a_numeric_box_or_none_witness :
  reachable (fst (extract_ball_data example_ball_tracks [] (init "a"))) /\
  forall r,
    In r (ball_data (fst (extract_ball_data example_ball_tracks [] (init "a")))) ->
    ball_record_ok r.
Proof.
  assert (R : reachable
                (fst (extract_ball_data example_ball_tracks [] (init "a")))).
  { apply (reach_call (CallBall example_ball_tracks [])), reach_init. }
  split; [exact R |].
  exact (@ball_records_have_a_numeric_box_or_none _ R).
Defined.

(* ================================================================== *)
(** ** Identifiers the methods give *)
(* ================================================================== *)

Lemma pass_records_length : forall passes n,
  (List.length (fst (pass_records n passes)) <= List.length passes)%nat.
Proof.
  induction passes as [| p passes IH]; intros n; simpl; [lia |].
  destruct (pass_entry_of p n); simpl; [| lia].
  specialize (IH (n + 1)). lia.
Qed.

Lemma interception_records_length : forall xs n,
  (List.length (fst (interception_records n xs)) <= List.length xs)%nat.
Proof.
  induction xs as [| p xs IH]; intros n; simpl; [lia |].
  destruct (interception_entry_of p n); simpl; [| lia].
  specialize (IH (n + 1)). lia.
Qed.

Lemma nth_error_input : forall A B (l : list A) (new : list B) i r,
  (List.length new <= List.length l)%nat ->
  nth_error new i = Some r -> exists x, nth_error l i = Some x.
Proof.
  intros A B l new i r Hl Hr.
  destruct (nth_error l i) as [x |] eqn:E; [eauto |].
  apply nth_error_None in E.
  assert (i < List.length new)%nat by (apply nth_error_Some; congruence). lia.
Qed.

Lemma numbered_in_order_call : forall st c,
  gives_no_id c = true -> numbered_in_order st ->
  numbered_in_order (fst (run c st)).
Proof.
  intros st c Hc [Hp Hi].
  destruct c as [pt pa ba fn | bt fn | ps fn | xs fn | sp fn | ba fn]; simpl.
  - rewrite extract_player_data_records_of. split; assumption.
  - rewrite extract_ball_data_records_of. split; assumption.
  - rewrite extract_pass_data_records_of. split; [| exact Hi]. simpl.
    intros i r Hr.
    destruct (Nat.lt_ge_cases i (List.length (pass_data st))) as [Hlt | Hge].
    + rewrite nth_error_app1 in Hr by exact Hlt. now apply Hp.
    + rewrite nth_error_app2 in Hr by exact Hge.
      destruct (@nth_error_input _ _ ps _ _ _ (pass_records_length ps _) Hr)
        as [info Hinfo].
      pose proof (@pass_records_nth _ _ _ _ _ Hinfo Hr) as He.
      unfold pass_entry_of in He. inv_try He. inversion He; subst; simpl.
      simpl in Hc. rewrite forallb_forall in Hc.
      specialize (Hc info (nth_error_In _ _ Hinfo)).
      unfold dict_mem, dict_get in *.
      destruct (dict_find info (KStr "pass_id")); [discriminate |].
      unfold len. do 2 f_equal. lia.
  - rewrite extract_interception_data_records_of. split; [exact Hp |]. simpl.
    intros i r Hr.
    destruct (Nat.lt_ge_cases i (List.length (interception_data st)))
      as [Hlt | Hge].
    + rewrite nth_error_app1 in Hr by exact Hlt. now apply Hi.
    + rewrite nth_error_app2 in Hr by exact Hge.
      destruct (@nth_error_input _ _ xs _ _ _
                  (interception_records_length xs _) Hr) as [info Hinfo].
      pose proof (@interception_records_nth _ _ _ _ _ Hinfo Hr) as He.
      unfold interception_entry_of in He. inv_try He.
      inversion He; subst; simpl.
      simpl in Hc. rewrite forallb_forall in Hc.
      specialize (Hc info (nth_error_In _ _ Hinfo)).
      unfold dict_mem, dict_get in *.
      destruct (dict_find info (KStr "interception_id")); [discriminate |].
      unfold len. do 2 f_equal. lia.
  - rewrite extract_speed_data_records_of. split; assumption.
  - rewrite extract_team_possession_data_records_of. split; assumption.
Qed.

(** X13. When no pass dict gives a pass_id and no interception dict an
    interception_id, the identifiers the methods give number the
    records from 0 in the order they were appended, over any number of
    calls and whatever other calls come between them and whether calls
    raise: the record at place [i] of the collection has identifier
    [i]. *)
Theorem default_identifiers_count_from_zero :
  forall calls output_dir,
    forallb gives_no_id calls = true ->
    numbered_in_order (run_all calls (init output_dir)).
Proof.
  intros calls dir H.
  assert (G : forall st, numbered_in_order st ->
                         numbered_in_order (run_all calls st)).
  { induction calls as [| c calls IH]; intros st Hst; simpl; [exact Hst |].
    simpl in H. apply andb_prop in H. destruct H as [Hc H].
    apply IH; [exact H |]. now apply numbered_in_order_call. }
  apply G. split; intros i r Hr; destruct i; discriminate.
Qed.

Lemma default_identifiers_count_from_zero_witness :
  forallb gives_no_id example_calls = true /\
  numbered_in_order (run_all example_calls (init "extracted_data")).
Proof.
  split; [reflexivity |].
  apply (@default_identifiers_count_from_zero example_calls "extracted_data").
  reflexivity.
Defined.

(* ================================================================== *)
(** ** C10: events that report no frame *)
(* ================================================================== *)










(* ================================================================== *)
(** ** The summary of a state with player records *)
(* ================================================================== *)

Lemma hashable_returns : forall l,
  forallb is_hashable l = true -> hashable l = Ok l.
Proof. intros l H. unfold hashable. now rewrite H. Qed.

Lemma hashable_raises : forall l,
  forallb is_hashable l = false -> hashable l = Raise TypeError.
Proof. intros l H. unfold hashable. now rewrite H. Qed.

Lemma hashable_returned : forall l items,
  hashable l = Ok items -> items = l.
Proof.
  intros l items H. unfold hashable in H.
  destruct (forallb is_hashable l); [now inversion H | discriminate].
Qed.

Lemma distinct_In : forall A (eqb : A -> A -> bool) l x,
  In x (distinct eqb l) -> In x l.
Proof.
  induction l as [| y l IH]; intros x H; simpl in *; [exact H |].
  destruct H as [H | H]; [now left |].
  apply filter_In in H. right. apply IH. now destruct H.
Qed.

Lemma distinct_positive : forall A (eqb : A -> A -> bool) x l,
  (1 <= List.length (distinct eqb (x :: l)))%nat.
Proof. intros. simpl. lia. Qed.

Lemma float_max_In : forall rest first,
  In (float_max first rest) (first :: rest).
Proof.
  unfold float_max. induction rest as [| x rest IH]; intros first; simpl.
  - now left.
  - destruct (IH (if PrimFloat.ltb first x then x else first)) as [H | H].
    + rewrite <- H. destruct (PrimFloat.ltb first x); auto.
    + auto.
Qed.

(** X14. [generate_summary_report] puts the teams of the player records
    in a set, so a team that is not hashable (a list, a dict, or a
    tuple that holds one) makes it raise TypeError, whatever else the
    state holds; when every team is hashable (a string, a number, a
    bool, None, or a tuple of such values) and the speeds are floats or
    64-bit ints, it returns. *)
Theorem summary_needs_hashable_teams :
  (forall st r,
     In r (player_data st) ->
     is_hashable (PlayerEntry.team r) = false ->
     generate_summary_report st = Raise TypeError) /\
  (forall st,
     forallb (fun r => is_hashable (PlayerEntry.team r)) (player_data st)
     = true ->
     forallb (fun e => small_number (SpeedEntry.speed_mps e)) (speed_data st)
     = true ->
     len (speed_data st) <= 2 ^ 63 ->
     exists s, generate_summary_report st = Ok s).
Proof.
  split.
  - intros st r Hin Hr. unfold generate_summary_report.
    destruct (player_data st) as [| p ps] eqn:Hpd; [contradiction |].
    rewrite <- Hpd in *. unfold py_set.
    rewrite hashable_raises; [reflexivity |].
    apply not_true_is_false. intros Hall. rewrite forallb_forall in Hall.
    assert (Hk : In (PlayerEntry.team r)
                   (filter known_team (map PlayerEntry.team (player_data st)))).
    { apply filter_In. split; [now apply in_map |].
      destruct (PlayerEntry.team r) as [a | | |]; try reflexivity.
      discriminate. }
    specialize (Hall _ Hk). congruence.
  - intros st Ht Hs Hlen. unfold generate_summary_report.
    assert (Hteams : exists teams,
               match player_data st with
               | [] => Ok []
               | _ => py_set (filter known_team
                                (map PlayerEntry.team (player_data st)))
               end = Ok teams).
    { destruct (player_data st) as [| p ps] eqn:Hpd; [eauto |].
      rewrite <- Hpd in *. unfold py_set.
      rewrite hashable_returns; [simpl; eauto |].
      apply forallb_forall. intros v Hv. apply filter_In in Hv.
      destruct Hv as [Hv _]. apply in_map_iff in Hv.
      destruct Hv as [r [<- Hr]]. rewrite forallb_forall in Ht. now apply Ht. }
    destruct Hteams as [teams ->]. simpl.
    destruct (speed_data st) as [| e l] eqn:Hsd; simpl; [eauto |].
    rewrite <- Hsd in *. destruct (average_defined _ Hs Hlen) as [avg ->].
    simpl. eauto.
Qed.

Lemma summary_needs_hashable_teams_witness :
  forallb (fun r => is_hashable (PlayerEntry.team r)) (player_data example_state)
  = true /\
  forallb (fun e => small_number (SpeedEntry.speed_mps e))
    (speed_data example_state) = true /\
  len (speed_data example_state) <= 2 ^ 63 /\
  exists s, generate_summary_report example_state = Ok s.
Proof.
  assert (L : len (speed_data example_state) <= 2 ^ 63)
    by (vm_compute; discriminate).
  do 2 (split; [reflexivity |]). split; [exact L |].
  destruct summary_needs_hashable_teams as [_ H].
  apply (H example_state); [reflexivity | reflexivity | exact L].
Defined.

(** X15. When [generate_summary_report] returns for a state with player
    records, the number of frames and the number of players it reports
    are at least 1 and at most the number of player records; every team
    it lists is the team of some player record and none is "Unknown";
    and the duration is the timestamp of one of the player records. *)
Theorem summary_of_player_records :
  forall st s,
    generate_summary_report st = Ok s ->
    player_data st <> [] ->
    1 <= Summary.total_frames_analyzed s <= len (player_data st) /\
    1 <= Summary.total_players_detected s <= len (player_data st) /\
    (forall team,
       In team (Summary.teams_detected s) ->
       team <> PStr "Unknown" /\
       exists r, In r (player_data st) /\ PlayerEntry.team r = team) /\
    exists r,
      In r (player_data st) /\
      Summary.analysis_duration_seconds s = PFloat (PlayerEntry.timestamp r).
Proof.
  intros st s H Hne. unfold generate_summary_report in H.
  destruct (player_data st) as [| p ps] eqn:Hpd; [contradiction |].
  rewrite <- Hpd in *.
  destruct (py_set (filter known_team (map PlayerEntry.team (player_data st))))
    as [teams | e] eqn:Et; [| discriminate].
  simpl in H.
  match type of H with
  | rbind ?m _ = _ => destruct m as [avg | e]; [| discriminate]
  end.
  simpl in H. inversion H; subst; clear H. simpl.
  assert (Hlen : forall B (f : PlayerEntry.t -> B) (eqb : B -> B -> bool),
            1 <= len (distinct eqb (map f (player_data st)))
            <= len (player_data st)).
  { intros B f eqb. unfold len.
    pose proof (distinct_length eqb (map f (player_data st))) as Hd.
    rewrite length_map in Hd. rewrite Hpd in *. simpl in *. lia. }
  split; [apply Hlen |]. split; [apply Hlen |]. split.
  - intros team Hin. unfold py_set in Et.
    destruct (hashable (filter known_team
                          (map PlayerEntry.team (player_data st))))
      as [items |] eqn:Eh; [| discriminate].
    simpl in Et. inversion Et; subst; clear Et.
    apply distinct_In in Hin. apply hashable_returned in Eh.
    assert (Hk : In team
                   (filter known_team (map PlayerEntry.team (player_data st)))).
    { now rewrite <- Eh. }
    apply filter_In in Hk. destruct Hk as [Hm Hk]. split.
    + intros ->. discriminate.
    + apply in_map_iff in Hm. destruct Hm as [r [Hr Hin']]. eauto.
  - rewrite Hpd. simpl map.
    destruct (float_max_In (map PlayerEntry.timestamp ps)
                (PlayerEntry.timestamp p)) as [Hm | Hm].
    + exists p. split; [now left | now rewrite <- Hm].
    + apply in_map_iff in Hm. destruct Hm as [r [Hr Hin]].
      exists r. split; [now right | now rewrite Hr].
Qed.

Lemma summary_of_player_records_witness :
  exists s,
    generate_summary_report example_state = Ok s /\
    player_data example_state <> [] /\
    1 <= Summary.total_frames_analyzed s <= len (player_data example_state) /\
    1 <= Summary.total_players_detected s <= len (player_data example_state) /\
    (forall team,
       In team (Summary.teams_detected s) ->
       team <> PStr "Unknown" /\
       exists r, In r (player_data example_state) /\
                 PlayerEntry.team r = team) /\
    exists r,
      In r (player_data example_state) /\
      Summary.analysis_duration_seconds s = PFloat (PlayerEntry.timestamp r).
Proof.
  destruct (generate_summary_report example_state) as [s | e] eqn:E;
    [| vm_compute in E; discriminate].
  assert (N : player_data example_state <> []) by (vm_compute; discriminate).
  exists s. split; [reflexivity |]. split; [exact N |].
  exact (@summary_of_player_records example_state s E N).
Defined.

(* ================================================================== *)
(** ** The JSON file, collection by collection *)
(* ================================================================== *)











(** X18. The counts in the metadata block of the JSON file are those of
    the summary for players, passes and interceptions; the frame count
    is not: it is the number of player records divided by 10, rounded
    down (the test for an empty list changes nothing), so with one to
    nine player records the file says 0 frames where the summary counts
    at least one. *)
Theorem metadata_counts_and_summary_counts :
  forall now st s,
    generate_summary_report st = Ok s ->
    metadata now st
    = PDict [ field "extraction_time" (PStr (isoformat now));
              field "total_frames" (PInt (len (player_data st) / 10));
              field "total_players" (PInt (Summary.total_players_detected s));
              field "total_passes" (PInt (Summary.total_passes s));
              field "total_interceptions"
                (PInt (Summary.total_interceptions s)) ] /\
    (0 < len (player_data st) < 10 ->
     len (player_data st) / 10 = 0 /\ 1 <= Summary.total_frames_analyzed s).
Proof.
  intros now st s H. unfold generate_summary_report in H. inv_try H.
  inversion H; subst; clear H. unfold metadata, data. simpl.
  split.
  - destruct (player_data st); reflexivity.
  - intros Hl. split; [apply Z.div_small; lia |].
    destruct (player_data st) as [| p ps]; [unfold len in Hl; simpl in Hl; lia |].
    unfold len. pose proof (distinct_positive Z.eqb (PlayerEntry.frame p)
                              (map PlayerEntry.frame ps)) as Hd.
    simpl map. lia.
Qed.

Lemma metadata_counts_and_summary_counts_witness :
  exists s,
    generate_summary_report example_state = Ok s /\
    metadata example_clock example_state
    = PDict [ field "extraction_time" (PStr (isoformat example_clock));
              field "total_frames" (PInt (len (player_data example_state) / 10));
              field "total_players" (PInt (Summary.total_players_detected s));
              field "total_passes" (PInt (Summary.total_passes s));
              field "total_interceptions"
                (PInt (Summary.total_interceptions s)) ] /\
    (0 < len (player_data example_state) < 10 ->
     len (player_data example_state) / 10 = 0 /\
     1 <= Summary.total_frames_analyzed s).
Proof.
  destruct (generate_summary_report example_state) as [s | e] eqn:E;
    [| vm_compute in E; discriminate].
  exists s. split; [reflexivity |].
  exact (@metadata_counts_and_summary_counts example_clock example_state s E).
Defined.

(* ================================================================== *)
(** ** The CSV files *)
(* ================================================================== *)

Lemma path_join_cases : forall a b,
  path_join a b
  = if starts_with_slash b then b
    else match last_char a with
         | None => b
         | Some l =>
             if Ascii.eqb l "/" then String.append a b
             else String.append a (String.append "/" b)
         end.
Proof.
  intros a b.
  assert (H : forall x y,
            match last_char a with
            | None => b
            | Some "/"%char => x
            | Some _ => y
            end
            = match last_char a with
              | None => b
              | Some l => if Ascii.eqb l "/" then x else y
              end).
  { intros x y. destruct (last_char a) as [l |]; [| reflexivity].
    destruct l as [[] [] [] [] [] [] [] []]; reflexivity. }
  unfold path_join. destruct b as [| c b']; [apply H |].
  destruct c as [[] [] [] [] [] [] [] []];
    first [reflexivity | apply (H _ _)].
Qed.

Lemma append_cancel : forall a x y,
  String.append a x = String.append a y -> x = y.
Proof.
  induction a as [| c a IH]; intros x y H; simpl in H; [exact H |].
  inversion H. now apply IH.
Qed.

(** Two names after one prefix are joined to different paths. *)
Lemma path_join_after_prefix : forall a p c s1 s2,
  path_join a (String.append p (String c s1))
  = path_join a (String.append p (String c s2)) ->
  s1 = s2.
Proof.
  intros a p c s1 s2 H. rewrite !path_join_cases in H.
  assert (Hs : starts_with_slash (String.append p (String c s1))
               = starts_with_slash (String.append p (String c s2))).
  { destruct p; reflexivity. }
  rewrite <- Hs in H.
  assert (G : String.append p (String c s1) = String.append p (String c s2)).
  { destruct (starts_with_slash (String.append p (String c s1))); [exact H |].
    destruct (last_char a) as [l |]; [| exact H].
    destruct (Ascii.eqb l "/").
    - now apply append_cancel in H.
    - apply append_cancel in H. now apply (append_cancel "/") in H. }
  apply append_cancel in G. now inversion G.
Qed.

Lemma csv_path_injective : forall now prefix st n1 n2,
  In n1 (map fst (data_types st)) -> In n2 (map fst (data_types st)) ->
  csv_path now prefix st n1 = csv_path now prefix st n2 -> n1 = n2.
Proof.
  intros now prefix st n1 n2 H1 H2 H. unfold csv_path in H. simpl in H1, H2.
  repeat (destruct H1 as [<- | H1]); try contradiction;
    repeat (destruct H2 as [<- | H2]); try contradiction;
    try reflexivity;
    apply path_join_after_prefix in H; discriminate.
Qed.

Lemma save_to_csv_fold : forall (path : string -> string) types fs saved,
  fold_left
    (fun (acc : tables * list string) (item : string * list pyval) =>
       if list_truthy (snd item) then
         ((path (fst item), snd item) :: fst acc, snd acc ++ [path (fst item)])
       else acc)
    types (fs, saved)
  = (rev (map (fun item => (path (fst item), snd item))
            (filter (fun item => list_truthy (snd item)) types)) ++ fs,
     saved ++ map (fun item => path (fst item))
                (filter (fun item => list_truthy (snd item)) types)).
Proof.
  induction types as [| [name data] types IH]; intros fs saved; simpl.
  - now rewrite app_nil_r.
  - destruct (list_truthy data); simpl; rewrite IH; [| reflexivity].
    now rewrite <- !app_assoc.
Qed.

Lemma save_to_csv_written : forall now prefix fs st,
  save_to_csv now prefix fs st
  = (rev (map (fun item => (csv_path now prefix st (fst item), snd item))
            (written_types st)) ++ fs,
     map (fun item => csv_path now prefix st (fst item)) (written_types st)).
Proof.
  intros now prefix fs st. unfold save_to_csv, written_types.
  apply (save_to_csv_fold (csv_path now prefix st) (data_types st) fs []).
Qed.

Lemma NoDup_map_on : forall A B (f : A -> B) l,
  (forall x y, In x l -> In y l -> f x = f y -> x = y) ->
  NoDup l -> NoDup (map f l).
Proof.
  intros A B f l Hinj Hnd. induction Hnd as [| x l Hx Hnd IH]; simpl.
  - constructor.
  - constructor.
    + intros Hin. apply in_map_iff in Hin. destruct Hin as [y [Hy Hin]].
      assert (y = x) by (apply Hinj; simpl; auto). subst. contradiction.
    + apply IH. intros a b Ha Hb. apply Hinj; simpl; auto.
Qed.

Lemma written_names : forall st,
  NoDup (map fst (written_types st)) /\
  forall n, In n (map fst (written_types st)) -> In n (map fst (data_types st)).
Proof.
  intros st. unfold written_types. split.
  - assert (Hnd : NoDup (map fst (data_types st))).
    { simpl. repeat constructor; simpl; intuition discriminate. }
    revert Hnd. generalize (data_types st) as l.
    induction l as [| [n d] l IH]; intros Hnd; simpl; [constructor |].
    inversion Hnd as [| ? ? Hn Hl]; subst.
    destruct (list_truthy d); simpl; [| now apply IH].
    constructor; [| now apply IH].
    intros Hin. apply Hn. apply in_map_iff in Hin.
    destruct Hin as [[n' d'] [<- Hin]]. apply filter_In in Hin.
    apply in_map_iff. exists (n', d'). split; [reflexivity | apply Hin].
  - intros n Hin. apply in_map_iff in Hin. destruct Hin as [item [<- Hin]].
    apply filter_In in Hin. apply in_map. apply Hin.
Qed.

Lemma read_table_app_in : forall l fs p t,
  NoDup (map fst l) -> In (p, t) l -> read_table (l ++ fs) p = Some t.
Proof.
  induction l as [| [q u] l IH]; intros fs p t Hnd Hin; [contradiction |].
  simpl in *. inversion Hnd as [| ? ? Hq Hl]; subst.
  destruct Hin as [Hin | Hin].
  - inversion Hin; subst. now rewrite String.eqb_refl.
  - destruct (String.eqb q p) eqn:E; [| now apply IH].
    apply String.eqb_eq in E. subst q. exfalso. apply Hq.
    apply in_map_iff. now exists (p, t).
Qed.

Lemma read_table_app_out : forall l fs p,
  ~ In p (map fst l) -> read_table (l ++ fs) p = read_table fs p.
Proof.
  induction l as [| [q u] l IH]; intros fs p Hout; [reflexivity |].
  simpl in *. destruct (String.eqb q p) eqn:E.
  - apply String.eqb_eq in E. subst q. exfalso. apply Hout. now left.
  - apply IH. intros Hin. apply Hout. now right.
Qed.

Lemma csv_paths_nodup : forall now prefix st,
  NoDup (map (fun item => csv_path now prefix st (fst item)) (written_types st)).
Proof.
  intros now prefix st. destruct (written_names st) as [Hnd Hsub].
  rewrite <- (map_map fst (csv_path now prefix st)).
  apply NoDup_map_on; [| exact Hnd].
  intros x y Hx Hy. apply csv_path_injective; auto.
Qed.

(** X19. [save_to_csv] writes one file for each collection that holds a
    record and none for an empty one: the paths it returns are those of
    the non-empty collections, in the order player, ball, pass,
    interception, speed, team possession; they are pairwise different;
    each file holds the records of its collection; and no other path is
    written, so with every collection empty nothing is written and the
    list returned is empty. *)
Theorem save_to_csv_writes_the_non_empty_collections :
  forall now filename_prefix fs st,
    snd (save_to_csv now filename_prefix fs st)
    = map (fun item => csv_path now filename_prefix st (fst item))
        (written_types st) /\
    NoDup (snd (save_to_csv now filename_prefix fs st)) /\
    (forall data_type records,
       In (data_type, records) (written_types st) ->
       read_table (fst (save_to_csv now filename_prefix fs st))
         (csv_path now filename_prefix st data_type) = Some records) /\
    (forall path,
       ~ In path (snd (save_to_csv now filename_prefix fs st)) ->
       read_table (fst (save_to_csv now filename_prefix fs st)) path
       = read_table fs path) /\
    (written_types st = [] ->
     save_to_csv now filename_prefix fs st = (fs, [])).
Proof.
  intros now prefix fs st. rewrite save_to_csv_written. cbn [fst snd].
  pose proof (csv_paths_nodup now prefix st) as Hnd.
  assert (Hfst : map fst (rev (map (fun item =>
                                      (csv_path now prefix st (fst item),
                                       snd item)) (written_types st)))
                 = rev (map (fun item => csv_path now prefix st (fst item))
                          (written_types st))).
  { rewrite <- map_rev, map_map, map_rev. reflexivity. }
  split; [reflexivity |]. split; [exact Hnd |]. split; [| split].
  - intros name records Hin. apply read_table_app_in.
    + rewrite Hfst. now apply NoDup_rev.
    + apply -> in_rev.
      apply (in_map (fun item => (csv_path now prefix st (fst item), snd item))
               _ _ Hin).
  - intros path Hout. apply read_table_app_out. rewrite Hfst.
    intros Hin. apply Hout. now apply in_rev.
  - intros ->. reflexivity.
Qed.

(** X20. With pass records and nothing else, [save_to_csv] returns one
    path, the one of the pass file. *)
Theorem save_to_csv_with_passes_only :
  forall now filename_prefix fs st,
    pass_data st <> [] ->
    player_data st = [] -> ball_data st = [] -> interception_data st = [] ->
    speed_data st = [] -> team_possession_data st = [] ->
    save_to_csv now filename_prefix fs st
    = ((csv_path now filename_prefix st "pass_data",
        map pass_entry_py (pass_data st)) :: fs,
       [csv_path now filename_prefix st "pass_data"]).
Proof.
  intros now prefix fs st Hp H1 H2 H3 H4 H5.
  unfold save_to_csv, data_types, csv_path. rewrite H1, H2, H3, H4, H5.
  destruct (pass_data st) as [| p ps]; [contradiction |]. reflexivity.
Qed.

Lemma save_to_csv_with_passes_only_witness :
  save_to_csv example_clock None []
    (fst (extract_pass_data example_passes [] (init "out")))
  = ((csv_path example_clock None
        (fst (extract_pass_data example_passes [] (init "out"))) "pass_data",
      map pass_entry_py
        (pass_data (fst (extract_pass_data example_passes [] (init "out")))))
     :: [],
     [csv_path example_clock None
        (fst (extract_pass_data example_passes [] (init "out"))) "pass_data"]).
Proof.
  apply (@save_to_csv_with_passes_only example_clock None []
           (fst (extract_pass_data example_passes [] (init "out"))));
    [vm_compute; discriminate | reflexivity ..].
Defined.

(* ================================================================== *)
(** ** After a failure; after a return *)
(* ================================================================== *)

Lemma for_each_raised_prefix : forall A (a b : list A) (body : A -> M unit) st e,
  snd (for_each a body st) = Raise e ->
  for_each (a ++ b) body st = for_each a body st.
Proof.
  intros A a b body st e H. rewrite for_each_app.
  destruct (for_each a body st) as [st1 [u | e']]; [discriminate | reflexivity].
Qed.

Lemma zip3_app : forall A B C (a : list A) (b : list B) (c : list C) a' b' c',
  List.length a = List.length b -> List.length b = List.length c ->
  zip3 (a ++ a') (b ++ b') (c ++ c') = zip3 a b c ++ zip3 a' b' c'.
Proof.
  induction a as [| x a IH]; intros b c a' b' c' H1 H2.
  - destruct b; [| discriminate]. destruct c; [| discriminate]. reflexivity.
  - destruct b as [| y b]; [discriminate |].
    destruct c as [| z c]; [discriminate |].
    simpl. f_equal. apply IH; simpl in *; congruence.
Qed.

(** X21. Once a frame makes a frame-indexed method raise, the frames
    after it play no part: the call on a longer list that starts with
    the same frames leaves the same state and raises the same
    exception. *)
Theorem frames_after_a_failure_are_not_read :
  (forall pt pa ba pt' pa' ba' fn st e,
     List.length pt = List.length pa -> List.length pa = List.length ba ->
     snd (extract_player_data pt pa ba fn st) = Raise e ->
     extract_player_data (pt ++ pt') (pa ++ pa') (ba ++ ba') fn st
     = extract_player_data pt pa ba fn st) /\
  (forall bt bt' fn st e,
     snd (extract_ball_data bt fn st) = Raise e ->
     extract_ball_data (bt ++ bt') fn st = extract_ball_data bt fn st) /\
  (forall sp sp' fn st e,
     snd (extract_speed_data sp fn st) = Raise e ->
     extract_speed_data (sp ++ sp') fn st = extract_speed_data sp fn st) /\
  (forall ba ba' fn st e,
     snd (extract_team_possession_data ba fn st) = Raise e ->
     extract_team_possession_data (ba ++ ba') fn st
     = extract_team_possession_data ba fn st).
Proof.
  split; [| split; [| split]].
  - intros pt pa ba pt' pa' ba' fn st e H1 H2 H.
    unfold extract_player_data in *. rewrite zip3_app by assumption.
    unfold enumerate in *. rewrite enumerate_from_app.
    eapply for_each_raised_prefix; eauto.
  - intros bt bt' fn st e H. unfold extract_ball_data, enumerate in *.
    rewrite enumerate_from_app. eapply for_each_raised_prefix; eauto.
  - intros sp sp' fn st e H. unfold extract_speed_data, enumerate in *.
    rewrite enumerate_from_app. eapply for_each_raised_prefix; eauto.
  - intros ba ba' fn st e H. unfold extract_team_possession_data, enumerate in *.
    rewrite enumerate_from_app. eapply for_each_raised_prefix; eauto.
Qed.

Lemma frames_after_a_failure_are_not_read_witness :
  snd (extract_speed_data [[(KStr "p1", PNone)]] [] (init "a"))
  = Raise TypeError /\
  extract_speed_data ([[(KStr "p1", PNone)]] ++ example_speeds) [] (init "a")
  = extract_speed_data [[(KStr "p1", PNone)]] [] (init "a").
Proof.
  split; [reflexivity |].
  destruct frames_after_a_failure_are_not_read as (_ & _ & H & _).
  apply (H [[(KStr "p1", PNone)]] example_speeds [] (init "a") TypeError).
  reflexivity.
Defined.

Lemma gather_returned : forall T (steps : list (chunk T)),
  snd (gather steps) = Ok tt ->
  fst (gather steps) = List.concat (map fst steps) /\
  Forall (fun c => snd c = Ok tt) steps.
Proof.
  induction steps as [| [l [[] | e]] steps IH]; simpl; intros H.
  - split; [reflexivity | constructor].
  - destruct (IH H) as [-> Hall]. split; [reflexivity |].
    constructor; [reflexivity | exact Hall].
  - discriminate.
Qed.

Lemma gather_one_returned : forall A T (f : A -> result T) xs,
  snd (gather (map (fun x => one (f x)) xs)) = Ok tt ->
  Forall2 (fun x r => f x = Ok r) xs
    (fst (gather (map (fun x => one (f x)) xs))).
Proof.
  induction xs as [| x xs IH]; simpl; intros H; [constructor |].
  destruct (f x) as [r | e] eqn:E; simpl in *; [| discriminate].
  constructor; [exact E | now apply IH].
Qed.

Lemma rows_of_steps : forall A T R (step : A -> chunk T) (f : T -> R)
    (g : A -> list R) l,
  (forall x, In x l -> snd (step x) = Ok tt -> map f (fst (step x)) = g x) ->
  Forall (fun c => snd c = Ok tt) (map step l) ->
  map f (List.concat (map fst (map step l))) = flat_map g l.
Proof.
  induction l as [| x l IH]; intros Hstep Hall; simpl; [reflexivity |].
  inversion Hall as [| ? ? Hx Hl]; subst.
  rewrite map_app, (Hstep x (or_introl eq_refl) Hx). f_equal.
  apply IH; [| exact Hl]. intros y Hy. apply Hstep. now right.
Qed.

Lemma flat_map_one : forall A B (g : A -> B) l,
  flat_map (fun x => [g x]) l = map g l.
Proof.
  induction l as [| x l IH]; simpl; [reflexivity | now rewrite IH].
Qed.

(** X22. When they return, [extract_player_data] has appended one
    record for each track of each frame it paired up,
    [extract_speed_data] one record for each speed of each frame, and
    [extract_team_possession_data] one record for each frame: in the
    order of the frames and, within a frame, of the dict, each with its
    frame number, its player and (for a speed record) the speed
    given. *)
Theorem returned_calls_add_one_record_per_item :
  (forall pt pa ba fn st st',
     extract_player_data pt pa ba fn st = (st', Ok tt) ->
     exists new,
       st' = extend_player st new /\
       map (fun r => (PlayerEntry.frame r, PlayerEntry.player_id r)) new
       = player_rows pt pa ba fn) /\
  (forall sp fn st st',
     extract_speed_data sp fn st = (st', Ok tt) ->
     exists new,
       st' = extend_speed st new /\
       map (fun r => (SpeedEntry.frame r, SpeedEntry.player_id r,
                      SpeedEntry.speed_mps r)) new
       = speed_rows sp fn) /\
  (forall ba fn st st',
     extract_team_possession_data ba fn st = (st', Ok tt) ->
     exists new,
       st' = extend_team_possession st new /\
       map PossessionEntry.frame new = possession_rows ba fn).
Proof.
  split; [| split].
  - intros pt pa ba fn st st' H. rewrite extract_player_data_records_of in H.
    inversion H as [[Hst Hok]]. eexists. split; [reflexivity |].
    unfold player_records in *. destruct (gather_returned _ Hok) as [-> Hall].
    unfold player_rows. apply rows_of_steps; [| exact Hall].
    intros [idx [[tracks assignment] possession]] Hin Hx.
    apply enumerate_In in Hin. destruct Hin as [n [-> _]].
    unfold player_chunk in *. cbn beta iota in *. cbn [fst snd] in *.
    rewrite frame_num_of_total in *.
    rewrite Nat2Z.id. fold (frame_number fn n) in *.
    apply (@gather_one_returned _ _
             (fun kv => player_entry_of (frame_number fn n) assignment
                          possession (fst kv) (snd kv))) in Hx.
    induction Hx as [| kv r l l' Hr _ IH]; simpl; [reflexivity |].
    apply player_entry_of_id in Hr. destruct Hr as [-> ->]. now rewrite IH.
  - intros sp fn st st' H. rewrite extract_speed_data_records_of in H.
    inversion H as [[Hst Hok]]. eexists. split; [reflexivity |].
    unfold speed_records in *. destruct (gather_returned _ Hok) as [-> Hall].
    unfold speed_rows. apply rows_of_steps; [| exact Hall].
    intros [idx info] Hin Hx.
    apply enumerate_In in Hin. destruct Hin as [n [-> _]].
    unfold speed_chunk in *. cbn beta in *. cbn [fst snd] in *.
    rewrite frame_num_of_total in *.
    rewrite Nat2Z.id. fold (frame_number fn n) in *.
    apply (@gather_one_returned _ _
             (fun kv => speed_entry_of (frame_number fn n) (fst kv) (snd kv)))
      in Hx.
    induction Hx as [| kv r l l' Hr _ IH]; simpl; [reflexivity |].
    apply speed_entry_of_fields in Hr. destruct Hr as (-> & -> & ->).
    now rewrite IH.
  - intros ba fn st st' H. rewrite extract_team_possession_data_records_of in H.
    inversion H as [[Hst Hok]]. eexists. split; [reflexivity |].
    unfold possession_records in *.
    destruct (gather_returned _ Hok) as [-> Hall].
    unfold possession_rows.
    rewrite <- (flat_map_one
                  (fun item : Z * possession =>
                     frame_number fn (Z.to_nat (fst item))) (enumerate ba)).
    apply rows_of_steps; [| exact Hall].
    intros [idx p] Hin Hx.
    apply enumerate_In in Hin. destruct Hin as [n [-> _]].
    unfold possession_chunk in *. cbn beta in *. cbn [fst snd] in *.
    rewrite frame_num_of_total in *.
    rewrite Nat2Z.id. fold (frame_number fn n) in *.
    destruct (possession_entry_of (frame_number fn n) p) as [r | e] eqn:E;
      [| discriminate].
    apply possession_entry_of_frame in E. simpl. now rewrite E.
Qed.

Lemma returned_calls_add_one_record_per_item_witness :
  extract_speed_data example_speeds [] (init "a")
  = (fst (extract_speed_data example_speeds [] (init "a")), Ok tt) /\
  exists new,
    fst (extract_speed_data example_speeds [] (init "a"))
    = extend_speed (init "a") new /\
    map (fun r => (SpeedEntry.frame r, SpeedEntry.player_id r,
                   SpeedEntry.speed_mps r)) new
    = speed_rows example_speeds [].
Proof.
  assert (E : extract_speed_data example_speeds [] (init "a")
              = (fst (extract_speed_data example_speeds [] (init "a")), Ok tt))
    by reflexivity.
  split; [exact E |].
  destruct returned_calls_add_one_record_per_item as (_ & H & _).
  exact (H example_speeds [] (init "a") _ E).
Defined.
